(** * Sentiment dashboard and forecast scripts: a shallow embedding

    The development follows [deployment.py] (the dashboard) and
    [plot_sentiment.py] (the forecast script).  Both scripts are pandas
    programs: a table is a list of column names together with its rows, a
    row maps a column name to a cell, and a cell is dynamically typed.
    Library procedures whose code is not part of the repository
    (pandas' parsers and sort, Python's [re], Prophet) are interfaces with
    the laws their documentation gives; the scripts are written against the
    interfaces.

    Scores are Python floats.  A cell holds the rational number its float
    denotes; infinities and signed zeros are outside the model.  The
    arithmetic of [Series.mean] is floating-point arithmetic done by the
    library, so the mean of a list of numbers is part of the library
    interface and no exact quotient is assumed for it.  Text is modelled by
    ASCII strings. *)

From Stdlib Require Import ZArith QArith Qround String Ascii List DecimalString.
From Stdlib Require Import Sorting.Sorted Sorting.Permutation Lia.
From stdpp Require Import base option list gmap strings sorting.

Local Open Scope string_scope.

(** ** Cells, exceptions and results *)

(** A cell of a table.  [NA] stands for pandas' missing value in all its
    guises ([NaN], [NaT], [None]). *)
Inductive value : Type :=
| NA
| Str (s : string)
| Num (q : Q)
| Ts (t : Z)      (* a [datetime64[ns]] timestamp: nanoseconds since the epoch *)
| Day (d : Z).    (* a [datetime.date]: days since the epoch *)

Inductive exn : Type :=
| KeyError (c : string)
| IndexError
| FileNotFoundError (path : string)
| ValueError (msg : string)
| AttributeError (msg : string)
| ReError (pat : string).

(** Outcome of a computation that may raise. *)
Inductive result (A : Type) : Type :=
| Ok (a : A)
| Raise (e : exn).
Arguments Ok {A} a.
Arguments Raise {A} e.

#[global] Instance result_ret : MRet result := fun _ a => Ok a.
#[global] Instance result_bind : MBind result := fun _ _ f m =>
  match m with
  | Ok a => f a
  | Raise e => Raise e
  end.

Definition isna (v : value) : bool :=
  match v with NA => true | _ => false end.

Definition notna (v : value) : bool := negb (isna v).

(** ** Tables *)

Record DataFrame : Type := mkDataFrame {
  columns : list string;
  rows : list (gmap string value)
}.

(** [r[c]] for a row of a table that has column [c]. *)
Definition cell (r : gmap string value) (c : string) : value :=
  default NA (r !! c).

(** [df[c]]: the cells of column [c], or [KeyError]. *)
Definition getitem (df : DataFrame) (c : string) : result (list value) :=
  if decide (c ∈ columns df) then Ok ((fun r => cell r c) <$> rows df)
  else Raise (KeyError c).

(** The column names after an assignment to column [c]. *)
Definition add_column (cs : list string) (c : string) : list string :=
  if decide (c ∈ cs) then cs else cs ++ [c].

(** [df[c] = vs]: replaces column [c], or appends it as the last column. *)
Definition setitem (df : DataFrame) (c : string) (vs : list value) : DataFrame :=
  {| columns := add_column (columns df) c;
     rows := zip_with (fun r v => <[c := v]> r) (rows df) vs |}.

(** [df.dropna(subset=cs)]: [KeyError] when a name of [cs] is no column,
    else the rows that have no missing cell in the columns [cs]. *)
Definition dropna (cs : list string) (df : DataFrame) : result DataFrame :=
  match List.filter (fun c => negb (bool_decide (c ∈ columns df))) cs with
  | c :: _ => Raise (KeyError c)
  | [] =>
      Ok {| columns := columns df;
            rows := List.filter (fun r => forallb (fun c => notna (cell r c)) cs)
                      (rows df) |}
  end.

(** [df.loc[mask]] for a boolean mask aligned with the rows. *)
Definition loc (df : DataFrame) (mask : list bool) : DataFrame :=
  {| columns := columns df;
     rows := snd <$> List.filter fst (zip mask (rows df)) |}.

(** [df.empty]: one of the two axes has length 0. *)
Definition empty (df : DataFrame) : bool :=
  match rows df, columns df with
  | [], _ | _, [] => true
  | _, _ => false
  end.

(** [pd.DataFrame(columns=cs)] *)
Definition DataFrame_of_columns (cs : list string) : DataFrame :=
  {| columns := cs; rows := [] |}.

(** ** Cell-wise operations of the scripts *)

Definition ns_per_day : Z := 86400000000000.

(** [.dt.date] and [Timestamp.date()]: the calendar day of a timestamp,
    no zone conversion. *)
Definition dt_date (v : value) : value :=
  match v with
  | Ts t => Day (t / ns_per_day)
  | _ => NA
  end.

(** [.fillna(s)] on a cell *)
Definition fillna (s : string) (v : value) : value :=
  match v with NA => Str s | _ => v end.

Definition lower_ascii (a : ascii) : ascii :=
  let n := nat_of_ascii a in
  if (65 <=? n)%nat && (n <=? 90)%nat then ascii_of_nat (n + 32) else a.

(** [str.lower] *)
Fixpoint lower (s : string) : string :=
  match s with
  | EmptyString => EmptyString
  | String a s' => String (lower_ascii a) (lower s')
  end.

(** [.str.lower()] on a cell of a column that has the [.str] accessor:
    cells that hold no text become missing. *)
Definition str_lower (v : value) : value :=
  match v with
  | Str s => Str (lower s)
  | _ => NA
  end.

Definition is_number (v : value) : bool :=
  match v with Num _ => true | _ => false end.

(** [col.str]: pandas gives the accessor to columns of text, to mixed
    columns and to columns without rows; on a column of numbers (a numeric
    dtype) the attribute lookup raises [AttributeError]. *)
Definition str_accessor (col : list value) : result (list value) :=
  match col with
  | [] => Ok []
  | _ :: _ =>
      if forallb is_number col
      then Raise (AttributeError "Can only use .str accessor with string values!")
      else Ok col
  end.

(** Python's [str.isspace] on the ASCII range. *)
Definition is_space (a : ascii) : bool :=
  let n := nat_of_ascii a in
  ((9 <=? n)%nat && (n <=? 13)%nat) || ((28 <=? n)%nat && (n <=? 32)%nat).

Fixpoint lstrip (s : string) : string :=
  match s with
  | EmptyString => EmptyString
  | String a s' => if is_space a then lstrip s' else s
  end.

Fixpoint rstrip (s : string) : string :=
  match s with
  | EmptyString => EmptyString
  | String a s' =>
      match rstrip s' with
      | EmptyString => if is_space a then EmptyString else String a EmptyString
      | t => String a t
      end
  end.

(** [str.strip()] *)
Definition strip (s : string) : string := rstrip (lstrip s).

(** [needle in hay] for Python strings *)
Fixpoint contains (needle hay : string) : bool :=
  String.prefix needle hay ||
  match hay with
  | EmptyString => false
  | String _ hay' => contains needle hay'
  end.

(** ** The library interface *)

(** Characters with a meaning of their own in a Python regular expression. *)
Definition re_special (a : ascii) : bool :=
  bool_decide (a ∈ list_ascii_of_string ".^$*+?{}[]\|()").

Fixpoint plain (pat : string) : bool :=
  match pat with
  | EmptyString => true
  | String a pat' => negb (re_special a) && plain pat'
  end.

(** The order relation of a boolean comparison. *)
Definition leb_rel {A} (le : A → A → bool) : relation A := fun x y => le x y = true.

#[global] Instance leb_rel_dec {A} (le : A → A → bool) x y : Decision (leb_rel le x y).
Proof. unfold leb_rel. apply _. Defined.

Definition is_num (v : value) : Prop := v = NA ∨ ∃ q, v = Num q.
Definition is_ts (v : value) : Prop := v = NA ∨ ∃ t, v = Ts t.

(** What the scripts use of pandas and [re], with the documented contracts:
    - [pd.to_numeric(col, errors="coerce")] works on a whole column, keeps
      its length, and yields a number or a missing value in every position;
    - [pd.to_datetime(col, errors="coerce")] works on a whole column and
      may still raise (on timestamps with mixed UTC offsets, for one, which
      it refuses to put into one column); when it returns, the column has
      the length of its input and holds a timestamp or a missing value in
      every position;
    - [Series.mean()] of a non-empty list of numbers is the library's
      floating-point mean, [float_mean]; no law is assumed for it;
    - the default sort ([kind="quicksort"]) returns a sorted rearrangement
      of its input; which one it picks among equal keys is not part of
      the contract;
    - [re.compile(pat)] raises or yields a matcher; for a pattern without
      special characters [search] is substring containment. *)
Class Pandas : Type := {
  to_numeric : list value → list value;
  to_datetime : list value → result (list value);
  float_mean : list Q → Q;
  sort_by : ∀ {A : Type}, (A → A → bool) → list A → list A;
  re_compile : string → result (string → bool);
  to_numeric_length : ∀ l, length (to_numeric l) = length l;
  to_numeric_num : ∀ l, Forall is_num (to_numeric l);
  to_datetime_length : ∀ l ts, to_datetime l = Ok ts → length ts = length l;
  to_datetime_ts : ∀ l ts, to_datetime l = Ok ts → Forall is_ts ts;
  sort_by_perm : ∀ A (le : A → A → bool) l, sort_by le l ≡ₚ l;
  sort_by_sorted : ∀ A (le : A → A → bool) l,
    (∀ x y, le x y = true ∨ le y x = true) →
    (∀ x y z, le x y = true → le y z = true → le x z = true) →
    StronglySorted (leb_rel le) (sort_by le l);
  re_compile_plain : ∀ pat, plain pat = true →
    ∃ m, re_compile pat = Ok m ∧ ∀ s, m s = contains pat s
}.

(** ** [deployment.py]: [load_data] *)

Definition CSV_FILE : string := "aggregated_data.csv".

Definition raw_columns : list string :=
  ["id"; "platform"; "url"; "title_or_text"; "source"; "published";
   "vader_sentiment"; "scores"; "llm_sentiment"; "llm_confidence";
   "llm_summary"; "saved_at"].

(** The file system as the scripts see it: [pd.read_csv(path)] yields the
    table stored under [path], if there is a file. *)
Definition filesystem : Type := string → option DataFrame.

Section LoadData.
Context `{Pandas}.

(** [df[c] = f(df[c])] when [c] is a column, [df] unchanged otherwise. *)
Definition coerce_if_present (f : list value → result (list value)) (c : string)
    (df : DataFrame) : result DataFrame :=
  match getitem df c with
  | Ok col => vs ← f col; Ok (setitem df c vs)
  | Raise _ => Ok df
  end.

Definition load_data (fs : filesystem) (path : string) : result DataFrame :=
  match fs path with
  | None => Ok (DataFrame_of_columns raw_columns)
  | Some df =>
      (* types *)
      df ← coerce_if_present (fun col => Ok (to_numeric col)) "scores" df;
      df ← coerce_if_present to_datetime "published" df;
      (* derived *)
      published ← getitem df "published";
      let df := setitem df "date" (dt_date <$> published) in
      title ← getitem df "title_or_text";
      text ← str_accessor (fillna "" <$> title);
      let df := setitem df "keyword_hint" (str_lower <$> text) in
      dropna ["published"; "scores"] df
  end.

End LoadData.

(** ** Series operations *)

(** The numbers held by a column; missing cells are skipped, as pandas'
    reductions do ([skipna=True]). *)
Definition nums (l : list value) : list Q :=
  omap (fun v => match v with Num q => Some q | _ => None end) l.

Definition Qsum (l : list Q) : Q := foldr Qplus 0%Q l.

Definition Qlen {A} (l : list A) : Q := inject_Z (Z.of_nat (length l)).

(** [Series.mean()]: [NaN] for a series without numbers, else the
    library's mean of the numbers. *)
Definition series_mean `{Pandas} (l : list value) : value :=
  match nums l with
  | [] => NA
  | qs => Num (float_mean qs)
  end.

(** [Series.sum()] of a boolean series *)
Definition count_true (l : list bool) : nat := length (List.filter id l).

(** [Series.mean()] of a boolean series *)
Definition bool_mean (l : list bool) : value :=
  match l with
  | [] => NA
  | _ => Num (Qlen (List.filter id l) / Qlen l)
  end.

(** [Series.min()] and [Series.max()] of a timestamp column *)
Definition ts_fold (f : Z → Z → Z) (l : list value) : value :=
  foldr (fun v acc =>
           match v, acc with
           | Ts t, Ts a => Ts (f t a)
           | Ts t, _ => Ts t
           | _, _ => acc
           end) NA l.

Definition ts_min : list value → value := ts_fold Z.min.
Definition ts_max : list value → value := ts_fold Z.max.

(** [col >= v] and [col <= v] on dates, cell by cell: comparisons with a
    missing value are false. *)
Definition date_ge (bound v : value) : bool :=
  match v, bound with
  | Day d, Day b => (b <=? d)%Z
  | _, _ => false
  end.

Definition date_le (bound v : value) : bool :=
  match v, bound with
  | Day d, Day b => (d <=? b)%Z
  | _, _ => false
  end.

Definition score_ge (bound : Q) (v : value) : bool :=
  match v with
  | Num q => Qle_bool bound q
  | _ => false
  end.

Definition score_le (bound : Q) (v : value) : bool :=
  match v with
  | Num q => Qle_bool q bound
  | _ => false
  end.

(** [col.isin(vals)] for a list of strings *)
Definition isin (vals : list string) (v : value) : bool :=
  match v with
  | Str s => bool_decide (s ∈ vals)
  | _ => false
  end.

(** [col.str.contains(pat)], cell by cell, for the compiled pattern *)
Definition str_contains (m : string → bool) (v : value) : bool :=
  match v with
  | Str s => m s
  | _ => false
  end.

(** The number a sort compares a cell by (number, timestamp or date
    columns, the only ones the scripts sort by). *)
Definition number_of (v : value) : Q :=
  match v with
  | Num q => q
  | Ts t => inject_Z t
  | Day d => inject_Z d
  | _ => 0%Q
  end.

Definition value_le (ascending : bool) (v w : value) : bool :=
  if ascending then Qle_bool (number_of v) (number_of w)
  else Qle_bool (number_of w) (number_of v).

(** Sorted distinct keys, as [groupby] orders its groups. *)
Fixpoint insert_unique {K} (ltb : K → K → bool) (k : K) (l : list K) : list K :=
  match l with
  | [] => [k]
  | x :: l' =>
      if ltb k x then k :: l
      else if ltb x k then x :: insert_unique ltb k l'
      else l
  end.

Definition sorted_unique {K} (ltb : K → K → bool) (l : list K) : list K :=
  foldr (insert_unique ltb) [] l.

(** [vals.groupby(keys).mean()]: one entry per distinct key that is not
    missing ([dropna=True]), ordered by key, with the mean of the cells
    of [vals] at the positions of that key. *)
Definition groupby_mean `{Pandas} {K} `{EqDecision K} (ltb : K → K → bool)
    (key_of : value → option K) (keys vals : list value) : list (K * value) :=
  (fun k => (k, series_mean
                  (snd <$> List.filter (fun p => bool_decide (key_of p.1 = Some k))
                                       (zip keys vals))))
    <$> sorted_unique ltb (omap key_of keys).

Definition str_key (v : value) : option string :=
  match v with Str s => Some s | _ => None end.

Definition day_key (v : value) : option Z :=
  match v with Day d => Some d | _ => None end.

Section Sorting.
Context `{Pandas}.

(** [df.sort_values(c, ascending=asc)]: missing values last. *)
Definition sort_values (c : string) (ascending : bool) (df : DataFrame)
    : result DataFrame :=
  if decide (c ∈ columns df) then
    Ok {| columns := columns df;
          rows := sort_by (fun r1 r2 => value_le ascending (cell r1 c) (cell r2 c))
                    (List.filter (fun r => notna (cell r c)) (rows df))
                  ++ List.filter (fun r => isna (cell r c)) (rows df) |}
  else Raise (KeyError c).

(** [s.sort_values(ascending=asc)] for a series indexed by [K] *)
Definition series_sort_values {K} (ascending : bool) (s : list (K * value))
    : list (K * value) :=
  sort_by (fun a b => value_le ascending a.2 b.2)
          (List.filter (fun a => notna a.2) s)
  ++ List.filter (fun a => isna a.2) s.

End Sorting.

(** [df[cs]]: projection on the columns [cs] *)
Definition project (cs : list string) (df : DataFrame) : result DataFrame :=
  match List.filter (fun c => negb (bool_decide (c ∈ columns df))) cs with
  | c :: _ => Raise (KeyError c)
  | [] =>
      Ok {| columns := cs;
            rows := (fun r => list_to_map ((fun c => (c, cell r c)) <$> cs)) <$> rows df |}
  end.

(** [df.head(n)] *)
Definition head (n : nat) (df : DataFrame) : DataFrame :=
  {| columns := columns df; rows := take n (rows df) |}.

(** The records of [df.to_csv(index=False)] below the header line: the
    cells of every row, in column order. *)
Definition to_csv (df : DataFrame) : list (list value) :=
  (fun r => (fun c => cell r c) <$> columns df) <$> rows df.

(** ** [deployment.py]: the dashboard *)

Definition sentiment_label (x : Q) : string :=
  if Qle_bool 0.05 x then "Positive"
  else if Qle_bool x (-0.05) then "Negative"
  else "Neutral".

(** What [st.sidebar.date_input] hands back: one date, or a tuple of
    dates (of length 2 once the range is chosen). *)
Inductive date_input : Type :=
| OneDate (d : Z)
| DateTuple (l : list Z).

(** The state of the sidebar widgets. *)
Record Sidebar : Type := mkSidebar {
  date_range : date_input;
  keyword_text : string;
  sources : list string;
  show_only_alerts : bool
}.

(** [date_range[0] if isinstance(date_range, (list, tuple)) else dflt] *)
Definition range_start (dr : date_input) (dflt : value) : result value :=
  match dr with
  | OneDate _ => Ok dflt
  | DateTuple [] => Raise IndexError
  | DateTuple (d :: _) => Ok (Day d)
  end.

(** [date_range[-1] if isinstance(date_range, (list, tuple)) else dflt] *)
Definition range_end (dr : date_input) (dflt : value) : result value :=
  match dr with
  | OneDate _ => Ok dflt
  | DateTuple l =>
      match last l with
      | None => Raise IndexError
      | Some d => Ok (Day d)
      end
  end.


Record Page : Type := mkPage {
  fdf : DataFrame;
  avg_score : value;
  pos_ratio : value;
  neg_alerts : nat;
  pos_alerts : nat;
  daily : list (Z * value);
  src : list (string * value);
  alerts : DataFrame;
  feed : DataFrame;
  download : list (list value)
}.

Inductive screen : Type :=
| Stopped            (* "No data yet", [st.stop()] *)
| Rendered (p : Page).

Section Dashboard.
Context `{Pandas}.

(** Lines 51 and 62-72: the row mask of the filters. *)
Definition keyword_of (sb : Sidebar) : string := lower (strip (keyword_text sb)).

Definition keyword_mask (keyword : string) (df : DataFrame) (mask : list bool)
    : result (list bool) :=
  if decide (keyword = "") then Ok mask
  else
    hint ← getitem df "keyword_hint";
    m ← re_compile keyword;
    Ok (zip_with andb mask (str_contains m <$> hint)).

Definition alerts_mask (only : bool) (df : DataFrame) (mask : list bool)
    : result (list bool) :=
  if only then
    scores ← getitem df "scores";
    Ok (zip_with andb mask
          (zip_with orb (score_le (-0.5) <$> scores) (score_ge 0.5 <$> scores)))
  else Ok mask.

Definition filter_mask (sb : Sidebar) (df : DataFrame) (min_date max_date : value)
    : result (list bool) :=
  date ← getitem df "date";
  lo ← range_start (date_range sb) min_date;
  hi ← range_end (date_range sb) max_date;
  source ← getitem df "source";
  let mask := zip_with andb
                (zip_with andb (date_ge lo <$> date) (date_le hi <$> date))
                (isin (sources sb) <$> source) in
  mask ← keyword_mask (keyword_of sb) df mask;
  alerts_mask (show_only_alerts sb) df mask.

(** Line 97: [resample("D")] bins the days from the first to the last
    one; the mean of a day without rows is missing and dropped. *)
Definition resample_daily_mean (df : DataFrame) : result (list (Z * value)) :=
  published ← getitem df "published";
  scores ← getitem df "scores";
  match dt_date (ts_min published), dt_date (ts_max published) with
  | Day lo, Day hi =>
      Ok (List.filter (fun p => notna p.2)
            ((fun d => (d, series_mean
                             (snd <$> List.filter
                                (fun p => bool_decide (day_key (dt_date p.1) = Some d))
                                (zip published scores))))
               <$> seqZ lo (hi - lo + 1)))
  | _, _ => Ok []
  end.

(** Lines 114-119: mean score per source, best first, at most 10. *)
Definition top_sources (source scores : list value) : list (string * value) :=
  take 10 (series_sort_values false (groupby_mean String.ltb str_key source scores)).

Definition alert_row (r : gmap string value) : bool :=
  score_le (-0.5) (cell r "scores") || score_ge 0.5 (cell r "scores").

Definition dashboard (fs : filesystem) (sb : Sidebar) : result screen :=
  df ← load_data fs CSV_FILE;
  if empty df then Ok Stopped
  else
    published ← getitem df "published";
    let min_date := dt_date (ts_min published) in
    let max_date := dt_date (ts_max published) in
    _ ← getitem df "source";
    (* apply filters *)
    mask ← filter_mask sb df min_date max_date;
    fdf ← sort_values "published" true (loc df mask);
    (* KPIs *)
    scores ← getitem fdf "scores";
    let avg_score := if negb (empty fdf) then series_mean scores else NA in
    let pos_ratio := if negb (empty fdf) then bool_mean (score_ge 0.05 <$> scores) else NA in
    let neg_alerts := count_true (score_le (-0.5) <$> scores) in
    let pos_alerts := count_true (score_ge 0.5 <$> scores) in
    (* sentiment over time *)
    daily ← resample_daily_mean fdf;
    (* sentiment by source *)
    source ← getitem fdf "source";
    let src := top_sources source scores in
    (* alerts *)
    alerts ← sort_values "published" false
               {| columns := columns fdf; rows := List.filter alert_row (rows fdf) |};
    alerts ← project ["published"; "source"; "title_or_text"; "scores"; "url"] alerts;
    (* news feed *)
    feed ← sort_values "published" false fdf;
    feed ← project ["published"; "source"; "title_or_text"; "scores";
                    "vader_sentiment"; "url"] feed;
    Ok (Rendered {| fdf := fdf; avg_score := avg_score; pos_ratio := pos_ratio;
                    neg_alerts := neg_alerts; pos_alerts := pos_alerts;
                    daily := daily; src := src; alerts := alerts;
                    feed := head 30 feed; download := to_csv fdf |}).

End Dashboard.

(** ** [plot_sentiment.py]: the forecast script *)

(** What the script uses of Prophet.  Fitting, building the future frame
    and predicting are the library's; each may raise. *)
Class Prophet : Type := {
  model : Type;
  fit : DataFrame → result model;
  make_future_dataframe : model → nat → result DataFrame;
  predict : model → DataFrame → result DataFrame
}.

(** A scatter trace: its [x] and [y] data. *)
Definition trace : Type := (list value * list value)%type.

Record Figure : Type := mkFigure {
  actual : trace;
  forecast_line : trace;
  upper_bound : trace;
  lower_bound : trace
}.

Section Forecast.
Context `{Pandas} `{Prophet}.

(** [reset_index()] and [daily.columns = ["ds", "y"]] *)
Definition daily_frame (groups : list (Z * value)) : DataFrame :=
  {| columns := ["ds"; "y"];
     rows := (fun g => {[ "ds" := Day g.1; "y" := g.2 ]}) <$> groups |}.

(** Lines 6-13: load, convert columns, drop invalid rows. *)
Definition valid_rows (fs : filesystem) : result DataFrame :=
  match fs CSV_FILE with
  | None => Raise (FileNotFoundError CSV_FILE)
  | Some df =>
      saved_at ← getitem df "saved_at";
      saved_at ← to_datetime saved_at;
      let df := setitem df "saved_at" saved_at in
      scores ← getitem df "scores";
      let df := setitem df "scores" (to_numeric scores) in
      dropna ["saved_at"; "scores"] df
  end.

(** Lines 16-17: average sentiment per day. *)
Definition daily_of (df : DataFrame) : result DataFrame :=
  saved_at ← getitem df "saved_at";
  scores ← getitem df "scores";
  Ok (daily_frame (groupby_mean Z.ltb day_key (dt_date <$> saved_at) scores)).

(** Lines 23-72: fit, forecast the next 7 days, build the figure. *)
Definition forecast_figure (daily : DataFrame) : result Figure :=
  m ← fit daily;
  future ← make_future_dataframe m 7;
  forecast ← predict m future;
  ds ← getitem daily "ds";
  y ← getitem daily "y";
  fds ← getitem forecast "ds";
  yhat ← getitem forecast "yhat";
  yhat_upper ← getitem forecast "yhat_upper";
  yhat_lower ← getitem forecast "yhat_lower";
  Ok {| actual := (ds, y); forecast_line := (fds, yhat);
        upper_bound := (fds, yhat_upper); lower_bound := (fds, yhat_lower) |}.

(** The whole script: what it shows, or the exception it ends with. *)
Definition plot_sentiment (fs : filesystem) : result Figure :=
  df ← valid_rows fs;
  daily ← daily_of df;
  forecast_figure daily.

End Forecast.

(** The distinct calendar days of a column of timestamps. *)
Definition distinct_days (saved_at : list value) : list Z :=
  sorted_unique Z.ltb (omap day_key (dt_date <$> saved_at)).

(** ** Notions used in the statements *)

(** The cells of column [c], row by row. *)
Definition col (df : DataFrame) (c : string) : list value :=
  (fun r => cell r c) <$> rows df.

Section Normalizer.
Context `{Pandas}.

(** The input rows of [load_data], each with what [to_numeric] made of
    its [scores] cell and its cell of [published], the column that
    [to_datetime] returned. *)
Definition coerced (df : DataFrame) (published : list value)
    : list (gmap string value * value * value) :=
  zip (zip (rows df) (to_numeric (col df "scores"))) published.

(** Both cells parsed. *)
Definition usable (x : gmap string value * value * value) : bool :=
  notna x.2 && notna x.1.2.

(** An input row with its coerced cells and its derived columns. *)
Definition normalise (x : gmap string value * value * value) : gmap string value :=
  <["keyword_hint" := str_lower (fillna "" (cell x.1.1 "title_or_text"))]>
    (<["date" := dt_date x.2]>
       (<["published" := x.2]> (<["scores" := x.1.2]> x.1.1))).

End Normalizer.

(** A row as [load_data] leaves it: a timestamp with its calendar day,
    and a number as score. *)
Definition typed_row (r : gmap string value) : Prop :=
  (∃ t, cell r "published" = Ts t ∧ cell r "date" = Day (t / ns_per_day)) ∧
  (∃ q, cell r "scores" = Num q).

Section Downstream.
Context `{Pandas}.

(** Every output of the page below the filters is computed from the
    table [view]. *)
Definition computed_from (view : DataFrame) (p : Page) : Prop :=
  avg_score p = (if negb (empty view) then series_mean (col view "scores") else NA) ∧
  pos_ratio p = (if negb (empty view)
                 then bool_mean (score_ge 0.05 <$> col view "scores") else NA) ∧
  neg_alerts p = count_true (score_le (-0.5) <$> col view "scores") ∧
  pos_alerts p = count_true (score_ge 0.5 <$> col view "scores") ∧
  resample_daily_mean view = Ok (daily p) ∧
  src p = top_sources (col view "source") (col view "scores") ∧
  (∃ a, sort_values "published" false
          {| columns := columns view; rows := List.filter alert_row (rows view) |}
          = Ok a ∧
        project ["published"; "source"; "title_or_text"; "scores"; "url"] a
          = Ok (alerts p)) ∧
  (∃ f f', sort_values "published" false view = Ok f ∧
           project ["published"; "source"; "title_or_text"; "scores";
                    "vader_sentiment"; "url"] f = Ok f' ∧
           feed p = head 30 f') ∧
  download p = (fun r => (fun c => cell r c) <$> columns view) <$> rows view.

End Downstream.

(** The page of a run that rendered one. *)
Definition blank_page : Page :=
  {| fdf := DataFrame_of_columns []; avg_score := NA; pos_ratio := NA;
     neg_alerts := 0; pos_alerts := 0; daily := []; src := [];
     alerts := DataFrame_of_columns []; feed := DataFrame_of_columns [];
     download := [] |}.

Definition page_of (r : result screen) : Page :=
  match r with
  | Ok (Rendered p) => p
  | _ => blank_page
  end.

(** The scores of the rows of [df] saved on day [d]. *)
Definition saved_on (d : Z) (r : gmap string value) : bool :=
  bool_decide (day_key (dt_date (cell r "saved_at")) = Some d).

Definition scores_saved_on (d : Z) (df : DataFrame) : list value :=
  (fun r => cell r "scores") <$> List.filter (saved_on d) (rows df).

(** The value of a run that went through. *)
Definition ok_or {A} (dflt : A) (r : result A) : A :=
  match r with
  | Ok a => a
  | Raise _ => dflt
  end.

(** The text of an item, empty when the cell is missing. *)
Definition title_text (r : gmap string value) : string :=
  match cell r "title_or_text" with
  | Str s => s
  | _ => ""
  end.

(** The title cell holds text or is missing, as in a column of text read
    from a file. *)
Definition text_title (r : gmap string value) : Prop :=
  cell r "title_or_text" = NA ∨ ∃ s, cell r "title_or_text" = Str s.

Definition sidebar_with_keyword (kw : string) : Sidebar :=
  {| date_range := DateTuple [0; 10]%Z; keyword_text := kw;
     sources := ["a"; "b"; "c"]; show_only_alerts := false |}.

(** The scores of the rows of [view] whose source is [s], and the
    per-source means of [view] in the order [groupby] gives them. *)
Definition scores_of_source (s : string) (view : DataFrame) : list value :=
  (fun r => cell r "scores")
    <$> List.filter (fun r => bool_decide (str_key (cell r "source") = Some s))
                    (rows view).

Definition source_means `{Pandas} (view : DataFrame) : list (string * value) :=
  groupby_mean String.ltb str_key (col view "source") (col view "scores").

(** ** Reference implementations of the interfaces

    Small executable implementations, used to run the scripts on concrete
    tables. *)

(** Numeric cells are numbers already; digit strings are read as
    integers; anything else is coerced to a missing value. *)
Definition to_numeric_cell (v : value) : value :=
  match v with
  | Num q => Num q
  | Str s =>
      match NilEmpty.int_of_string s with
      | Some i => Num (inject_Z (Z.of_int i))
      | None => NA
      end
  | _ => NA
  end.

(** Timestamps stay; numbers are nanoseconds since the epoch; anything
    else is coerced to a missing value. *)
Definition to_datetime_cell (v : value) : value :=
  match v with
  | Ts t => Ts t
  | Num q => Ts (Qfloor q)
  | _ => NA
  end.

(** Regular expressions made of literal characters and the dot. *)
Definition newline : ascii := ascii_of_nat 10.

Fixpoint dot_prefix (pat s : string) : bool :=
  match pat, s with
  | EmptyString, _ => true
  | String _ _, EmptyString => false
  | String p pat', String a s' =>
      (if Ascii.eqb p "." then negb (Ascii.eqb a newline) else Ascii.eqb p a)
      && dot_prefix pat' s'
  end.

Fixpoint dot_search (pat s : string) : bool :=
  dot_prefix pat s ||
  match s with
  | EmptyString => false
  | String _ s' => dot_search pat s'
  end.

Fixpoint dot_pattern (pat : string) : bool :=
  match pat with
  | EmptyString => true
  | String a pat' => (Ascii.eqb a "." || negb (re_special a)) && dot_pattern pat'
  end.

Definition re_compile_dot (pat : string) : result (string → bool) :=
  if dot_pattern pat then Ok (dot_search pat) else Raise (ReError pat).

(** A merge sort. *)
Definition sort_merge {A} (le : A → A → bool) (l : list A) : list A :=
  merge_sort (leb_rel le) l.

(** Prophet, as far as the script can tell from outside: fitting refuses
    a frame with fewer than 2 rows; the future frame holds the observed
    days and the [periods] days after the last one; the stand-in forecast
    repeats the mean of the observations with a band of 1 around it. *)
Definition next_days (last : Z) (periods : nat) : list value :=
  (fun i => Day (last + Z.of_nat i)) <$> seq 1 periods.

Definition last_day (ds : list value) : Z :=
  foldr (fun v acc => match v with Day d => Z.max d acc | _ => acc end) 0%Z ds.

Definition frame_of_column (c : string) (vs : list value) : DataFrame :=
  {| columns := [c]; rows := (fun v => {[ c := v ]}) <$> vs |}.

Definition prophet_fit_min (daily : DataFrame) : result DataFrame :=
  if (length (rows daily) <? 2)%nat
  then Raise (ValueError "Dataframe has less than 2 non-NaN rows.")
  else Ok daily.

Definition prophet_future_min (m : DataFrame) (periods : nat) : result DataFrame :=
  ds ← getitem m "ds";
  Ok (frame_of_column "ds" (ds ++ next_days (last_day ds) periods)).

Definition prophet_predict_min (m future : DataFrame) : result DataFrame :=
  y ← getitem m "y";
  ds ← getitem future "ds";
  let yhat := (Qsum (nums y) / Qlen (nums y))%Q in
  Ok {| columns := ["ds"; "yhat"; "yhat_lower"; "yhat_upper"];
        rows := (fun d => {[ "ds" := d; "yhat" := Num yhat;
                             "yhat_lower" := Num (yhat - 1);
                             "yhat_upper" := Num (yhat + 1) ]}) <$> ds |}.

(** A fitting procedure that accepts any frame. *)
Definition prophet_lenient : Prophet := {|
  model := DataFrame;
  fit := fun daily => Ok daily;
  make_future_dataframe := prophet_future_min;
  predict := prophet_predict_min
|}.

#[local] Instance prophet_min : Prophet := {|
  model := DataFrame;
  fit := prophet_fit_min;
  make_future_dataframe := prophet_future_min;
  predict := prophet_predict_min
|}.

(** The reference implementations meet the contracts. *)

Lemma to_numeric_cell_num l : Forall is_num (to_numeric_cell <$> l).
Proof.
  apply Forall_fmap, Forall_forall. intros v _. unfold is_num.
  destruct v as [|s|q|t|d]; simpl; eauto.
  destruct (NilEmpty.int_of_string s); eauto.
Qed.

Lemma to_datetime_cell_ts l : Forall is_ts (to_datetime_cell <$> l).
Proof.
  apply Forall_fmap, Forall_forall. intros v _. unfold is_ts.
  destruct v; simpl; eauto.
Qed.

Lemma to_datetime_ref_length l ts :
  Ok (to_datetime_cell <$> l) = Ok ts → length ts = length l.
Proof. intros [= <-]. apply length_fmap. Qed.

Lemma to_datetime_ref_ts l ts :
  Ok (to_datetime_cell <$> l) = Ok ts → Forall is_ts ts.
Proof. intros [= <-]. apply to_datetime_cell_ts. Qed.

Lemma sort_merge_sorted A (le : A → A → bool) l :
  (∀ x y, le x y = true ∨ le y x = true) →
  (∀ x y z, le x y = true → le y z = true → le x z = true) →
  StronglySorted (leb_rel le) (sort_merge le l).
Proof.
  intros Htot Htrans.
  assert (Transitive (leb_rel le)) by (intros x y z; apply Htrans).
  assert (Total (leb_rel le)) by (intros x y; apply Htot).
  apply StronglySorted_merge_sort; assumption.
Qed.

Lemma plain_dot_pattern pat : plain pat = true → dot_pattern pat = true.
Proof.
  induction pat as [|a pat IH]; simpl; [done|].
  intros [Ha Hp]%andb_true_iff. rewrite Ha, orb_true_r. simpl. auto.
Qed.

Lemma not_special_dot a : re_special a = false → Ascii.eqb a "." = false.
Proof.
  intros Ha. destruct (Ascii.eqb a ".") eqn:E; [|done].
  apply Ascii.eqb_eq in E. subst a. discriminate Ha.
Qed.

Lemma plain_dot_prefix pat s : plain pat = true → dot_prefix pat s = String.prefix pat s.
Proof.
  revert s. induction pat as [|a pat IH]; intros s; simpl.
  - by destruct s.
  - intros [Ha Hp]%andb_true_iff. apply negb_true_iff in Ha.
    destruct s as [|b s]; [done|].
    rewrite (not_special_dot _ Ha), (IH _ Hp).
    change (String.prefix (String a pat) (String b s))
      with (if ascii_dec a b then String.prefix pat s else false).
    destruct (ascii_dec a b) as [->|Hne].
    + by rewrite Ascii.eqb_refl.
    + apply Ascii.eqb_neq in Hne. by rewrite Hne.
Qed.

Lemma plain_dot_search pat s : plain pat = true → dot_search pat s = contains pat s.
Proof.
  intros Hp. induction s as [|b s IH]; simpl.
  - by rewrite (plain_dot_prefix _ _ Hp).
  - by rewrite (plain_dot_prefix _ _ Hp), IH.
Qed.

Lemma re_compile_dot_plain pat :
  plain pat = true →
  ∃ m, re_compile_dot pat = Ok m ∧ ∀ s, m s = contains pat s.
Proof.
  intros Hp. exists (dot_search pat). unfold re_compile_dot.
  rewrite (plain_dot_pattern _ Hp). split; [done|].
  intros s. by apply plain_dot_search.
Qed.

(** pandas with the merge sort, a parser that accepts every column, and
    the mean without rounding. *)
#[local] Instance pandas_ref : Pandas := {|
  to_numeric := fmap to_numeric_cell;
  to_datetime := fun l => Ok (to_datetime_cell <$> l);
  float_mean := fun qs => (Qsum qs / Qlen qs)%Q;
  sort_by := @sort_merge;
  re_compile := re_compile_dot;
  to_numeric_length := length_fmap to_numeric_cell;
  to_numeric_num := to_numeric_cell_num;
  to_datetime_length := to_datetime_ref_length;
  to_datetime_ts := to_datetime_ref_ts;
  sort_by_perm := fun A le l => merge_sort_Permutation (leb_rel le) l;
  sort_by_sorted := sort_merge_sorted;
  re_compile_plain := re_compile_dot_plain
|}.

(** ** Sample tables *)

(** A row as [read_csv] yields it; timestamps are stored as days since
    the epoch, in nanoseconds. *)
Definition item (title source : string) (published saved_at : Z) (scores : value)
    : gmap string value :=
  {[ "title_or_text" := Str title; "source" := Str source;
     "published" := Num (inject_Z (published * ns_per_day));
     "saved_at" := Num (inject_Z (saved_at * ns_per_day));
     "scores" := scores ]}.

Definition file_with (rs : list (gmap string value)) : filesystem :=
  fun path => if String.eqb path CSV_FILE
              then Some {| columns := raw_columns; rows := rs |} else None.

Definition no_file : filesystem := fun _ => None.

(** Four rows; the third has a score that is no number, the fourth a
    [published] cell that is no timestamp. *)
Definition sample_rows : list (gmap string value) :=
  [ item "Markets Rally" "b" 3 5 (Num 0.6);
    item "abc" "a" 1 5 (Num 0.6);
    item "rates" "c" 2 6 (Str "n/a");
    <["published" := Str "yesterday"]> (item "slump" "c" 2 6 (Num (-0.7))) ].

(** Two rows that parse, in a table whose titles are numbers. *)
Definition numeric_title_rows : list (gmap string value) :=
  [ <["title_or_text" := Num 2024]> (item "" "a" 1 5 (Num 0.6));
    <["title_or_text" := Num 2025]> (item "" "b" 2 5 (Num 0.4)) ].

(** The sidebar as it is when the page opens on the sample table. *)
Definition sample_sidebar : Sidebar :=
  {| date_range := DateTuple [0; 10]%Z; keyword_text := "";
     sources := ["a"; "b"; "c"]; show_only_alerts := false |}.

(** A date range that leaves no row. *)
Definition empty_range_sidebar : Sidebar :=
  {| date_range := DateTuple [20; 30]%Z; keyword_text := "";
     sources := ["a"; "b"; "c"]; show_only_alerts := false |}.

(** One item, published on day 0 and saved on day 5. *)
Definition one_day_file : filesystem :=
  file_with [item "note" "a" 0 5 (Num 0.2)].

(** ** [check_columns.py]: the diagnostic script *)

(** The distinct values of a list, in the order of their first
    occurrence, as [unique], [nunique] and [value_counts] enumerate them. *)
Fixpoint first_seen (l : list Z) : list Z :=
  match l with
  | [] => []
  | x :: l' => x :: List.filter (fun y => negb (y =? x)%Z) (first_seen l')
  end.

(** [Series.nunique()]: missing values are not counted. *)
Definition nunique (days : list value) : nat :=
  length (first_seen (omap day_key days)).

Section CheckColumns.
Context `{Pandas}.

(** [Series.value_counts()]: the number of cells per distinct value that
    is not missing, the most frequent value first. *)
Definition value_counts (days : list value) : list (Z * nat) :=
  sort_by (fun a b => (b.2 <=? a.2)%nat)
    ((fun d => (d, length (List.filter (fun v => bool_decide (day_key v = Some d)) days)))
       <$> first_seen (omap day_key days)).

(** The script: what it prints after "Unique dates:", and the counts per
    date. *)
Definition check_columns (fs : filesystem) : result (nat * list (Z * nat)) :=
  match fs CSV_FILE with
  | None => Raise (FileNotFoundError CSV_FILE)
  | Some df =>
      saved_at ← getitem df "saved_at";
      saved_at ← to_datetime saved_at;
      let df := setitem df "saved_at" saved_at in
      saved_at ← getitem df "saved_at";
      let days := dt_date <$> saved_at in
      Ok (nunique days, value_counts days)
  end.

End CheckColumns.

(** ** Further notions used in the statements *)

(** The filters of the sidebar on one row: date range, sources, keyword
    (with the matcher of the compiled keyword, if there is a keyword) and
    the alert toggle. *)
Definition row_kept (lo hi : value) (srcs : list string)
    (matcher : option (string → bool)) (only : bool) (r : gmap string value) : bool :=
  date_ge lo (cell r "date") && date_le hi (cell r "date")
  && isin srcs (cell r "source")
  && match matcher with
     | None => true
     | Some m => str_contains m (cell r "keyword_hint")
     end
  && (if only then alert_row r else true).

(** The scores of the rows of [view] published on day [d]. *)
Definition scores_published_on (d : Z) (view : DataFrame) : list value :=
  (fun r => cell r "scores")
    <$> List.filter (fun r => bool_decide (day_key (cell r "date") = Some d))
                    (rows view).

(** The sample table without its [scores] column. *)
Definition no_scores_file : filesystem :=
  fun path => if String.eqb path CSV_FILE
              then Some {| columns := ["title_or_text"; "source"; "published"];
                           rows := sample_rows |}
              else None.

(** The sample table without its [source] column. *)
Definition no_source_file : filesystem :=
  fun path => if String.eqb path CSV_FILE
              then Some {| columns := ["title_or_text"; "published"; "scores"];
                           rows := sample_rows |}
              else None.

Definition sidebar_with_range (dr : date_input) (only : bool) : Sidebar :=
  {| date_range := dr; keyword_text := "";
     sources := ["a"; "b"; "c"]; show_only_alerts := only |}.

Section ForecastRows.
Context `{Pandas}.

(** The input rows of the forecast script, each with its cell of
    [saved_at], the column that [to_datetime] returned, and what
    [to_numeric] made of its [scores] cell. *)
Definition coerced_saved (df : DataFrame) (saved_at : list value)
    : list (gmap string value * value * value) :=
  zip (zip (rows df) saved_at) (to_numeric (col df "scores")).

Definition usable_saved (x : gmap string value * value * value) : bool :=
  notna x.1.2 && notna x.2.

Definition with_coerced (x : gmap string value * value * value) : gmap string value :=
  <["scores" := x.2]> (<["saved_at" := x.1.2]> x.1.1).

End ForecastRows.

(** The sample table without its [saved_at] column. *)
Definition no_saved_at_file : filesystem :=
  fun path => if String.eqb path CSV_FILE
              then Some {| columns := ["title_or_text"; "published"; "scores"];
                           rows := sample_rows |}
              else None.

(** * Properties *)

(** ** The labelling rule *)

Lemma Qle_bool_false x y : Qle_bool x y = false ↔ (y < x)%Q.
Proof.
  rewrite <- not_true_iff_false, Qle_bool_iff. split.
  - apply Qnot_le_lt.
  - apply Qlt_not_le.
Qed.

(** C1: [sentiment_label] is a total function of the score; it answers
    "Positive" exactly for the scores >= 0.05, "Negative" exactly for the
    scores <= -0.05, and "Neutral" exactly for the scores strictly between
    the two thresholds (both thresholds inclusive on their side). *)
Theorem sentiment_label_thresholds (x : Q) :
  (sentiment_label x = "Positive" ↔ (0.05 <= x)%Q) ∧
  (sentiment_label x = "Negative" ↔ (x <= -0.05)%Q) ∧
  (sentiment_label x = "Neutral" ↔ (-0.05 < x)%Q ∧ (x < 0.05)%Q).
Proof.
  unfold sentiment_label.
  destruct (Qle_bool 0.05 x) eqn:Hpos.
  - apply Qle_bool_iff in Hpos. repeat split; try done.
    + intros Hneg. exfalso.
      assert (0.05 <= -0.05)%Q as Habs by (eapply Qle_trans; eassumption).
      apply Qle_bool_iff in Habs. discriminate Habs.
    + intros [_ Hlt]. exfalso. by apply (Qlt_not_le _ _ Hlt).
  - apply Qle_bool_false in Hpos.
    destruct (Qle_bool x (-0.05)) eqn:Hneg.
    + apply Qle_bool_iff in Hneg. repeat split; try done.
      * intros Hge. exfalso. by apply (Qlt_not_le _ _ Hpos).
      * intros [Hgt _]. exfalso. by apply (Qlt_not_le _ _ Hgt).
    + apply Qle_bool_false in Hneg. repeat split; try done.
      * intros Hge. exfalso. by apply (Qlt_not_le _ _ Hpos).
      * intros Hle. exfalso. by apply (Qlt_not_le _ _ Hneg).
Qed.

(** The three boundary examples of the specification. *)
Example sentiment_label_examples :
  sentiment_label 0.05 = "Positive" ∧
  sentiment_label (-0.05) = "Negative" ∧
  sentiment_label 0 = "Neutral".
Proof. by vm_compute. Qed.

(** The label does not depend on how the rational is written. *)
Lemma sentiment_label_Qeq x y : (x == y)%Q → sentiment_label x = sentiment_label y.
Proof.
  intros E. unfold sentiment_label.
  rewrite (Qleb_comp 0.05%Q 0.05%Q (Qeq_refl _) x y E).
  by rewrite (Qleb_comp x y E (-0.05)%Q (-0.05)%Q (Qeq_refl _)).
Qed.

(** ** Tables: columns, assignment, [dropna] *)

Lemma getitem_Ok df c : c ∈ columns df → getitem df c = Ok (col df c).
Proof. intros Hc. unfold getitem. by rewrite decide_True. Qed.

Lemma getitem_Raise df c : c ∉ columns df → getitem df c = Raise (KeyError c).
Proof. intros Hc. unfold getitem. by rewrite decide_False. Qed.

Lemma getitem_inv df c vs : getitem df c = Ok vs → c ∈ columns df ∧ vs = col df c.
Proof. unfold getitem. case_decide; [|done]. intros [= <-]. done. Qed.

Lemma length_col df c : length (col df c) = length (rows df).
Proof. unfold col. by rewrite length_fmap. Qed.

Lemma elem_of_add_column cs c c' : c' ∈ add_column cs c ↔ c' = c ∨ c' ∈ cs.
Proof.
  unfold add_column. case_decide.
  - split; [auto|]. intros [->|]; done.
  - rewrite elem_of_app, list_elem_of_singleton. tauto.
Qed.

Lemma columns_setitem df c vs c' :
  c' ∈ columns (setitem df c vs) ↔ c' = c ∨ c' ∈ columns df.
Proof. apply elem_of_add_column. Qed.

Lemma col_setitem_eq df c vs :
  length vs = length (rows df) → col (setitem df c vs) c = vs.
Proof.
  unfold col, setitem, cell. simpl. generalize (rows df). clear df.
  induction vs as [|v vs IH]; intros [|r rs] Hlen; simpl in *; try done.
  rewrite lookup_insert_eq. simpl. f_equal. apply IH. lia.
Qed.

Lemma col_setitem_ne df c c' vs :
  c ≠ c' → length vs = length (rows df) → col (setitem df c vs) c' = col df c'.
Proof.
  intros Hne. unfold col, setitem, cell. simpl. generalize (rows df). clear df.
  induction vs as [|v vs IH]; intros [|r rs] Hlen; simpl in *; try done.
  rewrite lookup_insert_ne by done. f_equal. apply IH. lia.
Qed.

Lemma length_rows_setitem df c vs :
  length vs = length (rows df) → length (rows (setitem df c vs)) = length (rows df).
Proof. intros Hlen. unfold setitem. simpl. rewrite length_zip_with. lia. Qed.

Lemma filter_fmap {A B} (f : B → bool) (g : A → B) (l : list A) :
  List.filter f (g <$> l) = g <$> List.filter (fun a => f (g a)) l.
Proof.
  induction l as [|a l IH]; [done|].
  rewrite fmap_cons. simpl. destruct (f (g a)); rewrite ?fmap_cons, IH; done.
Qed.

Lemma filter_ext_in {A} (f g : A → bool) (l : list A) :
  (∀ a, a ∈ l → f a = g a) → List.filter f l = List.filter g l.
Proof.
  induction l as [|a l IH]; simpl; [done|]. intros Hfg.
  rewrite (Hfg a) by left. rewrite IH; [done|].
  intros b Hb. apply Hfg. by right.
Qed.

Lemma filter_length_le {A} (f : A → bool) (l : list A) :
  (length (List.filter f l) ≤ length l)%nat.
Proof. induction l as [|a l IH]; simpl; [done|]. destruct (f a); simpl; lia. Qed.

Lemma elem_of_filter_bool {A} (f : A → bool) (l : list A) x :
  x ∈ List.filter f l ↔ x ∈ l ∧ f x = true.
Proof. rewrite !list_elem_of_In. apply filter_In. Qed.

Lemma dropna_Ok cs df :
  (∀ c, c ∈ cs → c ∈ columns df) →
  dropna cs df =
    Ok {| columns := columns df;
          rows := List.filter (fun r => forallb (fun c => notna (cell r c)) cs) (rows df) |}.
Proof.
  intros Hcs. unfold dropna.
  replace (List.filter _ cs) with (@nil string); [done|].
  symmetry. induction cs as [|c cs IH]; simpl; [done|].
  rewrite bool_decide_eq_true_2 by (apply Hcs; left). simpl.
  apply IH. intros c' Hc'. apply Hcs. by right.
Qed.

Lemma dropna_Raise cs df c :
  c ∈ cs → c ∉ columns df → ∃ e, dropna cs df = Raise e.
Proof.
  intros Hc Hnot. unfold dropna.
  destruct (List.filter _ cs) as [|c0 l] eqn:E; [|eauto].
  exfalso. assert (c ∈ List.filter (fun c => negb (bool_decide (c ∈ columns df))) cs) as Hin.
  { apply elem_of_filter_bool. split; [done|]. by rewrite bool_decide_eq_false_2. }
  rewrite E in Hin. by apply not_elem_of_nil in Hin.
Qed.

Lemma dropna_inv cs df out :
  dropna cs df = Ok out →
  (∀ c, c ∈ cs → c ∈ columns df) ∧ columns out = columns df ∧
  rows out = List.filter (fun r => forallb (fun c => notna (cell r c)) cs) (rows df).
Proof.
  intros Hd.
  assert (∀ c, c ∈ cs → c ∈ columns df) as Hcs.
  { intros c Hc. destruct (decide (c ∈ columns df)) as [|Hn]; [done|].
    destruct (dropna_Raise cs df c Hc Hn) as [e He]. congruence. }
  rewrite (dropna_Ok _ _ Hcs) in Hd. injection Hd as <-. done.
Qed.

(** ** The Record Normalizer: [load_data] *)

Section LoadDataFacts.
Context `{Pandas}.

Lemma coerce_present f c df vs :
  c ∈ columns df → f (col df c) = Ok vs →
  coerce_if_present f c df = Ok (setitem df c vs).
Proof.
  intros Hc Hf. unfold coerce_if_present. rewrite getitem_Ok by done.
  cbv beta iota. by rewrite Hf.
Qed.

Lemma coerce_absent f c df : c ∉ columns df → coerce_if_present f c df = Ok df.
Proof. intros Hc. unfold coerce_if_present. by rewrite getitem_Raise. Qed.

Lemma coerce_cases f c df :
  ((c ∉ columns df) ∧ coerce_if_present f c df = Ok df) ∨
  (c ∈ columns df ∧
   ((∃ vs, f (col df c) = Ok vs ∧ coerce_if_present f c df = Ok (setitem df c vs)) ∨
    (∃ e, f (col df c) = Raise e ∧ coerce_if_present f c df = Raise e))).
Proof.
  destruct (decide (c ∈ columns df)) as [Hc|Hc].
  - right. split; [done|]. destruct (f (col df c)) as [vs|e] eqn:Hf.
    + left. exists vs. split; [done|]. by apply coerce_present.
    + right. exists e. split; [done|]. unfold coerce_if_present.
      rewrite getitem_Ok by done. cbv beta iota. by rewrite Hf.
  - left. split; [done|]. by apply coerce_absent.
Qed.

Lemma columns_coerce f c df df' c' :
  coerce_if_present f c df = Ok df' → c' ∈ columns df' ↔ c' ∈ columns df.
Proof.
  destruct (coerce_cases f c df) as [[_ ->]|[Hc [(vs & _ & ->)|(e & _ & ->)]]];
    intros [= <-]; [done|].
  rewrite columns_setitem. split; [|auto]. intros [->|]; done.
Qed.

(** The coercion of [scores] raises nothing and touches no other column. *)
Lemma coerce_scores_Ok df :
  ∃ df1, coerce_if_present (fun col => Ok (to_numeric col)) "scores" df = Ok df1 ∧
    (∀ c, c ∈ columns df1 ↔ c ∈ columns df) ∧
    length (rows df1) = length (rows df) ∧
    (∀ c, c ≠ "scores" → col df1 c = col df c).
Proof.
  destruct (decide ("scores" ∈ columns df)) as [Hs|Hs].
  - exists (setitem df "scores" (to_numeric (col df "scores"))).
    assert (length (to_numeric (col df "scores")) = length (rows df)) as Hl
      by (by rewrite to_numeric_length, length_col).
    split; [by apply coerce_present|]. split; [|split].
    + intros c. rewrite columns_setitem. split; [|auto]. intros [->|]; done.
    + by apply length_rows_setitem.
    + intros c Hc. apply col_setitem_ne; [congruence|done].
  - exists df. split; [by apply coerce_absent|]. done.
Qed.

Lemma str_accessor_Ok l text : str_accessor l = Ok text → text = l.
Proof.
  unfold str_accessor. destruct l as [|v l]; [by intros [= <-]|].
  destruct (forallb is_number (v :: l)); [done|]. by intros [= <-].
Qed.

(** The accessor is refused exactly on the non-empty columns of numbers. *)
Lemma str_accessor_Raise l :
  (∃ e, str_accessor l = Raise e) ↔ l ≠ [] ∧ Forall (fun v => ∃ q, v = Num q) l.
Proof.
  unfold str_accessor. destruct l as [|v l].
  - split; [by intros [e He]|by intros [Hne _]].
  - destruct (forallb is_number (v :: l)) eqn:E.
    + split; [|eauto]. intros _. split; [done|].
      apply Forall_forall. intros w Hw%list_elem_of_In.
      rewrite forallb_forall in E. specialize (E w Hw).
      destruct w; try done. eauto.
    + split; [by intros [e He]|]. intros [_ Hall]. exfalso.
      assert (forallb is_number (v :: l) = true) as E'; [|congruence].
      apply forallb_forall. intros w Hw%list_elem_of_In.
      rewrite Forall_forall in Hall. by destruct (Hall w Hw) as [q ->].
Qed.

Lemma length_coerced df pub :
  length pub = length (rows df) → length (coerced df pub) = length (rows df).
Proof.
  intros Hpub. unfold coerced.
  rewrite !length_zip, to_numeric_length, !length_col. lia.
Qed.

Lemma coerced_rows df pub :
  length pub = length (rows df) → (coerced df pub).*1.*1 = rows df.
Proof.
  intros Hpub. unfold coerced. rewrite fst_zip.
  - rewrite fst_zip; [done|]. by rewrite to_numeric_length, length_col.
  - rewrite length_zip, to_numeric_length, !length_col. lia.
Qed.

Lemma cell_normalise_published x : cell (normalise x) "published" = x.2.
Proof. unfold cell, normalise. by simplify_map_eq. Qed.

Lemma cell_normalise_scores x : cell (normalise x) "scores" = x.1.2.
Proof. unfold cell, normalise. by simplify_map_eq. Qed.

Lemma cell_normalise_date x : cell (normalise x) "date" = dt_date x.2.
Proof. unfold cell, normalise. by simplify_map_eq. Qed.

Lemma cell_normalise_hint x :
  cell (normalise x) "keyword_hint" = str_lower (fillna "" (cell x.1.1 "title_or_text")).
Proof. unfold cell, normalise. by simplify_map_eq. Qed.

Lemma cell_normalise_other x c :
  c ∉ ["keyword_hint"; "date"; "published"; "scores"] →
  cell (normalise x) c = cell x.1.1 c.
Proof.
  intros Hc. unfold cell, normalise.
  rewrite !lookup_insert_ne; [done|..]; intros <-; apply Hc; set_solver.
Qed.

(** The four column assignments of [load_data], row by row. *)
Lemma assignments_normalise (rs : list (gmap string value)) (sc pub : list value) :
  length sc = length rs → length pub = length rs →
  zip_with (fun r v => <["keyword_hint" := v]> r)
    (zip_with (fun r v => <["date" := v]> r)
       (zip_with (fun r v => <["published" := v]> r)
          (zip_with (fun r v => <["scores" := v]> r) rs sc) pub)
       (dt_date <$> pub))
    (str_lower <$> (fillna "" <$> ((fun r => cell r "title_or_text") <$> rs)))
  = normalise <$> zip (zip rs sc) pub.
Proof.
  revert sc pub. induction rs as [|r rs IH]; intros [|s sc] [|p pub] Hs Hp;
    simpl in *; try done.
  rewrite IH by lia. done.
Qed.

End LoadDataFacts.

Section LoadDataSpec.
Context `{Pandas}.

(** [load_data] on a file that has the three columns it reads: the two
    library calls that may raise, and the table built when they return. *)
Lemma load_data_run fs path df :
  fs path = Some df →
  "published" ∈ columns df → "scores" ∈ columns df → "title_or_text" ∈ columns df →
  load_data fs path =
    (pub ← to_datetime (col df "published");
     _ ← str_accessor (fillna "" <$> col df "title_or_text");
     Ok {| columns :=
             add_column (add_column (add_column (add_column (columns df) "scores")
                                       "published") "date") "keyword_hint";
           rows := normalise <$> List.filter usable (coerced df pub) |}).
Proof.
  intros Hfs Hp Hs Ht. unfold load_data. rewrite Hfs.
  set (sc := to_numeric (col df "scores")).
  assert (length sc = length (rows df)) as Hlsc
    by (unfold sc; by rewrite to_numeric_length, length_col).
  rewrite (coerce_present _ "scores" df sc Hs eq_refl).
  change (Ok ?a ≫= ?f) with (f a). cbv beta.
  set (df1 := setitem df "scores" sc).
  assert (length (rows df1) = length (rows df)) as Hl1
    by (by apply length_rows_setitem).
  assert (col df1 "published" = col df "published") as Hpub1
    by (by apply col_setitem_ne).
  assert ("published" ∈ columns df1) as Hp1 by (apply columns_setitem; by right).
  destruct (to_datetime (col df "published")) as [pub|e] eqn:Hpub.
  2:{ destruct (coerce_cases to_datetime "published" df1)
        as [[Hn _]|[_ [(vs & Hvs & _)|(e' & He' & ->)]]];
        [done|rewrite Hpub1 in Hvs; congruence|].
      rewrite Hpub1 in He'. replace e' with e by congruence. reflexivity. }
  assert (length pub = length (rows df)) as Hlpub
    by (rewrite (to_datetime_length _ _ Hpub); apply length_col).
  rewrite (coerce_present _ "published" df1 pub Hp1) by (by rewrite Hpub1).
  change (Ok ?a ≫= ?f) with (f a). cbv beta.
  set (df2 := setitem df1 "published" pub).
  assert (length (rows df2) = length (rows df)) as Hl2
    by (unfold df2; rewrite length_rows_setitem; congruence).
  assert (col df2 "published" = pub) as Hpub2
    by (apply col_setitem_eq; congruence).
  rewrite (getitem_Ok df2 "published") by (apply columns_setitem; by left).
  rewrite Hpub2.
  change (Ok pub ≫= ?f) with (f pub). cbv beta.
  set (df3 := setitem df2 "date" (dt_date <$> pub)).
  assert (length (rows df3) = length (rows df)) as Hl3.
  { unfold df3. rewrite length_rows_setitem; [done|]. rewrite length_fmap. congruence. }
  assert (col df3 "title_or_text" = col df "title_or_text") as Ht3.
  { unfold df3. rewrite col_setitem_ne; [|done|rewrite length_fmap; congruence].
    unfold df2. rewrite col_setitem_ne; [|done|congruence].
    by apply col_setitem_ne. }
  rewrite (getitem_Ok df3 "title_or_text")
    by (do 3 (apply columns_setitem; right); done).
  rewrite Ht3.
  change (Ok ?a ≫= ?f) with (f a). cbv beta.
  destruct (str_accessor (fillna "" <$> col df "title_or_text")) as [text|e] eqn:Hstr;
    [|reflexivity].
  apply str_accessor_Ok in Hstr. subst text.
  change (Ok ?a ≫= ?f) with (f a). cbv beta.
  rewrite dropna_Ok.
  2:{ intros c Hc. apply columns_setitem. right. apply columns_setitem. right.
      apply columns_setitem.
      apply list_elem_of_In in Hc. destruct Hc as [<-|[<-|[]]].
      - by left.
      - right. apply columns_setitem. by left. }
  f_equal. f_equal.
  unfold df3, df2, df1, setitem. cbn [rows]. unfold col at 1.
  rewrite (assignments_normalise (rows df) sc pub Hlsc Hlpub).
  rewrite filter_fmap. f_equal. apply filter_ext_in. intros x _.
  cbn [forallb]. rewrite cell_normalise_published, cell_normalise_scores.
  unfold usable. by rewrite andb_true_r.
Qed.

(** When the two library calls return, [load_data] returns. *)
Lemma load_data_present fs path df pub text :
  fs path = Some df →
  "published" ∈ columns df → "scores" ∈ columns df → "title_or_text" ∈ columns df →
  to_datetime (col df "published") = Ok pub →
  str_accessor (fillna "" <$> col df "title_or_text") = Ok text →
  load_data fs path =
    Ok {| columns :=
            add_column (add_column (add_column (add_column (columns df) "scores")
                                      "published") "date") "keyword_hint";
          rows := normalise <$> List.filter usable (coerced df pub) |}.
Proof.
  intros Hfs Hp Hs Ht Hpub Hstr.
  rewrite (load_data_run fs path df Hfs Hp Hs Ht), Hpub.
  change (Ok ?a ≫= ?f) with (f a). cbv beta. by rewrite Hstr.
Qed.

(** When one of the three columns is missing, [load_data] raises. *)
Lemma load_data_missing fs path df :
  fs path = Some df →
  ¬ ("published" ∈ columns df ∧ "scores" ∈ columns df ∧ "title_or_text" ∈ columns df) →
  ∃ e, load_data fs path = Raise e.
Proof.
  intros Hfs Hmiss. unfold load_data. rewrite Hfs.
  destruct (coerce_scores_Ok df) as (df1 & -> & Hc1 & _ & _).
  change (Ok ?a ≫= ?f) with (f a). cbv beta.
  destruct (coerce_if_present to_datetime "published" df1) as [df2|e] eqn:E2;
    [|by eexists].
  change (Ok ?a ≫= ?f) with (f a). cbv beta.
  assert (∀ c, c ∈ columns df2 ↔ c ∈ columns df) as Hcols.
  { intros c. rewrite (columns_coerce _ _ _ _ c E2). apply Hc1. }
  destruct (decide ("published" ∈ columns df)) as [Hp|Hp].
  2:{ rewrite getitem_Raise by (by rewrite Hcols). by eexists. }
  rewrite (getitem_Ok df2) by (by rewrite Hcols).
  change (Ok ?a ≫= ?f) with (f a). cbv beta.
  set (df3 := setitem df2 "date" _).
  destruct (decide ("title_or_text" ∈ columns df)) as [Ht|Ht].
  2:{ rewrite getitem_Raise; [by eexists|].
      unfold df3. rewrite columns_setitem, Hcols. by intros [|]. }
  rewrite (getitem_Ok df3) by (unfold df3; rewrite columns_setitem, Hcols; by right).
  change (Ok ?a ≫= ?f) with (f a). cbv beta.
  destruct (str_accessor _) as [text|e]; [|by eexists].
  change (Ok ?a ≫= ?f) with (f a). cbv beta.
  apply (dropna_Raise _ _ "scores"); [by right; left|].
  unfold df3. rewrite !columns_setitem, Hcols. intros [|[|Hs]]; try done.
  apply Hmiss. done.
Qed.

(** What a successful [load_data] means. *)
Lemma load_data_inv fs path out :
  load_data fs path = Ok out →
  (fs path = None ∧ out = DataFrame_of_columns raw_columns) ∨
  (∃ df pub, fs path = Some df ∧
         "published" ∈ columns df ∧ "scores" ∈ columns df ∧
         "title_or_text" ∈ columns df ∧
         to_datetime (col df "published") = Ok pub ∧
         rows out = normalise <$> List.filter usable (coerced df pub) ∧
         ∀ c, c ∈ columns out ↔ c ∈ columns df ∨ c = "date" ∨ c = "keyword_hint").
Proof.
  intros Hload. destruct (fs path) as [df|] eqn:Hfs.
  - right. exists df.
    destruct (decide ("published" ∈ columns df ∧ "scores" ∈ columns df ∧
                      "title_or_text" ∈ columns df)) as [(Hp & Hs & Ht)|Hmiss].
    + rewrite (load_data_run fs path df Hfs Hp Hs Ht) in Hload.
      destruct (to_datetime (col df "published")) as [pub|e]; [|done].
      exists pub. revert Hload.
      change (Ok ?a ≫= ?f) with (f a). cbv beta.
      destruct (str_accessor _) as [text|e]; [|done].
      change (Ok ?a ≫= ?f) with (f a). cbv beta.
      intros [= <-]. repeat split; try done.
      * cbn [columns]. rewrite !elem_of_add_column. intuition (subst; auto).
      * cbn [columns]. rewrite !elem_of_add_column. intuition (subst; auto).
    + destruct (load_data_missing fs path df Hfs Hmiss) as [e He]. congruence.
  - left. unfold load_data in Hload. rewrite Hfs in Hload.
    injection Hload as <-. done.
Qed.

(** The columns of a table loaded from a file. *)
Lemma load_data_columns fs path df out :
  fs path = Some df → load_data fs path = Ok out →
  columns out =
    add_column (add_column (add_column (add_column (columns df) "scores")
                              "published") "date") "keyword_hint".
Proof.
  intros Hfs Hload.
  destruct (decide ("published" ∈ columns df ∧ "scores" ∈ columns df ∧
                    "title_or_text" ∈ columns df)) as [(Hp & Hs & Ht)|Hmiss].
  - rewrite (load_data_run fs path df Hfs Hp Hs Ht) in Hload.
    destruct (to_datetime (col df "published")) as [pub|e]; [|done].
    revert Hload. change (Ok ?a ≫= ?f) with (f a). cbv beta.
    destruct (str_accessor _) as [text|e]; [|done].
    change (Ok ?a ≫= ?f) with (f a). cbv beta.
    by intros [= <-].
  - destruct (load_data_missing fs path df Hfs Hmiss) as [e He]. congruence.
Qed.

End LoadDataSpec.

(** C2 (as the code has it): for a table with the columns [load_data]
    reads, on whose [published] column the timestamp parser returns and
    whose title column has the [.str] accessor, the output holds exactly
    the input rows whose [published] cell parsed as a timestamp and whose
    [scores] cell parsed as a number (with their coerced and derived
    cells), in the input order; rows with a cell that did not parse are
    absent, nothing is raised for them, and the output has at most as many
    rows as the input. *)
Theorem load_data_keeps_parsed_rows `{Pandas} (fs : filesystem) (path : string)
    (df : DataFrame) (pub text : list value) :
  fs path = Some df →
  "published" ∈ columns df → "scores" ∈ columns df → "title_or_text" ∈ columns df →
  to_datetime (col df "published") = Ok pub →
  str_accessor (fillna "" <$> col df "title_or_text") = Ok text →
  ∃ out, load_data fs path = Ok out ∧
    (coerced df pub).*1.*1 = rows df ∧
    rows out = normalise <$> List.filter usable (coerced df pub) ∧
    Forall (fun r => isna (cell r "published") = false ∧
                     isna (cell r "scores") = false) (rows out) ∧
    (length (rows out) ≤ length (rows df))%nat.
Proof.
  intros Hfs Hp Hs Ht Hpub Hstr.
  assert (length pub = length (rows df)) as Hlpub
    by (rewrite (to_datetime_length _ _ Hpub); apply length_col).
  eexists. split; [by eapply load_data_present|].
  cbn [rows]. split; [by apply coerced_rows|]. split; [done|]. split.
  - apply Forall_fmap, Forall_forall. intros x [_ Hx]%elem_of_filter_bool.
    simpl. rewrite cell_normalise_published, cell_normalise_scores.
    unfold usable, notna in Hx. apply andb_true_iff in Hx as [Hx1 Hx2].
    by rewrite !negb_true_iff in *.
  - rewrite length_fmap, <- (length_coerced df pub Hlpub). apply filter_length_le.
Qed.

Lemma load_data_keeps_parsed_rows_witness :
  ∃ out, @load_data pandas_ref (file_with sample_rows) CSV_FILE = Ok out ∧
    (@coerced pandas_ref {| columns := raw_columns; rows := sample_rows |}
       (to_datetime_cell <$> col {| columns := raw_columns; rows := sample_rows |}
                                 "published")).*1.*1
      = sample_rows ∧
    rows out = normalise <$> List.filter usable
                 (@coerced pandas_ref {| columns := raw_columns; rows := sample_rows |}
                    (to_datetime_cell <$> col {| columns := raw_columns; rows := sample_rows |}
                                              "published")) ∧
    Forall (fun r => isna (cell r "published") = false ∧
                     isna (cell r "scores") = false) (rows out) ∧
    (length (rows out) ≤ length sample_rows)%nat.
Proof.
  apply (@load_data_keeps_parsed_rows pandas_ref (file_with sample_rows) CSV_FILE
           {| columns := raw_columns; rows := sample_rows |}
           (to_datetime_cell <$> col {| columns := raw_columns; rows := sample_rows |}
                                     "published")
           (fillna "" <$> col {| columns := raw_columns; rows := sample_rows |}
                              "title_or_text")).
  - reflexivity.
  - apply (bool_decide_unpack _). vm_compute. exact I.
  - apply (bool_decide_unpack _). vm_compute. exact I.
  - apply (bool_decide_unpack _). vm_compute. exact I.
  - reflexivity.
  - vm_compute. reflexivity.
Defined.

(** C2 as stated fails: both rows of this table have a [published] cell
    and a [scores] cell that parse, and [load_data] returns no table; the
    title column holds numbers, and the [.str] accessor of line 30 raises. *)
Lemma load_data_numeric_titles_raise :
  Forall (fun x => usable x = true)
    (@coerced pandas_ref {| columns := raw_columns; rows := numeric_title_rows |}
       (to_datetime_cell <$> col {| columns := raw_columns; rows := numeric_title_rows |}
                                 "published")) ∧
  @load_data pandas_ref (file_with numeric_title_rows) CSV_FILE
    = Raise (AttributeError "Can only use .str accessor with string values!") ∧
  ¬ (∃ out, @load_data pandas_ref (file_with numeric_title_rows) CSV_FILE = Ok out).
Proof.
  split; [|split].
  - apply Forall_forall. intros x Hx. apply list_elem_of_In in Hx.
    vm_compute in Hx. destruct Hx as [<-|[<-|[]]]; reflexivity.
  - vm_compute. reflexivity.
  - intros [out Hout]. vm_compute in Hout. discriminate Hout.
Qed.

(** On the sample table the two rows with a cell that did not parse are
    dropped. *)
Example load_data_sample :
  (fun out => length (rows out)) <$>
    (match @load_data pandas_ref (file_with sample_rows) CSV_FILE with
     | Ok out => Some out
     | Raise _ => None
     end) = Some 2%nat.
Proof. by vm_compute. Qed.

(** C7 (as the code has it): when there is no file, [load_data] raises
    nothing and returns the table without rows whose columns are the twelve
    columns of the file format; the derived columns [date] and
    [keyword_hint] are added on the other path only. *)
Theorem load_data_absent `{Pandas} (fs : filesystem) (path : string) :
  fs path = None →
  ∃ out, load_data fs path = Ok out ∧ rows out = [] ∧
    columns out =
      ["id"; "platform"; "url"; "title_or_text"; "source"; "published";
       "vader_sentiment"; "scores"; "llm_sentiment"; "llm_confidence";
       "llm_summary"; "saved_at"].
Proof. intros Hfs. unfold load_data. rewrite Hfs. eexists. done. Qed.

Lemma load_data_absent_witness :
  ∃ out, @load_data pandas_ref no_file CSV_FILE = Ok out ∧ rows out = [] ∧
    columns out =
      ["id"; "platform"; "url"; "title_or_text"; "source"; "published";
       "vader_sentiment"; "scores"; "llm_sentiment"; "llm_confidence";
       "llm_summary"; "saved_at"].
Proof. apply (@load_data_absent pandas_ref no_file CSV_FILE). reflexivity. Defined.

(** C7 as stated fails: the table returned for a missing file has neither
    a [date] nor a [keyword_hint] column. *)
Lemma load_data_absent_lacks_derived_columns :
  ¬ (∃ out, @load_data pandas_ref no_file CSV_FILE = Ok out ∧
            "date" ∈ columns out ∧ "keyword_hint" ∈ columns out).
Proof.
  intros (out & Hout & Hdate & _). injection Hout as <-.
  revert Hdate. apply (bool_decide_eq_false_1 _). by vm_compute.
Qed.

(** ** Sorting tables *)

Lemma bind_Ok_inv {A B} (m : result A) (f : A → result B) b :
  m ≫= f = Ok b → ∃ a, m = Ok a ∧ f a = Ok b.
Proof. destruct m as [a|e]; [|done]. intros Hf. by exists a. Qed.

Lemma value_le_total asc v w : value_le asc v w = true ∨ value_le asc w v = true.
Proof.
  unfold value_le. destruct asc; rewrite !Qle_bool_iff.
  - destruct (Qlt_le_dec (number_of w) (number_of v)) as [Hlt|Hle]; [right|left]; [|done].
    by apply Qlt_le_weak.
  - destruct (Qlt_le_dec (number_of w) (number_of v)) as [Hlt|Hle]; [left|right]; [|done].
    by apply Qlt_le_weak.
Qed.

Lemma value_le_trans asc u v w :
  value_le asc u v = true → value_le asc v w = true → value_le asc u w = true.
Proof.
  unfold value_le. destruct asc; rewrite !Qle_bool_iff; intros H1 H2.
  - eapply Qle_trans; eassumption.
  - eapply Qle_trans; eassumption.
Qed.

Lemma value_le_Ts a b : value_le true (Ts a) (Ts b) = true ↔ (a ≤ b)%Z.
Proof. unfold value_le. simpl. by rewrite Qle_bool_iff, <- Zle_Qle. Qed.

(** The rows a table sort compares first: those whose key is present. *)
Lemma filter_all {A} (f : A → bool) (l : list A) :
  Forall (fun x => f x = true) l → List.filter f l = l.
Proof.
  induction 1 as [|x l Hx _ IH]; simpl; [done|]. by rewrite Hx, IH.
Qed.

Lemma filter_none {A} (f : A → bool) (l : list A) :
  Forall (fun x => f x = false) l → List.filter f l = [].
Proof.
  induction 1 as [|x l Hx _ IH]; simpl; [done|]. by rewrite Hx.
Qed.

Lemma StronglySorted_fmap_on {A B} (R : relation A) (S : relation B) (f : A → B)
    (P : A → Prop) (l : list A) :
  (∀ x y, P x → P y → R x y → S (f x) (f y)) →
  Forall P l → StronglySorted R l → StronglySorted S (f <$> l).
Proof.
  intros HRS HP Hsorted. induction Hsorted as [|x l Hl IH Hx]; [constructor|].
  apply Forall_cons in HP as [Px Pl]. rewrite fmap_cons. constructor; [by apply IH|].
  apply Forall_fmap. apply Forall_forall. intros y Hy. simpl.
  rewrite Forall_forall in Hx, Pl. apply HRS; auto.
Qed.

Section SortFacts.
Context `{Pandas}.

Lemma sort_values_inv c asc df out :
  sort_values c asc df = Ok out →
  c ∈ columns df ∧ columns out = columns df ∧
  rows out =
    (sort_by (fun r1 r2 => value_le asc (cell r1 c) (cell r2 c))
             (List.filter (fun r => notna (cell r c)) (rows df))
     ++ List.filter (fun r => isna (cell r c)) (rows df))%list.
Proof. unfold sort_values. case_decide; [|done]. intros [= <-]. done. Qed.

Lemma sort_values_Ok c asc df :
  c ∈ columns df → ∃ out, sort_values c asc df = Ok out.
Proof. intros Hc. unfold sort_values. rewrite decide_True by done. eauto. Qed.

Lemma sort_values_perm c asc df out :
  sort_values c asc df = Ok out → rows out ≡ₚ rows df.
Proof.
  intros (_ & _ & ->)%sort_values_inv. rewrite sort_by_perm.
  generalize (rows df). intros l. induction l as [|r l IH]; simpl; [done|].
  unfold notna. destruct (isna (cell r c)); simpl.
  - by rewrite <- Permutation_middle, IH.
  - by rewrite IH.
Qed.

Lemma sort_by_value_sorted {A} (key : A → value) asc (l : list A) :
  StronglySorted (leb_rel (fun a b => value_le asc (key a) (key b)))
                 (sort_by (fun a b => value_le asc (key a) (key b)) l).
Proof.
  apply sort_by_sorted.
  - intros x y. apply value_le_total.
  - intros x y z. apply value_le_trans.
Qed.

(** Sorting a table by a timestamp column without missing cells. *)
Lemma sort_values_Ts_sorted c df out :
  sort_values c true df = Ok out →
  Forall (fun r => ∃ t, cell r c = Ts t) (rows df) →
  ∃ ts, col out c = Ts <$> ts ∧ StronglySorted Z.le ts.
Proof.
  intros Hsort Hts.
  assert (Forall (fun r => ∃ t, cell r c = Ts t) (rows out)) as Hout.
  { apply Forall_forall. intros r Hr. rewrite Forall_forall in Hts. apply Hts.
    by rewrite <- (sort_values_perm _ _ _ _ Hsort). }
  pose (ns := fun r => match cell r c with Ts t => t | _ => 0%Z end).
  exists (ns <$> rows out). split.
  - unfold col. rewrite <- list_fmap_compose. apply Forall_fmap_ext_1.
    eapply Forall_impl; [exact Hout|]. intros r [t Ht]. unfold ns. simpl. by rewrite Ht.
  - apply sort_values_inv in Hsort as (_ & _ & Hrows).
    rewrite (filter_all _ (rows df)) in Hrows.
    2:{ eapply Forall_impl; [exact Hts|]. intros r [t ->]. done. }
    rewrite (filter_none _ (rows df)), app_nil_r in Hrows.
    2:{ eapply Forall_impl; [exact Hts|]. intros r [t ->]. done. }
    eapply (StronglySorted_fmap_on _ _ ns _ _ _ Hout).
    rewrite Hrows. apply (sort_by_value_sorted (fun r => cell r c)).
  Unshelve.
  intros x y [a Ha] [b Hb]. unfold leb_rel, ns. rewrite Ha, Hb. apply value_le_Ts.
Qed.

End SortFacts.

(** ** The dashboard script, step by step *)

Lemma loc_rows_sub df mask r : r ∈ rows (loc df mask) → r ∈ rows df.
Proof.
  unfold loc. simpl. intros ([b r'] & -> & Hin)%list_elem_of_fmap.
  apply elem_of_filter_bool in Hin as [Hin _]. by apply elem_of_zip_r in Hin.
Qed.

Section DashboardFacts.
Context `{Pandas}.

Lemma load_data_typed fs path out :
  load_data fs path = Ok out → Forall typed_row (rows out).
Proof.
  intros [[_ ->]|(df & pub & _ & _ & _ & _ & Hparse & Hrows & _)]%load_data_inv;
    [constructor|].
  rewrite Hrows. apply Forall_fmap, Forall_forall.
  intros [[r s] v] [Hx Hux]%elem_of_filter_bool. simpl. unfold typed_row.
  rewrite cell_normalise_published, cell_normalise_date, cell_normalise_scores.
  unfold usable in Hux. apply andb_true_iff in Hux as [Hp Hs]. simpl in Hp, Hs.
  unfold coerced in Hx.
  pose proof (elem_of_zip_r _ _ _ _ Hx) as Hpub.
  pose proof (elem_of_zip_l _ _ _ _ Hx) as Hx1.
  pose proof (elem_of_zip_r _ _ _ _ Hx1) as Hsc.
  pose proof (to_datetime_ts _ _ Hparse) as Hts.
  pose proof (to_numeric_num (col df "scores")) as Hnum.
  rewrite Forall_forall in Hts, Hnum.
  destruct (Hts _ Hpub) as [E|[t E]]; [by rewrite E in Hp|].
  destruct (Hnum _ Hsc) as [E'|[q E']]; [by rewrite E' in Hs|].
  rewrite E, E'. simpl. eauto.
Qed.

(** What a rendered page was computed from. *)
Lemma dashboard_inv fs sb p :
  dashboard fs sb = Ok (Rendered p) →
  ∃ df mask,
    load_data fs CSV_FILE = Ok df ∧ empty df = false ∧
    filter_mask sb df (dt_date (ts_min (col df "published")))
                      (dt_date (ts_max (col df "published"))) = Ok mask ∧
    sort_values "published" true (loc df mask) = Ok (fdf p) ∧
    "scores" ∈ columns (fdf p) ∧ "source" ∈ columns (fdf p) ∧
    avg_score p = (if negb (empty (fdf p))
                   then series_mean (col (fdf p) "scores") else NA) ∧
    pos_ratio p = (if negb (empty (fdf p))
                   then bool_mean (score_ge 0.05 <$> col (fdf p) "scores") else NA) ∧
    neg_alerts p = count_true (score_le (-0.5) <$> col (fdf p) "scores") ∧
    pos_alerts p = count_true (score_ge 0.5 <$> col (fdf p) "scores") ∧
    resample_daily_mean (fdf p) = Ok (daily p) ∧
    src p = top_sources (col (fdf p) "source") (col (fdf p) "scores") ∧
    (∃ a, sort_values "published" false
            {| columns := columns (fdf p);
               rows := List.filter alert_row (rows (fdf p)) |} = Ok a ∧
          project ["published"; "source"; "title_or_text"; "scores"; "url"] a
            = Ok (alerts p)) ∧
    (∃ f f', sort_values "published" false (fdf p) = Ok f ∧
             project ["published"; "source"; "title_or_text"; "scores";
                      "vader_sentiment"; "url"] f = Ok f' ∧
             feed p = head 30 f') ∧
    download p = to_csv (fdf p).
Proof.
  unfold dashboard. intros Hd.
  apply bind_Ok_inv in Hd as (df & Hload & Hd).
  destruct (empty df) eqn:Hempty; [done|].
  apply bind_Ok_inv in Hd as (published & [_ ->]%getitem_inv & Hd).
  apply bind_Ok_inv in Hd as (source0 & _ & Hd).
  apply bind_Ok_inv in Hd as (mask & Hmask & Hd).
  apply bind_Ok_inv in Hd as (fdf0 & Hfdf & Hd).
  apply bind_Ok_inv in Hd as (scores & [Hsc ->]%getitem_inv & Hd).
  apply bind_Ok_inv in Hd as (daily0 & Hdaily & Hd).
  apply bind_Ok_inv in Hd as (source & [Hso ->]%getitem_inv & Hd).
  apply bind_Ok_inv in Hd as (a & Ha & Hd).
  apply bind_Ok_inv in Hd as (a' & Ha' & Hd).
  apply bind_Ok_inv in Hd as (f & Hf & Hd).
  apply bind_Ok_inv in Hd as (f' & Hf' & Hd).
  injection Hd as <-. cbn [fdf avg_score pos_ratio neg_alerts pos_alerts daily src
                            alerts feed download].
  exists df, mask. repeat split; eauto.
Qed.

Lemma dashboard_fdf_typed fs sb p :
  dashboard fs sb = Ok (Rendered p) → Forall typed_row (rows (fdf p)).
Proof.
  intros (df & mask & Hload & _ & _ & Hsort & _)%dashboard_inv.
  apply Forall_forall. intros r Hr.
  rewrite (sort_values_perm _ _ _ _ Hsort) in Hr. apply loc_rows_sub in Hr.
  pose proof (load_data_typed _ _ _ Hload) as Htyped.
  rewrite Forall_forall in Htyped. auto.
Qed.

End DashboardFacts.

(** ** The filtered view and the KPIs *)

(** C10: the filtered view [fdf] is sorted by [published] in ascending
    order; the KPIs, the daily series, the source ranking, the alerts, the
    feed and the downloaded table are all computed from it, and the records
    of the download are the rows of the view in that order. *)
Theorem filtered_view_sorted_by_published `{Pandas} (fs : filesystem) (sb : Sidebar)
    (p : Page) :
  dashboard fs sb = Ok (Rendered p) →
  ∃ ts, col (fdf p) "published" = Ts <$> ts ∧
        StronglySorted Z.le ts ∧
        computed_from (fdf p) p.
Proof.
  intros Hd.
  pose proof (dashboard_inv _ _ _ Hd) as
    (df & mask & Hload & _ & _ & Hsort & _ & _ & Havg & Hpos & Hneg & Hposa &
     Hdaily & Hsrc & Halerts & Hfeed & Hdown).
  destruct (sort_values_Ts_sorted "published" (loc df mask) (fdf p) Hsort)
    as (ts & Hts & Hsorted).
  { apply Forall_forall. intros r Hr%loc_rows_sub.
    pose proof (load_data_typed _ _ _ Hload) as Htyped.
    rewrite Forall_forall in Htyped.
    destruct (Htyped r Hr) as [(t & Ht & _) _]. eauto. }
  exists ts. split; [done|]. split; [done|].
  unfold computed_from. by repeat split.
Qed.

Lemma filtered_view_sorted_by_published_witness :
  let p := page_of (@dashboard pandas_ref (file_with sample_rows) sample_sidebar) in
  ∃ ts, col (fdf p) "published" = Ts <$> ts ∧
        StronglySorted Z.le ts ∧
        @computed_from pandas_ref (fdf p) p.
Proof.
  apply (@filtered_view_sorted_by_published pandas_ref
           (file_with sample_rows) sample_sidebar).
  vm_compute. reflexivity.
Defined.

(** On the sample table the view holds the two usable rows, the older
    one first. *)
Example filtered_view_sample :
  col (fdf (page_of (@dashboard pandas_ref (file_with sample_rows) sample_sidebar)))
      "published"
  = [Ts (1 * ns_per_day); Ts (3 * ns_per_day)].
Proof. by vm_compute. Qed.

Lemma nums_Num qs : nums (Num <$> qs) = qs.
Proof. induction qs as [|q qs IH]; [done|]. unfold nums in *. csimpl. by rewrite IH. Qed.

Lemma typed_scores (rs : list (gmap string value)) :
  Forall typed_row rs →
  (fun r => cell r "scores") <$> rs
  = Num <$> ((fun r => number_of (cell r "scores")) <$> rs).
Proof.
  intros Hrs. rewrite <- list_fmap_compose. apply Forall_fmap_ext_1.
  eapply Forall_impl; [exact Hrs|]. intros r [_ [q Hq]]. simpl. by rewrite Hq.
Qed.



(** The two cases on the sample table: the mean of the scores of two
    items, and no data when the filters leave no item. *)
Example avg_score_sample :
  avg_score (page_of (@dashboard pandas_ref (file_with sample_rows) sample_sidebar))
    = Num (@float_mean pandas_ref [0.6; 0.6]%Q) ∧
  avg_score (page_of (@dashboard pandas_ref (file_with sample_rows) empty_range_sidebar))
    = NA.
Proof. split; reflexivity. Qed.

(** ** Grouping *)

Section SortedUnique.
Context {K : Type} (ltb : K → K → bool).
Hypothesis ltb_eq : ∀ a b, ltb a b = false → ltb b a = false → a = b.

Lemma elem_of_insert_unique k l x :
  x ∈ insert_unique ltb k l ↔ x = k ∨ x ∈ l.
Proof.
  induction l as [|y l IH]; simpl.
  - rewrite list_elem_of_singleton, elem_of_nil. tauto.
  - destruct (ltb k y) eqn:Hky.
    + by rewrite elem_of_cons.
    + destruct (ltb y k) eqn:Hyk.
      * rewrite !elem_of_cons, IH. tauto.
      * rewrite (ltb_eq _ _ Hky Hyk). rewrite elem_of_cons. tauto.
Qed.

Lemma elem_of_sorted_unique l x : x ∈ sorted_unique ltb l ↔ x ∈ l.
Proof.
  unfold sorted_unique. induction l as [|y l IH]; simpl; [done|].
  rewrite elem_of_insert_unique, IH, elem_of_cons. tauto.
Qed.

End SortedUnique.

Lemma Z_ltb_eq (a b : Z) : (a <? b)%Z = false → (b <? a)%Z = false → a = b.
Proof. intros ?%Z.ltb_ge ?%Z.ltb_ge. lia. Qed.

Lemma group_cells {A} (f g : A → value) (h : value → value) (P : value → bool)
    (rs : list A) :
  (List.filter (fun p => P p.1) (zip (h <$> (f <$> rs)) (g <$> rs))).*2
  = g <$> List.filter (fun r => P (h (f r))) rs.
Proof.
  induction rs as [|r rs IH]; [done|].
  rewrite !fmap_cons. cbn [zip zip_with List.filter fst].
  destruct (P (h (f r))); rewrite ?fmap_cons; cbn [snd]; by rewrite IH.
Qed.

Lemma elem_of_omap_day (l : list value) d : d ∈ omap day_key l ↔ Day d ∈ l.
Proof.
  rewrite list_elem_of_omap. split.
  - intros (v & Hv & Hk). destruct v; try done. by injection Hk as ->.
  - intros Hd. by exists (Day d).
Qed.

(** ** The forecast script *)

Section ForecastFacts.
Context `{Pandas} `{Prophet}.

Lemma valid_rows_columns fs df :
  valid_rows fs = Ok df → "saved_at" ∈ columns df ∧ "scores" ∈ columns df.
Proof.
  unfold valid_rows. destruct (fs CSV_FILE) as [df0|]; [|done]. intros Hv.
  apply bind_Ok_inv in Hv as (saved & _ & Hv).
  apply bind_Ok_inv in Hv as (parsed & _ & Hv).
  apply bind_Ok_inv in Hv as (scores & _ & Hv).
  apply dropna_inv in Hv as (Hcs & -> & _).
  split; apply Hcs; set_solver.
Qed.

Lemma daily_of_rows df :
  "saved_at" ∈ columns df → "scores" ∈ columns df →
  daily_of df =
    Ok {| columns := ["ds"; "y"];
          rows := (fun d => {[ "ds" := Day d; "y" := series_mean (scores_saved_on d df) ]})
                    <$> distinct_days (col df "saved_at") |}.
Proof.
  intros Hsa Hsc. unfold daily_of. rewrite !getitem_Ok by done.
  change (Ok ?a ≫= ?f) with (f a). cbv beta.
  change (Ok ?a ≫= ?f) with (f a). cbv beta.
  unfold daily_frame, groupby_mean, distinct_days. f_equal. f_equal.
  rewrite <- list_fmap_compose. apply list_fmap_ext. intros _ d _. simpl.
  f_equal. f_equal. apply (f_equal series_mean). unfold col.
  pose proof (group_cells (fun r => cell r "saved_at") (fun r => cell r "scores")
                dt_date (fun v : value => bool_decide (day_key v = Some d)) (rows df))
    as Hcells.
  exact Hcells.
Qed.

End ForecastFacts.

Lemma insert_unique_lt_sorted k l :
  StronglySorted Z.lt l → StronglySorted Z.lt (insert_unique Z.ltb k l).
Proof.
  induction 1 as [|y l Hl IH Hy]; simpl; [repeat constructor|].
  destruct (k <? y)%Z eqn:Hky.
  - apply Z.ltb_lt in Hky. constructor; [by constructor|].
    constructor; [done|]. eapply Forall_impl; [exact Hy|]. intros z Hz. simpl in Hz. lia.
  - destruct (y <? k)%Z eqn:Hyk.
    + apply Z.ltb_lt in Hyk. constructor; [done|].
      apply Forall_forall. intros z [->|Hz]%(elem_of_insert_unique _ Z_ltb_eq); [done|].
      rewrite Forall_forall in Hy. auto.
    + by constructor.
Qed.

Lemma distinct_days_sorted saved_at : StronglySorted Z.lt (distinct_days saved_at).
Proof.
  unfold distinct_days, sorted_unique.
  induction (omap day_key (dt_date <$> saved_at)) as [|d l IH]; simpl; [constructor|].
  by apply insert_unique_lt_sorted.
Qed.

Lemma elem_of_distinct_days df d :
  d ∈ distinct_days (col df "saved_at") ↔
  ∃ r, r ∈ rows df ∧ dt_date (cell r "saved_at") = Day d.
Proof.
  unfold distinct_days.
  rewrite (elem_of_sorted_unique _ Z_ltb_eq), elem_of_omap_day.
  unfold col. rewrite <- list_fmap_compose, list_elem_of_fmap. split.
  - intros (r & Hr & Hin). exists r. done.
  - intros (r & Hin & Hr). exists r. done.
Qed.

(** C9 (as the code has it): the daily series the forecast script fits
    has one row per calendar day of a [saved_at] timestamp, in ascending
    order, and maps that day to the mean score of the items saved on that
    day; [published] plays no part. *)
Theorem daily_keyed_by_saved_at `{Pandas} (fs : filesystem) (df : DataFrame) :
  valid_rows fs = Ok df →
  ∃ daily, daily_of df = Ok daily ∧
    rows daily =
      (fun d => {[ "ds" := Day d; "y" := series_mean (scores_saved_on d df) ]})
        <$> distinct_days (col df "saved_at") ∧
    StronglySorted Z.lt (distinct_days (col df "saved_at")) ∧
    ∀ d, d ∈ distinct_days (col df "saved_at") ↔
         ∃ r, r ∈ rows df ∧ dt_date (cell r "saved_at") = Day d.
Proof.
  intros [Hsa Hsc]%valid_rows_columns. eexists.
  split; [by apply daily_of_rows|]. cbn [rows]. split; [done|].
  split; [apply distinct_days_sorted|]. apply elem_of_distinct_days.
Qed.

Lemma daily_keyed_by_saved_at_witness :
  let df := ok_or (DataFrame_of_columns []) (@valid_rows pandas_ref (file_with sample_rows)) in
  ∃ daily, daily_of df = Ok daily ∧
    rows daily =
      (fun d => {[ "ds" := Day d; "y" := series_mean (scores_saved_on d df) ]})
        <$> distinct_days (col df "saved_at") ∧
    StronglySorted Z.lt (distinct_days (col df "saved_at")) ∧
    ∀ d, d ∈ distinct_days (col df "saved_at") ↔
         ∃ r, r ∈ rows df ∧ dt_date (cell r "saved_at") = Day d.
Proof.
  apply (@daily_keyed_by_saved_at pandas_ref (file_with sample_rows)).
  vm_compute. reflexivity.
Defined.

(** C9 as stated fails: an item published on day 0 and saved on day 5
    appears in the daily series under day 5, and day 0 is no key of it. *)
Lemma daily_not_keyed_by_published :
  ¬ (∀ df daily r,
       @valid_rows pandas_ref one_day_file = Ok df →
       daily_of df = Ok daily →
       r ∈ rows df →
       dt_date (to_datetime_cell (cell r "published")) ∈ col daily "ds").
Proof.
  intros Hclaim.
  pose (df := ok_or (DataFrame_of_columns []) (@valid_rows pandas_ref one_day_file)).
  pose (daily := ok_or (DataFrame_of_columns []) (daily_of df)).
  pose (r := default ∅ (List.head (rows df))).
  assert (dt_date (to_datetime_cell (cell r "published")) ∈ col daily "ds") as Hin.
  { apply (Hclaim df daily r).
    - vm_compute. reflexivity.
    - vm_compute. reflexivity.
    - vm_compute. apply list_elem_of_here. }
  vm_compute in Hin.
  apply elem_of_cons in Hin as [Heq|Hin]; [discriminate Heq|].
  by apply not_elem_of_nil in Hin.
Qed.

Example daily_sample :
  col (ok_or (DataFrame_of_columns [])
         (daily_of (ok_or (DataFrame_of_columns [])
                      (@valid_rows pandas_ref one_day_file)))) "ds"
  = [Day 5].
Proof. by vm_compute. Qed.

Section ForecastRun.
Context `{Pandas} `{Prophet}.

(** The script has no handler: what [fit] raises ends the script. *)
Lemma fit_error_propagates fs df daily e :
  valid_rows fs = Ok df → daily_of df = Ok daily → fit daily = Raise e →
  plot_sentiment fs = Raise e.
Proof.
  intros Hv Hd Hfit. unfold plot_sentiment. rewrite Hv.
  change (Ok ?a ≫= ?f) with (f a). cbv beta. rewrite Hd.
  change (Ok ?a ≫= ?f) with (f a). cbv beta.
  unfold forecast_figure. by rewrite Hfit.
Qed.

(** A figure is only built from a fitted model and its forecast. *)
Lemma figure_needs_fit fs fig :
  plot_sentiment fs = Ok fig →
  ∃ df daily m future forecast,
    valid_rows fs = Ok df ∧ daily_of df = Ok daily ∧ fit daily = Ok m ∧
    make_future_dataframe m 7 = Ok future ∧ predict m future = Ok forecast ∧
    forecast_line fig = (col forecast "ds", col forecast "yhat").
Proof.
  unfold plot_sentiment. intros Hp.
  apply bind_Ok_inv in Hp as (df & Hv & Hp).
  apply bind_Ok_inv in Hp as (daily & Hd & Hp).
  unfold forecast_figure in Hp.
  apply bind_Ok_inv in Hp as (m & Hm & Hp).
  apply bind_Ok_inv in Hp as (future & Hfu & Hp).
  apply bind_Ok_inv in Hp as (forecast & Hfo & Hp).
  apply bind_Ok_inv in Hp as (ds & _ & Hp).
  apply bind_Ok_inv in Hp as (y & _ & Hp).
  apply bind_Ok_inv in Hp as (fds & [_ ->]%getitem_inv & Hp).
  apply bind_Ok_inv in Hp as (yhat & [_ ->]%getitem_inv & Hp).
  apply bind_Ok_inv in Hp as (yu & _ & Hp).
  apply bind_Ok_inv in Hp as (yl & _ & Hp).
  injection Hp as <-. exists df, daily, m, future, forecast. done.
Qed.

End ForecastRun.

(** C3 (as the code has it): the script does not check the number of
    days.  The daily series has one row per distinct day; with fewer than 2
    distinct days it is handed to the fitting procedure all the same, and
    when that procedure refuses frames of fewer than 2 rows (as Prophet
    does), its exception ends the script: no forecast is produced, and the
    failure is the uncaught exception, not a result of the script. *)
Theorem few_days_fit_error_ends_script `{Pandas} `{Prophet} (fs : filesystem)
    (df : DataFrame) :
  valid_rows fs = Ok df →
  (length (distinct_days (col df "saved_at")) < 2)%nat →
  (∀ d, (length (rows d) < 2)%nat → ∃ e, fit d = Raise e) →
  ∃ daily e,
    daily_of df = Ok daily ∧
    length (rows daily) = length (distinct_days (col df "saved_at")) ∧
    fit daily = Raise e ∧
    plot_sentiment fs = Raise e.
Proof.
  intros Hv Hfew Hfit.
  destruct (valid_rows_columns _ _ Hv) as [Hsa Hsc].
  pose proof (daily_of_rows df Hsa Hsc) as Hd.
  eexists. 
  assert (length (rows (mkDataFrame ["ds"; "y"]
            ((fun d => {[ "ds" := Day d; "y" := series_mean (scores_saved_on d df) ]})
               <$> distinct_days (col df "saved_at"))))
          = length (distinct_days (col df "saved_at"))) as Hlen
    by (cbn [rows]; by rewrite length_fmap).
  destruct (Hfit _ ltac:(rewrite Hlen; exact Hfew)) as [e He].
  exists e. split; [exact Hd|]. split; [exact Hlen|]. split; [exact He|].
  by apply (fit_error_propagates fs df _ e Hv Hd).
Qed.

Lemma prophet_min_refuses (d : DataFrame) :
  (length (rows d) < 2)%nat → ∃ e, @fit prophet_min d = Raise e.
Proof.
  intros Hlt. simpl. unfold prophet_fit_min.
  apply Nat.ltb_lt in Hlt. rewrite Hlt. eauto.
Qed.

Lemma few_days_fit_error_ends_script_witness :
  let df := ok_or (DataFrame_of_columns []) (@valid_rows pandas_ref one_day_file) in
  ∃ daily e,
    daily_of df = Ok daily ∧
    length (rows daily) = length (distinct_days (col df "saved_at")) ∧
    @fit prophet_min daily = Raise e ∧
    @plot_sentiment pandas_ref prophet_min one_day_file = Raise e.
Proof.
  apply (@few_days_fit_error_ends_script pandas_ref prophet_min one_day_file).
  - vm_compute. reflexivity.
  - vm_compute. lia.
  - exact prophet_min_refuses.
Defined.

(** C3 as stated fails: on a table with a single day the script ends with
    the exception of the fitting procedure; with a fitting procedure that
    accepts the frame it shows a numeric forecast.  Either way there is no
    failure result of its own. *)
Lemma single_day_forecast_crashes :
  (∃ df, @valid_rows pandas_ref one_day_file = Ok df ∧
         length (distinct_days (col df "saved_at")) = 1%nat) ∧
  @plot_sentiment pandas_ref prophet_min one_day_file
    = Raise (ValueError "Dataframe has less than 2 non-NaN rows.") ∧
  ∃ fig, @plot_sentiment pandas_ref prophet_lenient one_day_file = Ok fig ∧
         (forecast_line fig).1 = Day <$> seqZ 5 8.
Proof.
  split; [|split].
  - eexists. split; [vm_compute; reflexivity|]. by vm_compute.
  - by vm_compute.
  - eexists. split; [vm_compute; reflexivity|]. by vm_compute.
Qed.

(** ** The keyword filter *)

Lemma contains_empty h : contains "" h = true.
Proof. by destruct h. Qed.

Lemma zip_with_andb_true (mask : list bool) {A} (l : list A) :
  length mask = length l → zip_with andb mask ((fun _ => true) <$> l) = mask.
Proof.
  revert l. induction mask as [|b mask IH]; intros [|x l] Hlen; simpl in *; try done.
  rewrite andb_true_r. f_equal. apply IH. lia.
Qed.

Section KeywordFacts.
Context `{Pandas}.

(** The [keyword_hint] of a loaded row is its lower-cased title. *)
Lemma load_data_hint fs path df out :
  fs path = Some df → load_data fs path = Ok out →
  "keyword_hint" ∈ columns out ∧
  Forall (fun r => cell r "keyword_hint" = str_lower (fillna "" (cell r "title_or_text")))
         (rows out).
Proof.
  intros Hfs [[Hnone _]|(df' & pub & Hfs' & _ & _ & _ & _ & Hrows & Hcols)]%load_data_inv;
    [congruence|].
  split; [apply Hcols; auto|].
  rewrite Hrows. apply Forall_fmap, Forall_forall. intros x _. simpl.
  rewrite cell_normalise_hint, cell_normalise_other; [done|].
  intros Hin. apply list_elem_of_In in Hin. simpl in Hin.
  destruct Hin as [E|[E|[E|[E|[]]]]]; discriminate E.
Qed.

Lemma hint_of_text_title r :
  text_title r →
  cell r "keyword_hint" = str_lower (fillna "" (cell r "title_or_text")) →
  cell r "keyword_hint" = Str (lower (title_text r)).
Proof.
  unfold title_text. intros [E|[s E]] ->; rewrite E; done.
Qed.

End KeywordFacts.

(** C5 (as the code has it): the keyword typed in the sidebar is stripped
    of surrounding whitespace and lower-cased.  When the result has no
    character that is special in a regular expression, the keyword mask
    keeps exactly the rows whose lower-cased title contains it as a
    substring; in particular a keyword that is empty after stripping keeps
    every row. *)
Theorem keyword_filter_plain `{Pandas} (fs : filesystem) (sb : Sidebar)
    (df0 df : DataFrame) (mask : list bool) :
  fs CSV_FILE = Some df0 →
  load_data fs CSV_FILE = Ok df →
  Forall text_title (rows df) →
  length mask = length (rows df) →
  plain (lower (strip (keyword_text sb))) = true →
  keyword_mask (keyword_of sb) df mask =
    Ok (zip_with andb mask
          ((fun r => contains (lower (strip (keyword_text sb))) (lower (title_text r)))
             <$> rows df)).
Proof.
  intros Hfs Hload Htext Hlen Hplain.
  destruct (load_data_hint _ _ _ _ Hfs Hload) as [Hcol Hhint].
  unfold keyword_mask, keyword_of. case_decide as Hkw.
  - rewrite Hkw. f_equal.
    rewrite (list_fmap_ext _ (fun _ => true) (rows df))
      by (intros; apply contains_empty).
    by rewrite zip_with_andb_true.
  - rewrite getitem_Ok by done.
    change (Ok ?a ≫= ?f) with (f a). cbv beta.
    destruct (re_compile_plain _ Hplain) as (m & -> & Hm).
    change (Ok ?a ≫= ?f) with (f a). cbv beta.
    f_equal. f_equal. unfold col. rewrite <- list_fmap_compose.
    apply Forall_fmap_ext_1, Forall_forall. intros r Hr. simpl.
    rewrite Forall_forall in Htext, Hhint.
    rewrite (hint_of_text_title r (Htext r Hr) (Hhint r Hr)). simpl. apply Hm.
Qed.

Lemma text_title_check (rs : list (gmap string value)) :
  forallb (fun r => match cell r "title_or_text" with
                    | NA | Str _ => true
                    | _ => false
                    end) rs = true →
  Forall text_title rs.
Proof.
  intros Hall. apply Forall_forall. intros r Hr%list_elem_of_In.
  rewrite forallb_forall in Hall. specialize (Hall r Hr). unfold text_title.
  destruct (cell r "title_or_text"); try done; eauto.
Qed.

Lemma keyword_filter_plain_witness :
  let df := ok_or (DataFrame_of_columns [])
              (@load_data pandas_ref (file_with sample_rows) CSV_FILE) in
  let sb := sidebar_with_keyword "  MARKETS " in
  @keyword_mask pandas_ref (keyword_of sb) df [true; true] =
    Ok (zip_with andb [true; true]
          ((fun r => contains (lower (strip (keyword_text sb))) (lower (title_text r)))
             <$> rows df)).
Proof.
  apply (@keyword_filter_plain pandas_ref (file_with sample_rows)
           (sidebar_with_keyword "  MARKETS ")
           {| columns := raw_columns; rows := sample_rows |}).
  - reflexivity.
  - vm_compute. reflexivity.
  - apply text_title_check. vm_compute. reflexivity.
  - reflexivity.
  - vm_compute. reflexivity.
Defined.

(** C5 as stated fails.  A keyword with a leading blank is stripped
    before the match, so the row "Markets Rally" is kept although its
    lower-cased title does not contain the lower-cased keyword literally;
    and the keyword "a.c" is read as a regular expression, so the row "abc"
    is kept although it does not contain "a.c". *)
Lemma keyword_filter_not_literal :
  let df := ok_or (DataFrame_of_columns [])
              (@load_data pandas_ref (file_with sample_rows) CSV_FILE) in
  let literal kw := (fun r => contains (lower kw) (lower (title_text r))) <$> rows df in
  (@keyword_mask pandas_ref (keyword_of (sidebar_with_keyword " markets")) df [true; true]
     = Ok [true; false] ∧ literal " markets" = [false; false]) ∧
  (@keyword_mask pandas_ref (keyword_of (sidebar_with_keyword "a.c")) df [true; true]
     = Ok [false; true] ∧ literal "a.c" = [false; false]).
Proof. by vm_compute. Qed.

(** ** The ranking of sources *)

Lemma String_ltb_eq (a b : string) :
  String.ltb a b = false → String.ltb b a = false → a = b.
Proof.
  unfold String.ltb. rewrite (String.compare_antisym a b).
  destruct (String.compare b a) eqn:Hc; simpl; try done.
  intros _ _. symmetry. by apply String.compare_eq_iff.
Qed.

Lemma group_cells_plain {A} (f g : A → value) (P : value → bool) (rs : list A) :
  (List.filter (fun p => P p.1) (zip (f <$> rs) (g <$> rs))).*2
  = g <$> List.filter (fun r => P (f r)) rs.
Proof.
  induction rs as [|r rs IH]; [done|].
  rewrite !fmap_cons. cbn [zip zip_with List.filter fst].
  destruct (P (f r)); rewrite ?fmap_cons; cbn [snd]; by rewrite IH.
Qed.

Lemma source_means_eq `{Pandas} view :
  source_means view =
    (fun s => (s, series_mean (scores_of_source s view)))
      <$> sorted_unique String.ltb (omap str_key (col view "source")).
Proof.
  unfold source_means, groupby_mean. apply list_fmap_ext. intros _ s _.
  f_equal. apply (f_equal series_mean). unfold col, scores_of_source.
  pose proof (group_cells_plain (fun r => cell r "source") (fun r => cell r "scores")
                (fun v : value => bool_decide (str_key v = Some s)) (rows view))
    as Hcells.
  exact Hcells.
Qed.

Lemma elem_of_omap_str (l : list value) s : s ∈ omap str_key l ↔ Str s ∈ l.
Proof.
  rewrite list_elem_of_omap. split.
  - intros (v & Hv & Hk). destruct v; try done. by injection Hk as ->.
  - intros Hs. by exists (Str s).
Qed.

Lemma series_mean_Num `{Pandas} qs :
  qs ≠ [] → series_mean (Num <$> qs) = Num (float_mean qs).
Proof. intros Hne. unfold series_mean. rewrite nums_Num. by destruct qs. Qed.

Lemma StronglySorted_take {A} (R : relation A) n l :
  StronglySorted R l → StronglySorted R (take n l).
Proof.
  intros Hl. revert n. induction Hl as [|x l Hl IH Hx]; intros [|n]; simpl;
    try constructor; [apply IH|].
  apply Forall_forall. intros y Hy. rewrite Forall_forall in Hx. apply Hx.
  apply elem_of_take in Hy as (i & Hi & _). by eapply list_elem_of_lookup_2.
Qed.

Section TopSources.
Context `{Pandas}.

Lemma series_sort_values_perm {K} asc (s : list (K * value)) :
  series_sort_values asc s ≡ₚ s.
Proof.
  unfold series_sort_values. rewrite sort_by_perm.
  induction s as [|a s IH]; simpl; [done|].
  unfold notna. destruct (isna a.2); simpl.
  - by rewrite <- Permutation_middle, IH.
  - by rewrite IH.
Qed.

Lemma series_sort_values_present {K} asc (s : list (K * value)) :
  Forall (fun a => ∃ q, a.2 = Num q) s →
  series_sort_values asc s = sort_by (fun a b => value_le asc a.2 b.2) s.
Proof.
  intros Hs. unfold series_sort_values.
  rewrite (filter_all _ s), (filter_none _ s), app_nil_r; [done|..];
    (eapply Forall_impl; [exact Hs|]); intros a [q ->]; done.
Qed.

(** On a view with typed rows every source has a number as mean. *)
Lemma source_means_present view :
  Forall typed_row (rows view) →
  Forall (fun a => ∃ q, a.2 = Num q) (source_means view).
Proof.
  intros Htyped. rewrite source_means_eq. apply Forall_fmap, Forall_forall.
  intros s Hs. simpl.
  rewrite (elem_of_sorted_unique _ String_ltb_eq), elem_of_omap_str in Hs.
  unfold col in Hs.
  apply list_elem_of_fmap in Hs as (r & Hr & Hin).
  unfold scores_of_source.
  set (rs := List.filter _ (rows view)).
  assert (r ∈ rs) as Hrs.
  { apply elem_of_filter_bool. split; [done|]. rewrite <- Hr. by apply bool_decide_eq_true_2. }
  assert (Forall typed_row rs) as Hrst.
  { apply Forall_forall. intros r' [Hr' _]%elem_of_filter_bool.
    rewrite Forall_forall in Htyped. auto. }
  rewrite (typed_scores rs Hrst). rewrite series_mean_Num; [eauto|].
  destruct rs; [by apply not_elem_of_nil in Hrs|done].
Qed.

End TopSources.

(** * Further properties of the scripts *)

(** ** [load_data]: rows and errors *)

(** Every row [load_data] returns carries a timestamp, the calendar day
    of that timestamp as [date], a number as score, and as [keyword_hint]
    the lower-cased title (the empty text for a missing title). *)
Theorem load_data_row_invariant `{Pandas} (fs : filesystem) (path : string)
    (out : DataFrame) :
  load_data fs path = Ok out →
  Forall (fun r =>
            ∃ t q, cell r "published" = Ts t ∧
                   cell r "date" = Day (t / ns_per_day) ∧
                   cell r "scores" = Num q ∧
                   cell r "keyword_hint"
                     = str_lower (fillna "" (cell r "title_or_text")))
         (rows out).
Proof.
  intros Hload. pose proof (load_data_typed _ _ _ Hload) as Htyped.
  destruct (fs path) as [df|] eqn:Hfs.
  - destruct (load_data_hint _ _ _ _ Hfs Hload) as [_ Hhint].
    rewrite Forall_forall in Htyped, Hhint. apply Forall_forall. intros r Hr.
    destruct (Htyped r Hr) as [(t & Ht & Hd) (q & Hq)]. exists t, q. auto.
  - unfold load_data in Hload. rewrite Hfs in Hload. injection Hload as <-.
    constructor.
Qed.

Lemma load_data_row_invariant_witness :
  Forall (fun r =>
            ∃ t q, cell r "published" = Ts t ∧
                   cell r "date" = Day (t / ns_per_day) ∧
                   cell r "scores" = Num q ∧
                   cell r "keyword_hint"
                     = str_lower (fillna "" (cell r "title_or_text")))
         (rows (ok_or (DataFrame_of_columns [])
                  (@load_data pandas_ref (file_with sample_rows) CSV_FILE))).
Proof.
  apply (@load_data_row_invariant pandas_ref (file_with sample_rows) CSV_FILE).
  vm_compute. reflexivity.
Defined.

Lemma dropna_first_missing cs df c :
  List.filter (fun c => negb (bool_decide (c ∈ columns df))) cs = c :: [] →
  dropna cs df = Raise (KeyError c).
Proof. intros Hc. unfold dropna. by rewrite Hc. Qed.

(** A file that lacks a column [load_data] reads makes it raise: always
    an exception, never a table.  It is [KeyError] for [published] at the
    derivation of [date]; [KeyError] for [title_or_text] at the derivation
    of [keyword_hint], when the timestamp parser returned on the
    [published] column before; and [KeyError] for [scores] at [dropna],
    when the parser and the [.str] accessor of the title column returned
    before; the test ["scores" in df.columns] does not prevent it. *)
Theorem load_data_missing_column `{Pandas} (fs : filesystem) (path : string)
    (df : DataFrame) :
  fs path = Some df →
  ("published" ∉ columns df → load_data fs path = Raise (KeyError "published")) ∧
  ("published" ∈ columns df → "title_or_text" ∉ columns df →
     ∀ pub, to_datetime (col df "published") = Ok pub →
     load_data fs path = Raise (KeyError "title_or_text")) ∧
  ("published" ∈ columns df → "title_or_text" ∈ columns df → "scores" ∉ columns df →
     ∀ pub text, to_datetime (col df "published") = Ok pub →
     str_accessor (fillna "" <$> col df "title_or_text") = Ok text →
     load_data fs path = Raise (KeyError "scores")) ∧
  (¬ ("published" ∈ columns df ∧ "scores" ∈ columns df ∧
      "title_or_text" ∈ columns df) →
     ∃ e, load_data fs path = Raise e).
Proof.
  intros Hfs. split; [|split; [|split]]; [| | |by apply load_data_missing].
  - intros Hp. unfold load_data. rewrite Hfs.
    destruct (coerce_scores_Ok df) as (df1 & -> & Hc1 & _ & _).
    change (Ok ?a ≫= ?f) with (f a). cbv beta.
    rewrite coerce_absent by (by rewrite Hc1).
    change (Ok ?a ≫= ?f) with (f a). cbv beta.
    by rewrite getitem_Raise by (by rewrite Hc1).
  - intros Hp Ht pub Hpub. unfold load_data. rewrite Hfs.
    destruct (coerce_scores_Ok df) as (df1 & -> & Hc1 & _ & Hcol1).
    change (Ok ?a ≫= ?f) with (f a). cbv beta.
    rewrite (coerce_present _ "published" df1 pub)
      by (by rewrite ?Hc1, ?Hcol1).
    change (Ok ?a ≫= ?f) with (f a). cbv beta.
    rewrite getitem_Ok by (rewrite columns_setitem; by left).
    change (Ok ?a ≫= ?f) with (f a). cbv beta.
    rewrite getitem_Raise; [done|].
    rewrite !columns_setitem, Hc1. by intros [|[|]].
  - intros Hp Ht Hs pub text Hpub Hstr. unfold load_data. rewrite Hfs.
    destruct (coerce_scores_Ok df) as (df1 & -> & Hc1 & Hl1 & Hcol1).
    change (Ok ?a ≫= ?f) with (f a). cbv beta.
    assert (length pub = length (rows df1)) as Hlpub
      by (rewrite (to_datetime_length _ _ Hpub), length_col; done).
    rewrite (coerce_present _ "published" df1 pub)
      by (by rewrite ?Hc1, ?Hcol1).
    change (Ok ?a ≫= ?f) with (f a). cbv beta.
    set (df2 := setitem df1 "published" pub).
    assert (length (rows df2) = length (rows df1)) as Hl2
      by (by apply length_rows_setitem).
    rewrite (getitem_Ok df2) by (unfold df2; rewrite columns_setitem; by left).
    change (Ok ?a ≫= ?f) with (f a). cbv beta.
    set (df3 := setitem df2 "date" _).
    assert (∀ c, c ∈ columns df3 ↔ c = "date" ∨ c = "published" ∨ c ∈ columns df)
      as Hc3.
    { intros c. unfold df3, df2. by rewrite !columns_setitem, Hc1. }
    assert (col df3 "title_or_text" = col df "title_or_text") as Ht3.
    { unfold df3. rewrite col_setitem_ne; [|done|by rewrite length_fmap, length_col].
      unfold df2. rewrite col_setitem_ne; [|done|done]. by apply Hcol1. }
    rewrite (getitem_Ok df3) by (rewrite Hc3; auto).
    rewrite Ht3. change (Ok ?a ≫= ?f) with (f a). cbv beta.
    rewrite Hstr. change (Ok ?a ≫= ?f) with (f a). cbv beta.
    apply dropna_first_missing. cbn [List.filter].
    rewrite bool_decide_eq_true_2.
    2:{ rewrite !columns_setitem, Hc3. auto. }
    rewrite bool_decide_eq_false_2; [done|].
    rewrite !columns_setitem, Hc3. by intros [|[|[|]]].
Qed.

Lemma load_data_missing_column_witness :
  @load_data pandas_ref no_scores_file CSV_FILE = Raise (KeyError "scores").
Proof.
  apply (@load_data_missing_column pandas_ref no_scores_file CSV_FILE
           {| columns := ["title_or_text"; "source"; "published"]; rows := sample_rows |}
           eq_refl)
    with (pub := to_datetime_cell
                   <$> col {| columns := ["title_or_text"; "source"; "published"];
                              rows := sample_rows |} "published")
         (text := fillna ""
                   <$> col {| columns := ["title_or_text"; "source"; "published"];
                              rows := sample_rows |} "title_or_text").
  - apply (bool_decide_unpack _). vm_compute. exact I.
  - apply (bool_decide_unpack _). vm_compute. exact I.
  - apply (bool_decide_eq_false_1 _). vm_compute. reflexivity.
  - reflexivity.
  - vm_compute. reflexivity.
Defined.

(** ** The dashboard: stopping and errors *)

Lemma load_data_columns_nonempty `{Pandas} fs path out :
  load_data fs path = Ok out → columns out ≠ [].
Proof.
  intros [[_ ->]|(df & pub & _ & _ & _ & _ & _ & _ & Hcols)]%load_data_inv; [done|].
  intros Hnil. assert ("date" ∈ columns out) as Hin by (apply Hcols; auto).
  rewrite Hnil in Hin. by apply not_elem_of_nil in Hin.
Qed.

(** The page stops with "No data yet" exactly when the table loads
    without a row: the file is missing, or no row has both a timestamp and
    a score. *)
Theorem dashboard_stops_iff_no_rows `{Pandas} (fs : filesystem) (sb : Sidebar) :
  dashboard fs sb = Ok Stopped ↔
  ∃ df, load_data fs CSV_FILE = Ok df ∧ rows df = [].
Proof.
  unfold dashboard. split.
  - intros Hd. apply bind_Ok_inv in Hd as (df & Hload & Hd).
    exists df. split; [done|].
    destruct (empty df) eqn:Hempty.
    + unfold empty in Hempty. destruct (rows df) as [|r rs]; [done|].
      pose proof (load_data_columns_nonempty _ _ _ Hload) as Hne.
      destruct (columns df); done.
    + exfalso.
      apply bind_Ok_inv in Hd as (published & _ & Hd).
      apply bind_Ok_inv in Hd as (source0 & _ & Hd).
      apply bind_Ok_inv in Hd as (mask & _ & Hd).
      apply bind_Ok_inv in Hd as (fdf0 & _ & Hd).
      apply bind_Ok_inv in Hd as (scores & _ & Hd).
      apply bind_Ok_inv in Hd as (daily0 & _ & Hd).
      apply bind_Ok_inv in Hd as (source & _ & Hd).
      apply bind_Ok_inv in Hd as (a & _ & Hd).
      apply bind_Ok_inv in Hd as (a' & _ & Hd).
      apply bind_Ok_inv in Hd as (f & _ & Hd).
      apply bind_Ok_inv in Hd as (f' & _ & Hd).
      discriminate Hd.
  - intros (df & -> & Hrows).
    change (Ok ?a ≫= ?f) with (f a). cbv beta.
    unfold empty. by rewrite Hrows.
Qed.

(** ** The filters *)

Lemma zip_with_fmap_same {A B C D} (h : B → C → D) (f : A → B) (g : A → C)
    (l : list A) :
  zip_with h (f <$> l) (g <$> l) = (fun x => h (f x) (g x)) <$> l.
Proof. induction l as [|x l IH]; [done|]. rewrite !fmap_cons. simpl. by rewrite IH. Qed.

Lemma loc_fmap df (f : gmap string value → bool) :
  rows (loc df (f <$> rows df)) = List.filter f (rows df).
Proof.
  unfold loc. cbn [rows]. induction (rows df) as [|r rs IH]; [done|].
  rewrite fmap_cons. cbn [zip zip_with List.filter fst].
  destruct (f r); rewrite ?fmap_cons; cbn [snd]; by rewrite IH.
Qed.

Section FilterFacts.
Context `{Pandas}.

(** The mask of [filter_mask], row by row. *)
Lemma filter_mask_rows sb df mn mx mask :
  filter_mask sb df mn mx = Ok mask →
  ∃ lo hi matcher,
    range_start (date_range sb) mn = Ok lo ∧
    range_end (date_range sb) mx = Ok hi ∧
    (if decide (keyword_of sb = "") then matcher = None
     else ∃ m, re_compile (keyword_of sb) = Ok m ∧ matcher = Some m) ∧
    mask = row_kept lo hi (sources sb) matcher (show_only_alerts sb) <$> rows df.
Proof.
  unfold filter_mask. intros Hm.
  apply bind_Ok_inv in Hm as (date & [_ ->]%getitem_inv & Hm).
  apply bind_Ok_inv in Hm as (lo & Hlo & Hm).
  apply bind_Ok_inv in Hm as (hi & Hhi & Hm).
  apply bind_Ok_inv in Hm as (source & [_ ->]%getitem_inv & Hm).
  apply bind_Ok_inv in Hm as (mask1 & Hkw & Hm).
  unfold col in Hkw. rewrite <- !list_fmap_compose, !zip_with_fmap_same in Hkw.
  unfold keyword_mask in Hkw. unfold alerts_mask in Hm.
  destruct (decide (keyword_of sb = "")) as [Hk|Hk].
  - injection Hkw as <-. exists lo, hi, None.
    repeat split; try done.
    destruct (show_only_alerts sb).
    + apply bind_Ok_inv in Hm as (scores & [_ ->]%getitem_inv & Hm).
      injection Hm as <-. unfold col.
      rewrite <- !list_fmap_compose, !zip_with_fmap_same.
      apply list_fmap_ext. intros _ r _. unfold row_kept, alert_row. simpl.
      by rewrite andb_true_r.
    + injection Hm as <-. apply list_fmap_ext. intros _ r _.
      unfold row_kept. simpl. by rewrite !andb_true_r.
  - apply bind_Ok_inv in Hkw as (hint & [_ ->]%getitem_inv & Hkw).
    apply bind_Ok_inv in Hkw as (m & Hcomp & Hkw). injection Hkw as <-.
    exists lo, hi, (Some m).
    repeat split; try done; [by exists m|].
    unfold col in Hm. rewrite <- !list_fmap_compose, !zip_with_fmap_same in Hm.
    destruct (show_only_alerts sb).
    + apply bind_Ok_inv in Hm as (scores & [_ ->]%getitem_inv & Hm).
      injection Hm as <-. unfold col.
      rewrite <- !list_fmap_compose, !zip_with_fmap_same.
      apply list_fmap_ext. intros _ r _. unfold row_kept, alert_row. done.
    + injection Hm as <-. apply list_fmap_ext. intros _ r _.
      unfold row_kept. simpl. by rewrite andb_true_r.
Qed.

End FilterFacts.

Lemma fdf_rows `{Pandas} (fs : filesystem) (sb : Sidebar) (p : Page) :
  dashboard fs sb = Ok (Rendered p) →
  ∃ df lo hi matcher,
    load_data fs CSV_FILE = Ok df ∧
    range_start (date_range sb) (dt_date (ts_min (col df "published"))) = Ok lo ∧
    range_end (date_range sb) (dt_date (ts_max (col df "published"))) = Ok hi ∧
    (if decide (keyword_of sb = "") then matcher = None
     else ∃ m, re_compile (keyword_of sb) = Ok m ∧ matcher = Some m) ∧
    columns (fdf p) = columns df ∧
    rows (fdf p) ≡ₚ
      List.filter (row_kept lo hi (sources sb) matcher (show_only_alerts sb)) (rows df).
Proof.
  intros (df & mask & Hload & _ & Hmask & Hsort & _)%dashboard_inv.
  destruct (filter_mask_rows _ _ _ _ _ Hmask) as (lo & hi & matcher & Hlo & Hhi & Hkw & ->).
  exists df, lo, hi, matcher. repeat split; try done.
  - by apply sort_values_inv in Hsort as (_ & -> & _).
  - rewrite (sort_values_perm _ _ _ _ Hsort). by rewrite loc_fmap.
Qed.

(** The filtered view holds exactly the loaded rows that pass the date
    range (both ends inclusive), the source selection, the keyword matcher
    (when a keyword is given) and the alert toggle, and it has the columns of
    the loaded table. *)
Theorem filtered_view_rows `{Pandas} (fs : filesystem) (sb : Sidebar) (p : Page) :
  dashboard fs sb = Ok (Rendered p) →
  ∃ df lo hi matcher,
    load_data fs CSV_FILE = Ok df ∧
    range_start (date_range sb) (dt_date (ts_min (col df "published"))) = Ok lo ∧
    range_end (date_range sb) (dt_date (ts_max (col df "published"))) = Ok hi ∧
    (if decide (keyword_of sb = "") then matcher = None
     else ∃ m, re_compile (keyword_of sb) = Ok m ∧ matcher = Some m) ∧
    columns (fdf p) = columns df ∧
    rows (fdf p) ≡ₚ
      List.filter (row_kept lo hi (sources sb) matcher (show_only_alerts sb)) (rows df).
Proof. apply fdf_rows. Qed.

Lemma filtered_view_rows_witness :
  let p := page_of (@dashboard pandas_ref (file_with sample_rows) sample_sidebar) in
  ∃ df lo hi matcher,
    @load_data pandas_ref (file_with sample_rows) CSV_FILE = Ok df ∧
    range_start (date_range sample_sidebar) (dt_date (ts_min (col df "published")))
      = Ok lo ∧
    range_end (date_range sample_sidebar) (dt_date (ts_max (col df "published")))
      = Ok hi ∧
    (if decide (keyword_of sample_sidebar = "") then matcher = None
     else ∃ m, @re_compile pandas_ref (keyword_of sample_sidebar) = Ok m
               ∧ matcher = Some m) ∧
    columns (fdf p) = columns df ∧
    rows (fdf p) ≡ₚ
      List.filter (row_kept lo hi (sources sample_sidebar) matcher
                     (show_only_alerts sample_sidebar)) (rows df).
Proof.
  apply (@filtered_view_rows pandas_ref (file_with sample_rows) sample_sidebar).
  vm_compute. reflexivity.
Defined.

(** With a date range given as a tuple, every row of the filtered view
    lies between the first and the last date of the tuple (both inclusive)
    and has a source that is selected; a row without a source is never
    shown.  With the alert toggle on, every row is a strong alert. *)
Theorem filtered_rows_in_range `{Pandas} (fs : filesystem) (sb : Sidebar) (p : Page)
    (a b : Z) (l : list Z) :
  dashboard fs sb = Ok (Rendered p) →
  date_range sb = DateTuple (a :: l) →
  last (a :: l) = Some b →
  Forall (fun r =>
            ∃ d s, cell r "date" = Day d ∧ (a ≤ d ≤ b)%Z ∧
                   cell r "source" = Str s ∧ s ∈ sources sb ∧
                   (show_only_alerts sb = true → alert_row r = true))
         (rows (fdf p)).
Proof.
  intros Hd Hdr Hlast.
  destruct (fdf_rows _ _ _ Hd) as (df & lo & hi & matcher & _ & Hlo & Hhi & _ & _ & Hperm).
  rewrite Hdr in Hlo, Hhi. cbn [range_start] in Hlo. unfold range_end in Hhi.
  rewrite Hlast in Hhi. injection Hlo as <-. injection Hhi as <-.
  apply Forall_forall. intros r Hr. rewrite Hperm in Hr.
  apply elem_of_filter_bool in Hr as [_ Hkept]. unfold row_kept in Hkept.
  apply andb_true_iff in Hkept as [Hkept Halert].
  apply andb_true_iff in Hkept as [Hkept _].
  apply andb_true_iff in Hkept as [Hkept Hsrc].
  apply andb_true_iff in Hkept as [Hge Hle].
  destruct (cell r "date") as [| | | |d]; try done.
  destruct (cell r "source") as [|s| | |]; try done.
  exists d, s. simpl in Hge, Hle, Hsrc. repeat split; try done.
  - by apply Z.leb_le.
  - by apply Z.leb_le.
  - by apply bool_decide_eq_true_1 in Hsrc.
  - intros Honly. by rewrite Honly in Halert.
Qed.

Lemma filtered_rows_in_range_witness :
  let p := page_of (@dashboard pandas_ref (file_with sample_rows) sample_sidebar) in
  Forall (fun r =>
            ∃ d s, cell r "date" = Day d ∧ (0 ≤ d ≤ 10)%Z ∧
                   cell r "source" = Str s ∧ s ∈ sources sample_sidebar ∧
                   (show_only_alerts sample_sidebar = true → alert_row r = true))
         (rows (fdf p)).
Proof.
  apply (@filtered_rows_in_range pandas_ref (file_with sample_rows) sample_sidebar
           _ 0%Z 10%Z [10%Z]).
  - vm_compute. reflexivity.
  - reflexivity.
  - reflexivity.
Defined.

Section DashboardErrors.
Context `{Pandas}.

Lemma loaded_rows_columns fs df :
  load_data fs CSV_FILE = Ok df → rows df ≠ [] →
  empty df = false ∧ "published" ∈ columns df ∧ "date" ∈ columns df ∧
  "scores" ∈ columns df ∧ "keyword_hint" ∈ columns df.
Proof.
  intros Hload Hrows.
  pose proof (load_data_columns_nonempty _ _ _ Hload) as Hne.
  destruct (load_data_inv _ _ _ Hload) as [[_ ->]|(df0 & pub & _ & Hp & Hs & _ & _ & _ & Hcols)];
    [done|].
  split; [|rewrite !Hcols; auto 10].
  unfold empty. destruct (rows df); [done|]. by destruct (columns df).
Qed.

(** Whatever raises while the mask is computed ends the page. *)
Lemma dashboard_filter_error fs sb df e :
  load_data fs CSV_FILE = Ok df → rows df ≠ [] → "source" ∈ columns df →
  filter_mask sb df (dt_date (ts_min (col df "published")))
                    (dt_date (ts_max (col df "published"))) = Raise e →
  dashboard fs sb = Raise e.
Proof.
  intros Hload Hrows Hsrc Hmask.
  destruct (loaded_rows_columns _ _ Hload Hrows) as (Hempty & Hp & _).
  unfold dashboard. rewrite Hload.
  change (Ok ?a ≫= ?f) with (f a). cbv beta. rewrite Hempty.
  rewrite (getitem_Ok df "published") by done.
  change (Ok ?a ≫= ?f) with (f a). cbv beta.
  rewrite (getitem_Ok df "source") by done.
  change (Ok ?a ≫= ?f) with (f a). cbv beta.
  by rewrite Hmask.
Qed.

End DashboardErrors.

(** When the date widget hands back an empty tuple while the table has
    rows, the page ends with [IndexError]. *)
Theorem dashboard_empty_date_tuple `{Pandas} (fs : filesystem) (sb : Sidebar)
    (df : DataFrame) :
  load_data fs CSV_FILE = Ok df → rows df ≠ [] → "source" ∈ columns df →
  date_range sb = DateTuple [] →
  dashboard fs sb = Raise IndexError.
Proof.
  intros Hload Hrows Hsrc Hdr.
  apply (dashboard_filter_error fs sb df _ Hload Hrows Hsrc).
  destruct (loaded_rows_columns _ _ Hload Hrows) as (_ & _ & Hdate & _).
  unfold filter_mask. rewrite (getitem_Ok df "date") by done.
  change (Ok ?a ≫= ?f) with (f a). cbv beta. by rewrite Hdr.
Qed.

Lemma dashboard_empty_date_tuple_witness :
  @dashboard pandas_ref (file_with sample_rows)
     (sidebar_with_range (DateTuple []) false) = Raise IndexError.
Proof.
  apply (@dashboard_empty_date_tuple pandas_ref (file_with sample_rows) _
           (ok_or (DataFrame_of_columns [])
              (@load_data pandas_ref (file_with sample_rows) CSV_FILE))).
  - vm_compute. reflexivity.
  - vm_compute. discriminate.
  - apply (bool_decide_unpack _). vm_compute. exact I.
  - reflexivity.
Defined.

(** A table with rows but without a [source] column ends the page with
    [KeyError], whatever the sidebar. *)
Theorem dashboard_missing_source `{Pandas} (fs : filesystem) (sb : Sidebar)
    (df : DataFrame) :
  load_data fs CSV_FILE = Ok df → rows df ≠ [] → "source" ∉ columns df →
  dashboard fs sb = Raise (KeyError "source").
Proof.
  intros Hload Hrows Hsrc.
  destruct (loaded_rows_columns _ _ Hload Hrows) as (Hempty & Hp & _).
  unfold dashboard. rewrite Hload.
  change (Ok ?a ≫= ?f) with (f a). cbv beta. rewrite Hempty.
  rewrite (getitem_Ok df "published") by done.
  change (Ok ?a ≫= ?f) with (f a). cbv beta.
  by rewrite (getitem_Raise df "source").
Qed.

Lemma dashboard_missing_source_witness :
  @dashboard pandas_ref no_source_file sample_sidebar = Raise (KeyError "source").
Proof.
  apply (@dashboard_missing_source pandas_ref no_source_file sample_sidebar
           (ok_or (DataFrame_of_columns [])
              (@load_data pandas_ref no_source_file CSV_FILE))).
  - vm_compute. reflexivity.
  - vm_compute. discriminate.
  - apply (bool_decide_eq_false_1 _). vm_compute. reflexivity.
Defined.

(** A keyword that does not compile as a regular expression ends the
    page with the error of [re.compile]. *)
Theorem dashboard_keyword_error `{Pandas} (fs : filesystem) (sb : Sidebar)
    (df : DataFrame) (a : Z) (l : list Z) (e : exn) :
  load_data fs CSV_FILE = Ok df → rows df ≠ [] → "source" ∈ columns df →
  date_range sb = DateTuple (a :: l) →
  keyword_of sb ≠ "" →
  re_compile (keyword_of sb) = Raise e →
  dashboard fs sb = Raise e.
Proof.
  intros Hload Hrows Hsrc Hdr Hkw Hre.
  apply (dashboard_filter_error fs sb df _ Hload Hrows Hsrc).
  destruct (loaded_rows_columns _ _ Hload Hrows) as (_ & _ & Hdate & _ & Hhint).
  unfold filter_mask. rewrite (getitem_Ok df "date") by done.
  change (Ok ?a ≫= ?f) with (f a). cbv beta. rewrite Hdr. cbn [range_start].
  change (Ok ?a ≫= ?f) with (f a). cbv beta.
  unfold range_end. destruct (last (a :: l)) as [b|] eqn:Hlast.
  2:{ by apply last_None in Hlast. }
  change (Ok ?a ≫= ?f) with (f a). cbv beta.
  rewrite (getitem_Ok df "source") by done.
  change (Ok ?a ≫= ?f) with (f a). cbv beta.
  unfold keyword_mask. rewrite decide_False by done.
  rewrite (getitem_Ok df "keyword_hint") by done.
  change (Ok ?a ≫= ?f) with (f a). cbv beta. by rewrite Hre.
Qed.

Lemma dashboard_keyword_error_witness :
  @dashboard pandas_ref (file_with sample_rows) (sidebar_with_keyword " ( ")
  = Raise (ReError "(").
Proof.
  apply (@dashboard_keyword_error pandas_ref (file_with sample_rows)
           (sidebar_with_keyword " ( ")
           (ok_or (DataFrame_of_columns [])
              (@load_data pandas_ref (file_with sample_rows) CSV_FILE))
           0%Z [10%Z]).
  - vm_compute. reflexivity.
  - vm_compute. discriminate.
  - apply (bool_decide_unpack _). vm_compute. exact I.
  - reflexivity.
  - vm_compute. discriminate.
  - vm_compute. reflexivity.
Defined.

(** ** Alerts and feed *)

Lemma score_le_ge_disjoint v :
  score_le (-0.5) v = true → score_ge 0.5 v = false.
Proof.
  destruct v as [| |q| |]; simpl; try done.
  rewrite Qle_bool_iff, Qle_bool_false. intros Hq.
  eapply Qle_lt_trans; [exact Hq|]. reflexivity.
Qed.

Lemma count_true_cons b l :
  count_true (b :: l) = ((if b then 1 else 0) + count_true l)%nat.
Proof. unfold count_true. by destruct b. Qed.

Lemma length_filter_cons {A} (f : A → bool) x l :
  length (List.filter f (x :: l))
  = ((if f x then 1 else 0) + length (List.filter f l))%nat.
Proof. simpl. by destruct (f x). Qed.

Lemma alert_counts (rs : list (gmap string value)) :
  (count_true (score_le (-0.5) <$> ((fun r => cell r "scores") <$> rs))
   + count_true (score_ge 0.5 <$> ((fun r => cell r "scores") <$> rs))
   = length (List.filter alert_row rs))%nat.
Proof.
  induction rs as [|r rs IH]; [done|].
  rewrite !fmap_cons, !count_true_cons, length_filter_cons. unfold alert_row at 1.
  destruct (score_le (-0.5) (cell r "scores")) eqn:Hle.
  - rewrite (score_le_ge_disjoint _ Hle). simpl. lia.
  - destruct (score_ge 0.5 (cell r "scores")); simpl; lia.
Qed.

Lemma project_length cs df out :
  project cs df = Ok out → columns out = cs ∧ length (rows out) = length (rows df).
Proof.
  unfold project. destruct (List.filter _ cs); [|done].
  intros [= <-]. cbn [columns rows]. by rewrite length_fmap.
Qed.

(** The alerts table has one row per strong alert of the filtered view:
    as many rows as the two alert counters of the KPI tiles together, with
    the five columns it shows. *)
Theorem alerts_table_counts `{Pandas} (fs : filesystem) (sb : Sidebar) (p : Page) :
  dashboard fs sb = Ok (Rendered p) →
  length (rows (alerts p)) = (neg_alerts p + pos_alerts p)%nat ∧
  (neg_alerts p + pos_alerts p ≤ length (rows (fdf p)))%nat ∧
  columns (alerts p) = ["published"; "source"; "title_or_text"; "scores"; "url"].
Proof.
  intros Hd.
  pose proof (dashboard_inv _ _ _ Hd) as
    (_ & _ & _ & _ & _ & _ & _ & _ & _ & _ & Hneg & Hpos & _ & _ & Halerts & _).
  destruct Halerts as (a & Hsort & Hproj).
  apply project_length in Hproj as [Hcols Hlen].
  apply sort_values_perm in Hsort. apply Permutation_length in Hsort.
  cbn [rows] in Hsort.
  rewrite Hneg, Hpos. unfold col. rewrite alert_counts.
  split; [congruence|]. split; [apply filter_length_le|done].
Qed.

Lemma alerts_table_counts_witness :
  let p := page_of (@dashboard pandas_ref (file_with sample_rows) sample_sidebar) in
  length (rows (alerts p)) = (neg_alerts p + pos_alerts p)%nat ∧
  (neg_alerts p + pos_alerts p ≤ length (rows (fdf p)))%nat ∧
  columns (alerts p) = ["published"; "source"; "title_or_text"; "scores"; "url"].
Proof.
  apply (@alerts_table_counts pandas_ref (file_with sample_rows) sample_sidebar).
  vm_compute. reflexivity.
Defined.

Lemma value_le_Ts_desc a b : value_le false (Ts a) (Ts b) = true ↔ (b ≤ a)%Z.
Proof. unfold value_le. simpl. by rewrite Qle_bool_iff, <- Zle_Qle. Qed.

Lemma project_cell (cs : list string) (r : gmap string value) c :
  c ∈ cs →
  cell (list_to_map ((fun c => (c, cell r c)) <$> cs)) c = cell r c.
Proof.
  induction cs as [|a cs IH]; [by intros ?%not_elem_of_nil|].
  intros Hc. rewrite fmap_cons. cbn [list_to_map foldr]. unfold cell at 1.
  destruct (decide (a = c)) as [->|Hne].
  - change (uncurry ?f (?a, ?b) ?m) with (f a b m). by rewrite lookup_insert_eq.
  - change (uncurry ?f (?a, ?b) ?m) with (f a b m).
    rewrite lookup_insert_ne by done. apply IH.
    apply elem_of_cons in Hc as [->|Hc]; done.
Qed.

Lemma project_col cs df out c :
  project cs df = Ok out → c ∈ cs → col out c = col df c.
Proof.
  unfold project. destruct (List.filter _ cs); [|done].
  intros [= <-] Hc. unfold col. cbn [rows]. rewrite <- list_fmap_compose.
  apply list_fmap_ext. intros _ r _. simpl. by apply project_cell.
Qed.

Section FeedFacts.
Context `{Pandas}.

Lemma sort_values_Ts_desc c df out :
  sort_values c false df = Ok out →
  Forall (fun r => ∃ t, cell r c = Ts t) (rows df) →
  ∃ ts, col out c = Ts <$> ts ∧ StronglySorted (fun a b => (b ≤ a)%Z) ts.
Proof.
  intros Hsort Hts.
  assert (Forall (fun r => ∃ t, cell r c = Ts t) (rows out)) as Hout.
  { apply Forall_forall. intros r Hr. rewrite Forall_forall in Hts. apply Hts.
    by rewrite <- (sort_values_perm _ _ _ _ Hsort). }
  pose (ns := fun r => match cell r c with Ts t => t | _ => 0%Z end).
  exists (ns <$> rows out). split.
  - unfold col. rewrite <- list_fmap_compose. apply Forall_fmap_ext_1.
    eapply Forall_impl; [exact Hout|]. intros r [t Ht]. unfold ns. simpl. by rewrite Ht.
  - apply sort_values_inv in Hsort as (_ & _ & Hrows).
    rewrite (filter_all _ (rows df)) in Hrows.
    2:{ eapply Forall_impl; [exact Hts|]. intros r [t ->]. done. }
    rewrite (filter_none _ (rows df)), app_nil_r in Hrows.
    2:{ eapply Forall_impl; [exact Hts|]. intros r [t ->]. done. }
    eapply (StronglySorted_fmap_on _ _ ns _ _ _ Hout).
    rewrite Hrows. apply (sort_by_value_sorted (fun r => cell r c)).
  Unshelve.
  intros x y [a Ha] [b Hb]. unfold leb_rel, ns. rewrite Ha, Hb. apply value_le_Ts_desc.
Qed.

End FeedFacts.

(** The feed shows the filtered view by descending [published] time, cut
    after 30 rows: it has the six columns it shows, min(30, rows of the view)
    rows, and its timestamps are the first 30 of all timestamps of the view
    in descending order. *)
Theorem feed_latest_30 `{Pandas} (fs : filesystem) (sb : Sidebar) (p : Page) :
  dashboard fs sb = Ok (Rendered p) →
  columns (feed p) = ["published"; "source"; "title_or_text"; "scores";
                      "vader_sentiment"; "url"] ∧
  length (rows (feed p)) = (30 `min` length (rows (fdf p)))%nat ∧
  ∃ ts, col (fdf p) "published" ≡ₚ Ts <$> ts ∧
        StronglySorted (fun a b => (b ≤ a)%Z) ts ∧
        col (feed p) "published" = Ts <$> take 30 ts.
Proof.
  intros Hd.
  pose proof (dashboard_fdf_typed _ _ _ Hd) as Htyped.
  pose proof (dashboard_inv _ _ _ Hd) as
    (_ & _ & _ & _ & _ & _ & _ & _ & _ & _ & _ & _ & _ & _ & _ & Hfeed & _).
  destruct Hfeed as (f & f' & Hsort & Hproj & Hfeed).
  destruct (sort_values_Ts_desc "published" (fdf p) f Hsort) as (ts & Hts & Hsorted).
  { eapply Forall_impl; [exact Htyped|]. intros r [(t & Ht & _) _]. eauto. }
  pose proof (project_length _ _ _ Hproj) as [Hcols Hlen].
  pose proof (sort_values_perm _ _ _ _ Hsort) as Hperm.
  rewrite Hfeed. unfold head. cbn [columns rows]. split; [done|]. split.
  - rewrite length_take, Hlen, (Permutation_length Hperm). done.
  - exists ts. split; [|split; [done|]].
    + rewrite <- Hts. unfold col. by rewrite Hperm.
    + unfold col. cbn [rows]. rewrite fmap_take.
      change ((fun r => cell r "published") <$> rows f') with (col f' "published").
      rewrite (project_col _ _ _ "published" Hproj) by set_solver.
      by rewrite Hts, fmap_take.
Qed.

Lemma feed_latest_30_witness :
  let p := page_of (@dashboard pandas_ref (file_with sample_rows) sample_sidebar) in
  columns (feed p) = ["published"; "source"; "title_or_text"; "scores";
                      "vader_sentiment"; "url"] ∧
  length (rows (feed p)) = (30 `min` length (rows (fdf p)))%nat ∧
  ∃ ts, col (fdf p) "published" ≡ₚ Ts <$> ts ∧
        StronglySorted (fun a b => (b ≤ a)%Z) ts ∧
        col (feed p) "published" = Ts <$> take 30 ts.
Proof.
  apply (@feed_latest_30 pandas_ref (file_with sample_rows) sample_sidebar).
  vm_compute. reflexivity.
Defined.

(** ** The download *)

Lemma add_column_in cs c : c ∈ cs → add_column cs c = cs.
Proof. intros Hc. unfold add_column. by rewrite decide_True. Qed.

Lemma add_column_new cs c : c ∉ cs → add_column cs c = (cs ++ [c])%list.
Proof. intros Hc. unfold add_column. by rewrite decide_False. Qed.

(** The downloaded table has one record per row of the filtered view, in
    the order of the view, and each record has one cell per column of the
    file followed by the derived [date] and [keyword_hint]. *)
Theorem download_records `{Pandas} (fs : filesystem) (sb : Sidebar) (p : Page) :
  dashboard fs sb = Ok (Rendered p) →
  ∃ df0, fs CSV_FILE = Some df0 ∧
    ("date" ∉ columns df0 → "keyword_hint" ∉ columns df0 →
       columns (fdf p) = (columns df0 ++ ["date"; "keyword_hint"])%list) ∧
    download p = (fun r => (fun c => cell r c) <$> columns (fdf p)) <$> rows (fdf p) ∧
    Forall (fun record => length record = length (columns (fdf p))) (download p).
Proof.
  intros Hd.
  pose proof (dashboard_inv _ _ _ Hd) as (df & mask & Hload & Hempty & _ & Hsort & Hrest).
  destruct Hrest as (_ & _ & _ & _ & _ & _ & _ & _ & _ & _ & Hdown).
  apply sort_values_inv in Hsort as (_ & Hcols & _). cbn [loc columns] in Hcols.
  destruct (load_data_inv _ _ _ Hload)
    as [[_ ->]|(df0 & pub & Hfs & Hp & Hs & Ht & _ & _ & _)]; [done|].
  exists df0. split; [done|]. split; [|split].
  - intros Hdate Hhint.
    rewrite Hcols, (load_data_columns _ _ _ _ Hfs Hload).
    rewrite (add_column_in _ "scores") by done.
    rewrite (add_column_in _ "published") by done.
    rewrite (add_column_new _ "date") by done.
    rewrite (add_column_new _ "keyword_hint").
    + by rewrite <- app_assoc.
    + rewrite elem_of_app, list_elem_of_singleton. by intros [|].
  - done.
  - rewrite Hdown. unfold to_csv. apply Forall_fmap, Forall_forall.
    intros r _. simpl. by rewrite length_fmap.
Qed.

Lemma download_records_witness :
  let p := page_of (@dashboard pandas_ref (file_with sample_rows) sample_sidebar) in
  ∃ df0, file_with sample_rows CSV_FILE = Some df0 ∧
    ("date" ∉ columns df0 → "keyword_hint" ∉ columns df0 →
       columns (fdf p) = (columns df0 ++ ["date"; "keyword_hint"])%list) ∧
    download p = (fun r => (fun c => cell r c) <$> columns (fdf p)) <$> rows (fdf p) ∧
    Forall (fun record => length record = length (columns (fdf p))) (download p).
Proof.
  apply (@download_records pandas_ref (file_with sample_rows) sample_sidebar).
  vm_compute. reflexivity.
Defined.

(** ** The daily series of the dashboard *)

Lemma ts_min_bound (l : list value) :
  Forall (fun v => ∃ t, v = Ts t) l →
  (l = [] ∧ ts_min l = NA) ∨
  (∃ m, ts_min l = Ts m ∧ Forall (fun v => ∃ t, v = Ts t ∧ (m ≤ t)%Z) l).
Proof.
  induction 1 as [|v l [t ->] Hl IH]; [by left|]. right.
  unfold ts_min, ts_fold in *. cbn [foldr].
  destruct IH as [[-> ->]|(m & -> & Hm)].
  - exists t. split; [done|]. constructor; [|constructor]. exists t. split; [done|lia].
  - exists (Z.min t m). split; [done|]. constructor.
    + exists t. split; [done|lia].
    + eapply Forall_impl; [exact Hm|]. intros v (t' & -> & Ht'). exists t'. split; [done|lia].
Qed.

Lemma ts_max_bound (l : list value) :
  Forall (fun v => ∃ t, v = Ts t) l →
  (l = [] ∧ ts_max l = NA) ∨
  (∃ m, ts_max l = Ts m ∧ Forall (fun v => ∃ t, v = Ts t ∧ (t ≤ m)%Z) l).
Proof.
  induction 1 as [|v l [t ->] Hl IH]; [by left|]. right.
  unfold ts_max, ts_fold in *. cbn [foldr].
  destruct IH as [[-> ->]|(m & -> & Hm)].
  - exists t. split; [done|]. constructor; [|constructor]. exists t. split; [done|lia].
  - exists (Z.max t m). split; [done|]. constructor.
    + exists t. split; [done|lia].
    + eapply Forall_impl; [exact Hm|]. intros v (t' & -> & Ht'). exists t'. split; [done|lia].
Qed.

Lemma seqZ_lt_sorted (m n : Z) : StronglySorted Z.lt (seqZ m n).
Proof.
  remember (Z.to_nat n) as k eqn:Hk. revert m n Hk.
  induction k as [|k IH]; intros m n Hk.
  - rewrite seqZ_nil by lia. constructor.
  - rewrite seqZ_cons by lia. constructor; [apply IH; lia|].
    apply Forall_forall. intros x Hx%elem_of_seqZ. lia.
Qed.

Lemma filtered_keys_sorted {B} (R : relation Z) (g : Z → B) (P : Z * B → bool)
    (l : list Z) :
  StronglySorted R l →
  StronglySorted R (List.filter P ((fun d => (d, g d)) <$> l)).*1.
Proof.
  induction 1 as [|x l Hl IH Hx]; [constructor|].
  rewrite fmap_cons. cbn [List.filter]. destruct (P (x, g x)); [|done].
  rewrite fmap_cons. constructor; [done|].
  apply Forall_fmap, Forall_forall. intros [d b] [Hin _]%elem_of_filter_bool.
  apply list_elem_of_fmap in Hin as (d' & [= -> ->] & Hd').
  rewrite Forall_forall in Hx. simpl. auto.
Qed.

Lemma typed_group_mean `{Pandas} (rs : list (gmap string value)) :
  Forall typed_row rs →
  (rs = [] ∧ series_mean ((fun r => cell r "scores") <$> rs) = NA) ∨
  (rs ≠ [] ∧ ∃ q, series_mean ((fun r => cell r "scores") <$> rs) = Num q).
Proof.
  intros Hrs. destruct rs as [|r rs]; [by left|]. right. split; [done|].
  rewrite (typed_scores _ Hrs), series_mean_Num; [eauto|]. by rewrite fmap_cons.
Qed.

Lemma series_mean_cases `{Pandas} l : series_mean l = NA ∨ ∃ q, series_mean l = Num q.
Proof. unfold series_mean. destruct (nums l); eauto. Qed.

Lemma published_day_group (view : DataFrame) (d : Z) :
  Forall typed_row (rows view) →
  (List.filter (fun p : value * value => bool_decide (day_key (dt_date p.1) = Some d))
     (zip (col view "published") (col view "scores"))).*2
  = scores_published_on d view.
Proof.
  intros Htyped.
  pose proof (group_cells (fun r => cell r "published") (fun r => cell r "scores")
                dt_date (fun v : value => bool_decide (day_key v = Some d)) (rows view))
    as Hcells.
  unfold scores_published_on. unfold col.
  rewrite <- (list_fmap_id ((fun r => cell r "published") <$> rows view)).
  etrans; [exact (group_cells (fun r => cell r "published") (fun r => cell r "scores")
                    id (fun v : value => bool_decide (day_key (dt_date v) = Some d))
                    (rows view))|].
  f_equal. apply filter_ext_in. intros r Hr. rewrite Forall_forall in Htyped.
  destruct (Htyped r Hr) as [(t & -> & ->) _]. done.
Qed.

(** The daily series of the dashboard has one entry per calendar day on
    which the filtered view has a row, in ascending order of the day, with
    the mean score of the rows of that day; days without a row are left out
    (they are not filled with zeros), and every mean is a number. *)
Theorem daily_series_sparse `{Pandas} (fs : filesystem) (sb : Sidebar) (p : Page) :
  dashboard fs sb = Ok (Rendered p) →
  (∀ d v, (d, v) ∈ daily p ↔
          (∃ r, r ∈ rows (fdf p) ∧ cell r "date" = Day d) ∧
          v = series_mean (scores_published_on d (fdf p))) ∧
  StronglySorted Z.lt (daily p).*1 ∧
  Forall (fun x => ∃ q, x.2 = Num q) (daily p).
Proof.
  intros Hd.
  pose proof (dashboard_fdf_typed _ _ _ Hd) as Htyped.
  pose proof (dashboard_inv _ _ _ Hd) as
    (_ & _ & _ & _ & _ & _ & Hsc & Hso & _ & _ & _ & _ & Hdaily & _).
  set (view := fdf p) in *.
  assert ("published" ∈ columns view) as Hpub.
  { unfold resample_daily_mean in Hdaily.
    apply bind_Ok_inv in Hdaily as (x & [Hx _]%getitem_inv & _). done. }
  assert (Forall (fun v => ∃ t, v = Ts t) (col view "published")) as Hts.
  { unfold col. apply Forall_fmap. eapply Forall_impl; [exact Htyped|].
    intros r [(t & Ht & _) _]. simpl. eauto. }
  assert (∀ d, (∃ r, r ∈ rows view ∧ cell r "date" = Day d) ↔
               ∃ q, series_mean (scores_published_on d view) = Num q) as Hgroup.
  { intros d. unfold scores_published_on.
    set (rs := List.filter _ (rows view)).
    assert (Forall typed_row rs) as Hrs.
    { apply Forall_forall. intros r [Hr _]%elem_of_filter_bool.
      rewrite Forall_forall in Htyped. auto. }
    destruct (typed_group_mean rs Hrs) as [[Hnil Hna]|[Hne Hq]].
    - rewrite Hna. split; [|by intros [q Hq]].
      intros (r & Hr & Hday). exfalso.
      assert (r ∈ rs) as Hin.
      { apply elem_of_filter_bool. split; [done|]. by rewrite Hday, bool_decide_eq_true_2. }
      rewrite Hnil in Hin. by apply not_elem_of_nil in Hin.
    - split; [done|]. intros _. destruct rs as [|r rs'] eqn:Ers; [done|].
      assert (r ∈ List.filter (fun r => bool_decide (day_key (cell r "date") = Some d))
                              (rows view)) as Hin by (fold rs; rewrite Ers; left).
      apply elem_of_filter_bool in Hin as [Hin Hday]. exists r. split; [done|].
      apply bool_decide_eq_true_1 in Hday.
      destruct (cell r "date"); try done. by injection Hday as ->. }
  unfold resample_daily_mean in Hdaily.
  rewrite !getitem_Ok in Hdaily by done.
  change (Ok ?a ≫= ?f) with (f a) in Hdaily. cbv beta in Hdaily.
  change (Ok ?a ≫= ?f) with (f a) in Hdaily. cbv beta in Hdaily.
  destruct (ts_min_bound _ Hts) as [[Hnil Hmin]|(a & Hmin & Ha)].
  - rewrite Hmin in Hdaily. cbn [dt_date] in Hdaily. injection Hdaily as <-.
    split; [|split; constructor].
    intros d v. split; [by intros ?%not_elem_of_nil|].
    intros [(r & Hr & _) _]. exfalso. unfold col in Hnil.
    apply fmap_nil_inv in Hnil. rewrite Hnil in Hr. by apply not_elem_of_nil in Hr.
  - destruct (ts_max_bound _ Hts) as [[Hnil Hmax]|(b & Hmax & Hb)].
    { rewrite Hnil in Ha. unfold ts_min, ts_fold in Hmin. rewrite Hnil in Hmin. done. }
    rewrite Hmin, Hmax in Hdaily. cbn [dt_date] in Hdaily. injection Hdaily as <-.
    split; [|split].
    + intros d v. rewrite elem_of_filter_bool, list_elem_of_fmap. split.
      * intros [(d' & [= -> ->] & Hd') Hnotna]. simpl in Hnotna.
        rewrite (published_day_group view d' Htyped) in Hnotna |- *.
        split; [|done]. apply Hgroup.
        destruct (series_mean_cases (scores_published_on d' view)) as [E|E]; [|done].
        by rewrite E in Hnotna.
      * intros [Hr ->]. pose proof Hr as (q & Hq)%Hgroup.
        destruct Hr as (r & Hr & Hday). split.
        -- exists d. split; [by rewrite (published_day_group view d Htyped)|].
           apply elem_of_seqZ.
           rewrite Forall_forall in Htyped. rewrite Forall_forall in Ha.
           rewrite Forall_forall in Hb.
           destruct (Htyped r Hr) as [(t & Ht & Hdt) _].
           rewrite Hdt in Hday. injection Hday as <-.
           assert (Ts t ∈ col view "published") as Hin.
           { unfold col. apply list_elem_of_fmap. exists r. by rewrite Ht. }
           destruct (Ha _ Hin) as (t1 & [= <-] & Hat).
           destruct (Hb _ Hin) as (t2 & [= <-] & Htb).
           pose proof (Z.div_le_mono a t ns_per_day ltac:(done) Hat).
           pose proof (Z.div_le_mono t b ns_per_day ltac:(done) Htb). lia.
        -- simpl. by rewrite Hq.
    + apply filtered_keys_sorted, seqZ_lt_sorted.
    + apply Forall_forall. intros [d v] [(d' & [= -> ->] & _)%list_elem_of_fmap Hn]%elem_of_filter_bool.
      simpl in Hn |- *.
      match goal with |- ∃ q, series_mean ?l = Num q =>
        destruct (series_mean_cases l) as [E|E]; [by rewrite E in Hn|done] end.
Qed.

Lemma daily_series_sparse_witness :
  let p := page_of (@dashboard pandas_ref (file_with sample_rows) sample_sidebar) in
  (∀ d v, (d, v) ∈ daily p ↔
          (∃ r, r ∈ rows (fdf p) ∧ cell r "date" = Day d) ∧
          v = series_mean (scores_published_on d (fdf p))) ∧
  StronglySorted Z.lt (daily p).*1 ∧
  Forall (fun x => ∃ q, x.2 = Num q) (daily p).
Proof.
  apply (@daily_series_sparse pandas_ref (file_with sample_rows) sample_sidebar).
  vm_compute. reflexivity.
Defined.

(** On the sample table the days 1 and 3 have a row, day 2 has none and
    is left out. *)
Example daily_series_sample :
  (daily (page_of (@dashboard pandas_ref (file_with sample_rows) sample_sidebar))).*1
  = [1; 3]%Z.
Proof. by vm_compute. Qed.

(** The date range the sidebar starts with, from the first to the last
    day of a [published] timestamp, leaves out no loaded row. *)
Theorem default_range_covers_rows `{Pandas} (fs : filesystem) (df : DataFrame) :
  load_data fs CSV_FILE = Ok df → rows df ≠ [] →
  ∃ a b, dt_date (ts_min (col df "published")) = Day a ∧
         dt_date (ts_max (col df "published")) = Day b ∧
         Forall (fun r => date_ge (Day a) (cell r "date") = true ∧
                          date_le (Day b) (cell r "date") = true) (rows df).
Proof.
  intros Hload Hrows. pose proof (load_data_typed _ _ _ Hload) as Htyped.
  assert (Forall (fun v => ∃ t, v = Ts t) (col df "published")) as Hts.
  { unfold col. apply Forall_fmap. eapply Forall_impl; [exact Htyped|].
    intros r [(t & Ht & _) _]. simpl. eauto. }
  destruct (ts_min_bound _ Hts) as [[Hnil _]|(a & Hmin & Ha)].
  { unfold col in Hnil. by apply fmap_nil_inv in Hnil. }
  destruct (ts_max_bound _ Hts) as [[Hnil _]|(b & Hmax & Hb)].
  { unfold col in Hnil. by apply fmap_nil_inv in Hnil. }
  exists (a / ns_per_day)%Z, (b / ns_per_day)%Z. rewrite Hmin, Hmax.
  split; [done|]. split; [done|].
  apply Forall_forall. intros r Hr.
  rewrite Forall_forall in Htyped. rewrite Forall_forall in Ha.
  rewrite Forall_forall in Hb.
  destruct (Htyped r Hr) as [(t & Ht & ->) _].
  assert (Ts t ∈ col df "published") as Hin.
  { unfold col. apply list_elem_of_fmap. exists r. by rewrite Ht. }
  destruct (Ha _ Hin) as (t1 & [= <-] & Hat).
  destruct (Hb _ Hin) as (t2 & [= <-] & Htb).
  simpl. split; apply Z.leb_le; by apply Z.div_le_mono.
Qed.

Lemma default_range_covers_rows_witness :
  let df := ok_or (DataFrame_of_columns [])
              (@load_data pandas_ref (file_with sample_rows) CSV_FILE) in
  ∃ a b, dt_date (ts_min (col df "published")) = Day a ∧
         dt_date (ts_max (col df "published")) = Day b ∧
         Forall (fun r => date_ge (Day a) (cell r "date") = true ∧
                          date_le (Day b) (cell r "date") = true) (rows df).
Proof.
  apply (@default_range_covers_rows pandas_ref (file_with sample_rows)).
  - vm_compute. reflexivity.
  - vm_compute. discriminate.
Defined.

(** ** The forecast script: rows, errors and the series it fits *)

Lemma cell_with_coerced_saved x : cell (with_coerced x) "saved_at" = x.1.2.
Proof. unfold cell, with_coerced. by simplify_map_eq. Qed.

Lemma cell_with_coerced_scores x : cell (with_coerced x) "scores" = x.2.
Proof. unfold cell, with_coerced. by simplify_map_eq. Qed.

Lemma assignments_with_coerced (rs : list (gmap string value)) (sa sc : list value) :
  length sa = length rs → length sc = length rs →
  zip_with (fun r v => <["scores" := v]> r)
    (zip_with (fun r v => <["saved_at" := v]> r) rs sa) sc
  = with_coerced <$> zip (zip rs sa) sc.
Proof.
  revert sa sc. induction rs as [|r rs IH]; intros [|a sa] [|c sc] Ha Hc;
    simpl in *; try done.
  rewrite IH by lia. done.
Qed.

Section ForecastRowsFacts.
Context `{Pandas}.

Lemma valid_rows_present fs df sa :
  fs CSV_FILE = Some df → "saved_at" ∈ columns df → "scores" ∈ columns df →
  to_datetime (col df "saved_at") = Ok sa →
  valid_rows fs =
    Ok {| columns := columns df;
          rows := with_coerced <$> List.filter usable_saved (coerced_saved df sa) |}.
Proof.
  intros Hfs Hsa Hsc Hparse. unfold valid_rows. rewrite Hfs.
  rewrite (getitem_Ok df "saved_at") by done.
  change (Ok ?a ≫= ?f) with (f a). cbv beta.
  rewrite Hparse. change (Ok ?a ≫= ?f) with (f a). cbv beta.
  assert (length sa = length (rows df)) as Hlsa
    by (rewrite (to_datetime_length _ _ Hparse); apply length_col).
  set (df1 := setitem df "saved_at" sa).
  assert (col df1 "scores" = col df "scores") as Hsc1 by (by apply col_setitem_ne).
  rewrite (getitem_Ok df1 "scores") by (apply columns_setitem; by right).
  rewrite Hsc1. change (Ok ?a ≫= ?f) with (f a). cbv beta.
  set (sc := to_numeric (col df "scores")).
  assert (length sc = length (rows df)) as Hlsc
    by (unfold sc; by rewrite to_numeric_length, length_col).
  rewrite dropna_Ok.
  2:{ intros c Hc. apply columns_setitem. apply list_elem_of_In in Hc.
      destruct Hc as [<-|[<-|[]]]; [right; apply columns_setitem; by left|by left]. }
  f_equal. f_equal.
  - unfold df1, setitem. cbn [columns].
    by rewrite (add_column_in _ "saved_at"), (add_column_in _ "scores").
  - unfold df1, setitem. cbn [rows].
    rewrite (assignments_with_coerced (rows df) sa sc Hlsa Hlsc).
    rewrite filter_fmap. f_equal. apply filter_ext_in. intros x _.
    cbn [forallb]. rewrite cell_with_coerced_saved, cell_with_coerced_scores.
    unfold usable_saved. by rewrite andb_true_r.
Qed.

Lemma valid_rows_inv fs df :
  valid_rows fs = Ok df →
  ∃ df0 sa, fs CSV_FILE = Some df0 ∧ "saved_at" ∈ columns df0 ∧ "scores" ∈ columns df0 ∧
         to_datetime (col df0 "saved_at") = Ok sa ∧
         rows df = with_coerced <$> List.filter usable_saved (coerced_saved df0 sa).
Proof.
  intros Hv. pose proof Hv as Hv'. unfold valid_rows in Hv'.
  destruct (fs CSV_FILE) as [df0|] eqn:Hfs; [|done].
  apply bind_Ok_inv in Hv' as (sa0 & [Hsa ->]%getitem_inv & Hv').
  apply bind_Ok_inv in Hv' as (sa & Hparse & Hv').
  apply bind_Ok_inv in Hv' as (sc & [Hsc _]%getitem_inv & _).
  apply columns_setitem in Hsc as [Hsc|Hsc]; [done|].
  exists df0, sa. repeat split; try done.
  rewrite (valid_rows_present _ _ _ Hfs Hsa Hsc Hparse) in Hv. by injection Hv as <-.
Qed.

Lemma valid_rows_typed fs df :
  valid_rows fs = Ok df →
  Forall (fun r => (∃ t, cell r "saved_at" = Ts t) ∧ ∃ q, cell r "scores" = Num q)
         (rows df).
Proof.
  intros (df0 & sa & _ & _ & _ & Hparse & ->)%valid_rows_inv.
  apply Forall_fmap, Forall_forall.
  intros [[r a] c] [Hx Hux]%elem_of_filter_bool. simpl.
  rewrite cell_with_coerced_saved, cell_with_coerced_scores. simpl.
  unfold usable_saved in Hux. apply andb_true_iff in Hux as [Ha Hc]. simpl in Ha, Hc.
  unfold coerced_saved in Hx.
  pose proof (elem_of_zip_r _ _ _ _ Hx) as Hsc.
  pose proof (elem_of_zip_l _ _ _ _ Hx) as Hx1.
  pose proof (elem_of_zip_r _ _ _ _ Hx1) as Hsa.
  pose proof (to_datetime_ts _ _ Hparse) as Hts.
  pose proof (to_numeric_num (col df0 "scores")) as Hnum.
  rewrite Forall_forall in Hts. rewrite Forall_forall in Hnum.
  destruct (Hts _ Hsa) as [E|[t E]]; [by rewrite E in Ha|].
  destruct (Hnum _ Hsc) as [E'|[q E']]; [by rewrite E' in Hc|].
  rewrite E, E'. eauto.
Qed.

(** Without one of its two columns the script raises. *)
Lemma valid_rows_missing fs df :
  fs CSV_FILE = Some df → ¬ ("saved_at" ∈ columns df ∧ "scores" ∈ columns df) →
  ∃ e, valid_rows fs = Raise e.
Proof.
  intros Hfs Hmiss. destruct (valid_rows fs) as [out|e] eqn:Hv; [|by eexists].
  exfalso. apply Hmiss.
  apply valid_rows_inv in Hv as (df0 & sa & Hfs' & Hsa & Hsc & _).
  rewrite Hfs in Hfs'. by injection Hfs' as <-.
Qed.

End ForecastRowsFacts.

(** When the timestamp parser returns on the [saved_at] column, the
    forecast script keeps exactly the rows of the file whose [saved_at]
    cell parsed as a timestamp and whose [scores] cell parsed as a number,
    in the order of the file and with the columns of the file; [published]
    is not looked at. *)
Theorem forecast_rows_kept `{Pandas} (fs : filesystem) (df0 : DataFrame)
    (sa : list value) :
  fs CSV_FILE = Some df0 → "saved_at" ∈ columns df0 → "scores" ∈ columns df0 →
  to_datetime (col df0 "saved_at") = Ok sa →
  ∃ df, valid_rows fs = Ok df ∧
    columns df = columns df0 ∧
    (coerced_saved df0 sa).*1.*1 = rows df0 ∧
    rows df = with_coerced <$> List.filter usable_saved (coerced_saved df0 sa) ∧
    Forall (fun r => isna (cell r "saved_at") = false ∧
                     isna (cell r "scores") = false) (rows df).
Proof.
  intros Hfs Hsa Hsc Hparse.
  assert (length sa = length (rows df0)) as Hlsa
    by (rewrite (to_datetime_length _ _ Hparse); apply length_col).
  eexists. split; [by apply valid_rows_present|].
  cbn [columns rows]. split; [done|]. split; [|split; [done|]].
  - unfold coerced_saved. rewrite fst_zip.
    + rewrite fst_zip; [done|]. lia.
    + rewrite length_zip, to_numeric_length, !length_col. lia.
  - apply Forall_fmap, Forall_forall. intros x [_ Hx]%elem_of_filter_bool. simpl.
    rewrite cell_with_coerced_saved, cell_with_coerced_scores.
    unfold usable_saved, notna in Hx. apply andb_true_iff in Hx as [Hx1 Hx2].
    by rewrite !negb_true_iff in *.
Qed.

Lemma forecast_rows_kept_witness :
  ∃ df, @valid_rows pandas_ref (file_with sample_rows) = Ok df ∧
    columns df = raw_columns ∧
    (@coerced_saved pandas_ref {| columns := raw_columns; rows := sample_rows |}
       (to_datetime_cell <$> col {| columns := raw_columns; rows := sample_rows |}
                                 "saved_at")).*1.*1
      = sample_rows ∧
    rows df = with_coerced <$> List.filter usable_saved
                (@coerced_saved pandas_ref {| columns := raw_columns; rows := sample_rows |}
                   (to_datetime_cell <$> col {| columns := raw_columns; rows := sample_rows |}
                                             "saved_at")) ∧
    Forall (fun r => isna (cell r "saved_at") = false ∧
                     isna (cell r "scores") = false) (rows df).
Proof.
  apply (@forecast_rows_kept pandas_ref (file_with sample_rows)
           {| columns := raw_columns; rows := sample_rows |}
           (to_datetime_cell <$> col {| columns := raw_columns; rows := sample_rows |}
                                     "saved_at")).
  - reflexivity.
  - apply (bool_decide_unpack _). vm_compute. exact I.
  - apply (bool_decide_unpack _). vm_compute. exact I.
  - reflexivity.
Defined.

(** On the sample table the row without a numeric score is dropped and
    the row whose [published] cell is no timestamp is kept. *)
Example forecast_rows_sample :
  length (rows (ok_or (DataFrame_of_columns [])
                  (@valid_rows pandas_ref (file_with sample_rows)))) = 3%nat.
Proof. by vm_compute. Qed.

(** Unlike the dashboard, the forecast script does not tolerate a missing
    file, and a file that lacks the [saved_at] or the [scores] column makes
    it raise: always an exception, never a figure.  It is [KeyError] for
    [saved_at] at the conversion of that column, and [KeyError] for
    [scores] when the timestamp parser returned on the [saved_at] column
    before. *)
Theorem forecast_script_errors `{Pandas} `{Prophet} (fs : filesystem) :
  (fs CSV_FILE = None → plot_sentiment fs = Raise (FileNotFoundError CSV_FILE)) ∧
  (∀ df, fs CSV_FILE = Some df → "saved_at" ∉ columns df →
         plot_sentiment fs = Raise (KeyError "saved_at")) ∧
  (∀ df sa, fs CSV_FILE = Some df → "saved_at" ∈ columns df → "scores" ∉ columns df →
         to_datetime (col df "saved_at") = Ok sa →
         plot_sentiment fs = Raise (KeyError "scores")) ∧
  (∀ df, fs CSV_FILE = Some df →
         ¬ ("saved_at" ∈ columns df ∧ "scores" ∈ columns df) →
         ∃ e, plot_sentiment fs = Raise e).
Proof.
  split; [|split; [|split]].
  - unfold plot_sentiment, valid_rows. by intros ->.
  - unfold plot_sentiment, valid_rows. intros df -> Hsa. by rewrite getitem_Raise.
  - unfold plot_sentiment, valid_rows.
    intros df sa -> Hsa Hsc Hparse. rewrite (getitem_Ok df "saved_at") by done.
    change (Ok ?a ≫= ?f) with (f a). cbv beta.
    rewrite Hparse. change (Ok ?a ≫= ?f) with (f a). cbv beta.
    rewrite getitem_Raise; [done|]. rewrite columns_setitem. by intros [|].
  - intros df Hfs Hmiss. destruct (valid_rows_missing fs df Hfs Hmiss) as [e He].
    exists e. unfold plot_sentiment. by rewrite He.
Qed.

Lemma forecast_script_errors_witness :
  @plot_sentiment pandas_ref prophet_min no_file = Raise (FileNotFoundError CSV_FILE) ∧
  @plot_sentiment pandas_ref prophet_min no_saved_at_file = Raise (KeyError "saved_at") ∧
  @plot_sentiment pandas_ref prophet_min
     (fun _ => Some {| columns := ["saved_at"]; rows := [] |}) = Raise (KeyError "scores") ∧
  ∃ e, @plot_sentiment pandas_ref prophet_min no_saved_at_file = Raise e.
Proof.
  split; [|split; [|split]].
  - apply (proj1 (@forecast_script_errors pandas_ref prophet_min no_file)). reflexivity.
  - apply (proj1 (proj2 (@forecast_script_errors pandas_ref prophet_min no_saved_at_file))
             {| columns := ["title_or_text"; "published"; "scores"]; rows := sample_rows |}
             eq_refl).
    apply (bool_decide_eq_false_1 _). vm_compute. reflexivity.
  - apply (proj1 (proj2 (proj2 (@forecast_script_errors pandas_ref prophet_min
                           (fun _ => Some {| columns := ["saved_at"]; rows := [] |}))))
             {| columns := ["saved_at"]; rows := [] |} [] eq_refl).
    + apply (bool_decide_unpack _). vm_compute. exact I.
    + apply (bool_decide_eq_false_1 _). vm_compute. reflexivity.
    + reflexivity.
  - apply (proj2 (proj2 (proj2 (@forecast_script_errors pandas_ref prophet_min
                                  no_saved_at_file)))
             {| columns := ["title_or_text"; "published"; "scores"]; rows := sample_rows |}
             eq_refl).
    intros [Hsa _]. revert Hsa. apply (bool_decide_eq_false_1 _). vm_compute. reflexivity.
Defined.

Lemma num_scores (rs : list (gmap string value)) :
  Forall (fun r => ∃ q, cell r "scores" = Num q) rs →
  (fun r => cell r "scores") <$> rs
  = Num <$> ((fun r => number_of (cell r "scores")) <$> rs).
Proof.
  intros Hrs. rewrite <- list_fmap_compose. apply Forall_fmap_ext_1.
  eapply Forall_impl; [exact Hrs|]. intros r [q Hq]. simpl. by rewrite Hq.
Qed.

(** The frame handed to the fitting procedure has the columns [ds] and
    [y]; every row holds a calendar day and a number (never a missing
    value), and it has no row exactly when no row of the file is valid. *)
Theorem daily_frame_numeric `{Pandas} (fs : filesystem) (df daily : DataFrame) :
  valid_rows fs = Ok df → daily_of df = Ok daily →
  columns daily = ["ds"; "y"] ∧
  Forall (fun r => ∃ d q, cell r "ds" = Day d ∧ cell r "y" = Num q) (rows daily) ∧
  (rows daily = [] ↔ rows df = []).
Proof.
  intros Hv Hd. pose proof (valid_rows_typed _ _ Hv) as Htyped.
  destruct (valid_rows_columns _ _ Hv) as [Hsa Hsc].
  rewrite (daily_of_rows df Hsa Hsc) in Hd. injection Hd as <-.
  cbn [columns rows]. split; [done|]. split.
  - apply Forall_fmap, Forall_forall. intros d Hd. simpl.
    apply elem_of_distinct_days in Hd as (r & Hr & Hday).
    unfold scores_saved_on. set (rs := List.filter _ (rows df)).
    assert (r ∈ rs) as Hin.
    { apply elem_of_filter_bool. split; [done|].
      unfold saved_on. by rewrite Hday, bool_decide_eq_true_2. }
    assert (Forall (fun r => ∃ q, cell r "scores" = Num q) rs) as Hnum.
    { apply Forall_forall. intros r' [Hr' _]%elem_of_filter_bool.
      rewrite Forall_forall in Htyped. by destruct (Htyped r' Hr'). }
    rewrite (num_scores rs Hnum), series_mean_Num.
    + exists d. eexists. unfold cell. by simplify_map_eq.
    + destruct rs; [by apply not_elem_of_nil in Hin|done].
  - split.
    + intros Hnil%fmap_nil_inv. destruct (rows df) as [|r rs] eqn:Hrows; [done|].
      exfalso. rewrite Forall_forall in Htyped.
      destruct (Htyped r ltac:(left)) as [[t Ht] _].
      assert ((t / ns_per_day)%Z ∈ distinct_days (col df "saved_at")) as Hin.
      { apply elem_of_distinct_days. exists r. rewrite Hrows, Ht. split; [left|done]. }
      rewrite Hnil in Hin. by apply not_elem_of_nil in Hin.
    + intros Hnil. unfold distinct_days, col. by rewrite Hnil.
Qed.

Lemma daily_frame_numeric_witness :
  let df := ok_or (DataFrame_of_columns []) (@valid_rows pandas_ref (file_with sample_rows)) in
  let daily := ok_or (DataFrame_of_columns []) (daily_of df) in
  columns daily = ["ds"; "y"] ∧
  Forall (fun r => ∃ d q, cell r "ds" = Day d ∧ cell r "y" = Num q) (rows daily) ∧
  (rows daily = [] ↔ rows df = []).
Proof.
  apply (@daily_frame_numeric pandas_ref (file_with sample_rows)).
  - vm_compute. reflexivity.
  - vm_compute. reflexivity.
Defined.

(** ** The diagnostic script *)

Lemma elem_of_first_seen l x : x ∈ first_seen l ↔ x ∈ l.
Proof.
  induction l as [|y l IH]; simpl; [done|].
  rewrite !elem_of_cons, elem_of_filter_bool, IH, negb_true_iff, Z.eqb_neq.
  destruct (decide (x = y)); tauto.
Qed.

Lemma NoDup_first_seen l : NoDup (first_seen l).
Proof.
  induction l as [|y l IH]; simpl; [constructor|]. constructor.
  - rewrite elem_of_filter_bool, negb_true_iff, Z.eqb_neq. tauto.
  - apply NoDup_ListNoDup, List.NoDup_filter, NoDup_ListNoDup, IH.
Qed.

Lemma day_count_pos (days : list value) d :
  Day d ∈ days ↔
  (0 < length (List.filter (fun v => bool_decide (day_key v = Some d)) days))%nat.
Proof.
  split.
  - intros Hin.
    assert (Day d ∈ List.filter (fun v => bool_decide (day_key v = Some d)) days) as Hf.
    { apply elem_of_filter_bool. split; [done|]. by apply bool_decide_eq_true_2. }
    destruct (List.filter _ days); [by apply not_elem_of_nil in Hf|simpl; lia].
  - intros Hpos. destruct (List.filter _ days) as [|v l] eqn:E; [simpl in Hpos; lia|].
    assert (v ∈ List.filter (fun v => bool_decide (day_key v = Some d)) days) as Hf
      by (rewrite E; left).
    apply elem_of_filter_bool in Hf as [Hin Hv]. apply bool_decide_eq_true_1 in Hv.
    destruct v; try done. by injection Hv as <-.
Qed.

Lemma StronglySorted_weaken {A} (R S : relation A) (l : list A) :
  (∀ x y, R x y → S x y) → StronglySorted R l → StronglySorted S l.
Proof.
  intros HRS. induction 1 as [|x l Hl IH Hx]; constructor; [done|].
  eapply Forall_impl; [exact Hx|]. intros y. apply HRS.
Qed.

Section CheckColumnsFacts.
Context `{Pandas}.

Lemma check_columns_inv fs n vc :
  check_columns fs = Ok (n, vc) →
  ∃ df0 sa, fs CSV_FILE = Some df0 ∧ "saved_at" ∈ columns df0 ∧
         to_datetime (col df0 "saved_at") = Ok sa ∧
         n = nunique (dt_date <$> sa) ∧
         vc = value_counts (dt_date <$> sa).
Proof.
  unfold check_columns. destruct (fs CSV_FILE) as [df0|]; [|done]. intros Hc.
  apply bind_Ok_inv in Hc as (sa0 & [Hsa ->]%getitem_inv & Hc).
  apply bind_Ok_inv in Hc as (sa & Hparse & Hc).
  apply bind_Ok_inv in Hc as (sa' & [_ ->]%getitem_inv & Hc).
  rewrite col_setitem_eq in Hc
    by (rewrite (to_datetime_length _ _ Hparse); apply length_col).
  injection Hc as <- <-. by exists df0, sa.
Qed.

End CheckColumnsFacts.

(** The diagnostic script prints as "Unique dates" the number of entries
    of its table of counts; the table has each calendar day of a parsed
    [saved_at] once, with the number of rows saved on that day (at least 1),
    the most frequent day first.  The days are those of the column [sa]
    that the timestamp parser returned. *)
Theorem check_columns_counts `{Pandas} (fs : filesystem) (n : nat)
    (vc : list (Z * nat)) :
  check_columns fs = Ok (n, vc) →
  n = length vc ∧
  NoDup vc.*1 ∧
  StronglySorted (fun a b => (b.2 ≤ a.2)%nat) vc ∧
  ∃ df0 sa, fs CSV_FILE = Some df0 ∧ to_datetime (col df0 "saved_at") = Ok sa ∧
    ∀ d k, (d, k) ∈ vc ↔
           (0 < k)%nat ∧
           k = length (List.filter (fun v => bool_decide (day_key v = Some d))
                         (dt_date <$> sa)).
Proof.
  intros (df0 & sa & Hfs & _ & Hparse & -> & ->)%check_columns_inv.
  set (days := dt_date <$> sa).
  unfold value_counts, nunique.
  set (entries := (fun d => (d, length (List.filter
                     (fun v => bool_decide (day_key v = Some d)) days)))
                    <$> first_seen (omap day_key days)).
  pose proof (sort_by_perm _ (fun a b : Z * nat => (b.2 <=? a.2)%nat) entries) as Hperm.
  split; [|split; [|split]].
  - rewrite (Permutation_length Hperm). unfold entries. by rewrite length_fmap.
  - rewrite Hperm. unfold entries. rewrite <- list_fmap_compose.
    rewrite (list_fmap_ext _ id (first_seen (omap day_key days))) by done.
    rewrite list_fmap_id. apply NoDup_first_seen.
  - apply (StronglySorted_weaken (leb_rel (fun a b : Z * nat => (b.2 <=? a.2)%nat))).
    { intros a b. unfold leb_rel. by rewrite Nat.leb_le. }
    apply (sort_by_sorted _ (fun a b : Z * nat => (b.2 <=? a.2)%nat)).
    + intros a b. rewrite !Nat.leb_le. lia.
    + intros a b c. rewrite !Nat.leb_le. lia.
  - exists df0, sa. split; [done|]. split; [done|].
    intros d k. rewrite Hperm. unfold entries.
    rewrite list_elem_of_fmap. split.
    + intros (d' & [= -> ->] & Hd'). split; [|done].
      apply day_count_pos. by rewrite elem_of_first_seen, elem_of_omap_day in Hd'.
    + intros [Hpos ->]. exists d. split; [done|].
      rewrite elem_of_first_seen, elem_of_omap_day. by apply day_count_pos.
Qed.

Lemma check_columns_counts_witness :
  let out := ok_or (0%nat, []) (@check_columns pandas_ref (file_with sample_rows)) in
  out.1 = length out.2 ∧
  NoDup out.2.*1 ∧
  StronglySorted (fun a b => (b.2 ≤ a.2)%nat) out.2 ∧
  ∃ df0 sa, file_with sample_rows CSV_FILE = Some df0 ∧
    @to_datetime pandas_ref (col df0 "saved_at") = Ok sa ∧
    ∀ d k, (d, k) ∈ out.2 ↔
           (0 < k)%nat ∧
           k = length (List.filter (fun v => bool_decide (day_key v = Some d))
                         (dt_date <$> sa)).
Proof.
  apply (@check_columns_counts pandas_ref (file_with sample_rows)).
  vm_compute. reflexivity.
Defined.

(** On the sample table two days are counted, with two rows each. *)
Example check_columns_sample :
  (fun out => (out.1, out.2.*2))
    (ok_or (0%nat, []) (@check_columns pandas_ref (file_with sample_rows)))
  = (2%nat, [2%nat; 2%nat]).
Proof. by vm_compute. Qed.

Lemma lt_sorted_NoDup (l : list Z) : StronglySorted Z.lt l → NoDup l.
Proof.
  induction 1 as [|x l Hl IH Hx]; constructor; [|done].
  intros Hin. rewrite Forall_forall in Hx. specialize (Hx x Hin). lia.
Qed.

(** The frame the forecast script fits has at most as many rows as the
    diagnostic script counts unique dates: the diagnostic counts every
    parsed [saved_at] day, the forecast script only the days of rows that
    also have a numeric score. *)
Theorem daily_rows_at_most_unique_dates `{Pandas} (fs : filesystem)
    (df daily : DataFrame) (n : nat) (vc : list (Z * nat)) :
  valid_rows fs = Ok df → daily_of df = Ok daily →
  check_columns fs = Ok (n, vc) →
  (length (rows daily) ≤ n)%nat.
Proof.
  intros Hv Hd Hc.
  destruct (valid_rows_columns _ _ Hv) as [Hsa Hsc].
  rewrite (daily_of_rows df Hsa Hsc) in Hd. injection Hd as <-.
  cbn [rows]. rewrite length_fmap.
  apply valid_rows_inv in Hv as (df0 & sa & Hfs & _ & _ & Hparse & Hrows).
  apply check_columns_inv in Hc as (df0' & sa' & Hfs' & _ & Hparse' & -> & _).
  rewrite Hfs in Hfs'. injection Hfs' as <-.
  rewrite Hparse in Hparse'. injection Hparse' as <-.
  unfold nunique. apply submseteq_length, NoDup_submseteq.
  { apply lt_sorted_NoDup, distinct_days_sorted. }
  intros d (r & Hr & Hday)%elem_of_distinct_days.
  rewrite elem_of_first_seen, elem_of_omap_day.
  rewrite Hrows in Hr. apply list_elem_of_fmap in Hr as ([[r0 a] c] & -> & Hx).
  apply elem_of_filter_bool in Hx as [Hx _].
  rewrite cell_with_coerced_saved in Hday. simpl in Hday.
  unfold coerced_saved in Hx.
  pose proof (elem_of_zip_l _ _ _ _ Hx) as Hx1.
  pose proof (elem_of_zip_r _ _ _ _ Hx1) as Ha.
  rewrite <- Hday. apply list_elem_of_fmap. by exists a.
Qed.

Lemma daily_rows_at_most_unique_dates_witness :
  let df := ok_or (DataFrame_of_columns []) (@valid_rows pandas_ref (file_with sample_rows)) in
  let daily := ok_or (DataFrame_of_columns []) (daily_of df) in
  let out := ok_or (0%nat, []) (@check_columns pandas_ref (file_with sample_rows)) in
  (length (rows daily) ≤ out.1)%nat.
Proof.
  apply (@daily_rows_at_most_unique_dates pandas_ref (file_with sample_rows)
           (ok_or (DataFrame_of_columns [])
              (@valid_rows pandas_ref (file_with sample_rows)))
           (ok_or (DataFrame_of_columns [])
              (daily_of (ok_or (DataFrame_of_columns [])
                           (@valid_rows pandas_ref (file_with sample_rows)))))
           (ok_or (0%nat, []) (@check_columns pandas_ref (file_with sample_rows))).1
           (ok_or (0%nat, []) (@check_columns pandas_ref (file_with sample_rows))).2).
  - vm_compute. reflexivity.
  - vm_compute. reflexivity.
  - vm_compute. reflexivity.
Defined.

(** ** The sources of the ranking *)

From Stdlib Require OrderedTypeEx.

Lemma String_ltb_lt (a b : string) :
  String.ltb a b = true ↔ OrderedTypeEx.String_as_OT.lt a b.
Proof.
  rewrite <- OrderedTypeEx.String_as_OT.cmp_lt.
  unfold String.ltb, OrderedTypeEx.String_as_OT.cmp.
  destruct (String.compare a b); split; done.
Qed.

Lemma insert_unique_string_sorted k l :
  StronglySorted (leb_rel String.ltb) l →
  StronglySorted (leb_rel String.ltb) (insert_unique String.ltb k l).
Proof.
  induction 1 as [|y l Hl IH Hy]; simpl; [repeat constructor|].
  destruct (String.ltb k y) eqn:Hky.
  - constructor; [by constructor|]. constructor; [done|].
    eapply Forall_impl; [exact Hy|]. intros z Hz. unfold leb_rel in *.
    apply String_ltb_lt. apply String_ltb_lt in Hky, Hz.
    eapply OrderedTypeEx.String_as_OT.lt_trans; eassumption.
  - destruct (String.ltb y k) eqn:Hyk.
    + constructor; [done|].
      apply Forall_forall. intros z [->|Hz]%(elem_of_insert_unique _ String_ltb_eq); [done|].
      rewrite Forall_forall in Hy. auto.
    + by constructor.
Qed.

Lemma string_sorted_NoDup (l : list string) :
  StronglySorted (leb_rel String.ltb) l → NoDup l.
Proof.
  induction 1 as [|x l Hl IH Hx]; constructor; [|done].
  intros Hin. rewrite Forall_forall in Hx. specialize (Hx x Hin).
  apply String_ltb_lt in Hx.
  by apply OrderedTypeEx.String_as_OT.lt_not_eq in Hx.
Qed.

Lemma sorted_unique_string_NoDup (l : list string) :
  NoDup (sorted_unique String.ltb l).
Proof.
  apply string_sorted_NoDup. unfold sorted_unique.
  induction l as [|s l IH]; simpl; [constructor|].
  by apply insert_unique_string_sorted.
Qed.

(** Every source appears at most once in the ranking, and every source
    of the ranking is one of the sources selected in the sidebar. *)
Theorem ranking_sources_distinct `{Pandas} (fs : filesystem) (sb : Sidebar) (p : Page) :
  dashboard fs sb = Ok (Rendered p) →
  NoDup (src p).*1 ∧ ∀ s, s ∈ (src p).*1 → s ∈ sources sb.
Proof.
  intros Hd.
  pose proof (dashboard_inv _ _ _ Hd) as
    (_ & _ & _ & _ & _ & _ & _ & _ & _ & _ & _ & _ & _ & Hsrc & _).
  change (src p = take 10 (series_sort_values false (source_means (fdf p)))) in Hsrc.
  assert ((source_means (fdf p)).*1
          = sorted_unique String.ltb (omap str_key (col (fdf p) "source"))) as Hkeys.
  { rewrite source_means_eq, <- list_fmap_compose.
    rewrite (list_fmap_ext _ id (sorted_unique String.ltb _)) by done.
    apply list_fmap_id. }
  split.
  - rewrite Hsrc, fmap_take. eapply sublist_NoDup; [|apply sublist_take].
    rewrite series_sort_values_perm, Hkeys. apply sorted_unique_string_NoDup.
  - intros s Hs. rewrite Hsrc, fmap_take in Hs.
    apply elem_of_take in Hs as (i & Hi & _). apply list_elem_of_lookup_2 in Hi.
    rewrite series_sort_values_perm, Hkeys in Hi.
    rewrite (elem_of_sorted_unique _ String_ltb_eq), elem_of_omap_str in Hi.
    unfold col in Hi. apply list_elem_of_fmap in Hi as (r & Hr & Hin).
    destruct (fdf_rows _ _ _ Hd) as (df & lo & hi & matcher & _ & _ & _ & _ & _ & Hperm).
    rewrite Hperm in Hin. apply elem_of_filter_bool in Hin as [_ Hkept].
    unfold row_kept in Hkept.
    apply andb_true_iff in Hkept as [Hkept _].
    apply andb_true_iff in Hkept as [Hkept _].
    apply andb_true_iff in Hkept as [_ Hisin].
    rewrite <- Hr in Hisin. simpl in Hisin. by apply bool_decide_eq_true_1 in Hisin.
Qed.

Lemma ranking_sources_distinct_witness :
  let p := page_of (@dashboard pandas_ref (file_with sample_rows) sample_sidebar) in
  NoDup (src p).*1 ∧ ∀ s, s ∈ (src p).*1 → s ∈ sources sample_sidebar.
Proof.
  apply (@ranking_sources_distinct pandas_ref (file_with sample_rows) sample_sidebar).
  vm_compute. reflexivity.
Defined.

(** The ranking of sources holds per-source means of the filtered view;
    it has the 10 first entries of the sorted means, or all of them when
    there are fewer, and it is sorted non-increasing by mean.  Its entries
    are the sources of highest mean: no source that is left out has a mean
    above the mean of a source that is kept.  The order among sources of
    equal mean is the library sort's and no part of the statement. *)
Theorem ranking_top_ten_by_mean `{Pandas} (fs : filesystem) (sb : Sidebar) (p : Page) :
  dashboard fs sb = Ok (Rendered p) →
  length (src p) = (10 `min` length (source_means (fdf p)))%nat ∧
  (∃ ms : list (string * Q),
     src p = (fun x => (x.1, Num x.2)) <$> ms ∧
     StronglySorted (fun a b => (b.2 <= a.2)%Q) ms) ∧
  (∀ a, a ∈ src p → a ∈ source_means (fdf p)) ∧
  source_means (fdf p) =
    (fun s => (s, series_mean (scores_of_source s (fdf p))))
      <$> sorted_unique String.ltb (omap str_key (col (fdf p) "source")) ∧
  (∀ s, s ∈ sorted_unique String.ltb (omap str_key (col (fdf p) "source"))
        ↔ Str s ∈ col (fdf p) "source") ∧
  (∀ a b, a ∈ source_means (fdf p) → a ∉ src p → b ∈ src p →
          (number_of a.2 <= number_of b.2)%Q) ∧
  ((length (source_means (fdf p)) ≤ 10)%nat → src p ≡ₚ source_means (fdf p)).
Proof.
  intros Hd.
  pose proof (dashboard_fdf_typed _ _ _ Hd) as Htyped.
  pose proof (dashboard_inv _ _ _ Hd) as
    (_ & _ & _ & _ & _ & _ & _ & _ & _ & _ & _ & _ & _ & Hsrc & _).
  change (src p = take 10 (series_sort_values false (source_means (fdf p)))) in Hsrc.
  pose proof (source_means_present _ Htyped) as Hpresent.
  assert (StronglySorted (leb_rel (fun a b : string * value => value_le false a.2 b.2))
            (series_sort_values false (source_means (fdf p)))) as Hsorted.
  { rewrite (series_sort_values_present _ _ Hpresent).
    apply (sort_by_value_sorted (fun a : string * value => a.2)). }
  assert (Forall (fun a : string * value => ∃ q, a.2 = Num q) (src p)) as Hsrcp.
  { rewrite Hsrc. apply Forall_forall. intros a Ha.
    apply elem_of_take in Ha as (i & Hi & _). apply list_elem_of_lookup_2 in Hi.
    rewrite series_sort_values_perm in Hi. rewrite Forall_forall in Hpresent. auto. }
  split; [|split; [|split; [|split; [|split; [|split]]]]].
  - rewrite Hsrc, length_take.
    by rewrite (Permutation_length (series_sort_values_perm false _)).
  - exists ((fun a => (a.1, number_of a.2)) <$> src p). split.
    + rewrite <- list_fmap_compose. rewrite <- (list_fmap_id (src p)) at 1.
      apply Forall_fmap_ext_1. eapply Forall_impl; [exact Hsrcp|].
      intros [s v] [q Hq]. simpl in *. by rewrite Hq.
    + eapply (StronglySorted_fmap_on
                (leb_rel (fun a b : string * value => value_le false a.2 b.2))
                _ _ (fun a => ∃ q, a.2 = Num q) _ _ Hsrcp).
      rewrite Hsrc. by apply StronglySorted_take.
  - intros a Ha. rewrite Hsrc in Ha.
    apply elem_of_take in Ha as (i & Hi & _). apply list_elem_of_lookup_2 in Hi.
    by rewrite series_sort_values_perm in Hi.
  - apply source_means_eq.
  - intros s. by rewrite (elem_of_sorted_unique _ String_ltb_eq), elem_of_omap_str.
  - intros a b Ha Hna Hb. rewrite Hsrc in Hna, Hb.
    rewrite <- (series_sort_values_perm false) in Ha.
    rewrite <- (take_drop 10 (series_sort_values false _)) in Ha, Hsorted.
    apply elem_of_app in Ha as [Ha|Ha]; [done|].
    pose proof (StronglySorted_app_1_elem_of _ _ _ _ _ Hsorted Hb Ha) as Hle.
    unfold leb_rel, value_le in Hle. by apply Qle_bool_iff in Hle.
  - intros Hle. rewrite Hsrc, take_ge.
    + apply series_sort_values_perm.
    + by rewrite series_sort_values_perm.
  Unshelve.
  intros a b [qa Ha] [qb Hb]. unfold leb_rel, value_le. simpl.
  rewrite Ha, Hb. simpl. by rewrite Qle_bool_iff.
Qed.

Lemma ranking_top_ten_by_mean_witness :
  let p := page_of (@dashboard pandas_ref (file_with sample_rows) sample_sidebar) in
  length (src p) = (10 `min` length (source_means (fdf p)))%nat ∧
  (∃ ms : list (string * Q),
     src p = (fun x => (x.1, Num x.2)) <$> ms ∧
     StronglySorted (fun a b => (b.2 <= a.2)%Q) ms) ∧
  (∀ a, a ∈ src p → a ∈ source_means (fdf p)) ∧
  source_means (fdf p) =
    (fun s => (s, series_mean (scores_of_source s (fdf p))))
      <$> sorted_unique String.ltb (omap str_key (col (fdf p) "source")) ∧
  (∀ s, s ∈ sorted_unique String.ltb (omap str_key (col (fdf p) "source"))
        ↔ Str s ∈ col (fdf p) "source") ∧
  (∀ a b, a ∈ source_means (fdf p) → a ∉ src p → b ∈ src p →
          (number_of a.2 <= number_of b.2)%Q) ∧
  ((length (source_means (fdf p)) ≤ 10)%nat → src p ≡ₚ source_means (fdf p)).
Proof.
  apply (@ranking_top_ten_by_mean pandas_ref (file_with sample_rows) sample_sidebar).
  vm_compute. reflexivity.
Defined.
